(** * LLM-Docs: extraction cascade, line deduplication, URL normalisation
      and crawl orchestration

    A shallow embedding of [llm_docify/app/parser.py] and
    [llm_docify/app/crawler.py].  Python strings are modelled as sequences
    of 8-bit code points ([string]); Python sets of strings as [gset string];
    the insertion-ordered dictionary [failed_urls] as an association list;
    exceptions as the [Raise] alternative of [Py.result].  The third-party
    libraries the code calls (requests, trafilatura, readability, html2text,
    hashlib, the HTML parser behind BeautifulSoup, urljoin, the robots.txt
    parser) are fields of the class [Env]; what the code itself does with
    their results is modelled here.  The file [llms.md] is the text it
    holds; writing to it is taken to succeed. *)

From Stdlib Require Import ZArith QArith.QArith_base Ascii String List Lia.
From Stdlib Require Import Numbers.DecimalString.
From stdpp Require Import base tactics option list gmap strings.

Set Warnings "-register-all,-clear-no-such-hyp".

Local Open Scope stdpp_scope.
Local Open Scope list_scope.

(* ===================================================================== *)
(** * Part I — definitions *)
(* ===================================================================== *)

(** ** Python built-ins used by the two modules *)

Module Py.

(** Outcome of a call that may raise; [Raise msg] carries [str(e)]. *)
Inductive result (A : Type) : Type :=
| Ok (a : A)
| Raise (msg : string).
Arguments Ok {A} a.
Arguments Raise {A} msg.

Definition bind {A B} (r : result A) (k : A → result B) : result B :=
  match r with
  | Ok a => k a
  | Raise m => Raise m
  end.

(** Truth value of an [Optional[str]]: [None] and [""] are falsy. *)
Definition truthy (o : option string) : bool :=
  match o with
  | Some (String _ _) => true
  | _ => false
  end.

Definition code (c : ascii) : N := N_of_ascii c.

(** [str.isspace] on code points below 256. *)
Definition isspace (c : ascii) : bool :=
  let n := code c in
  ((9 <=? n) && (n <=? 13) || (28 <=? n) && (n <=? 32)
   || (n =? 133) || (n =? 160))%N.

Fixpoint lstrip_by (P : ascii → bool) (s : string) : string :=
  match s with
  | String c s' => if P c then lstrip_by P s' else s
  | EmptyString => EmptyString
  end.

Fixpoint rstrip_by (P : ascii → bool) (s : string) : string :=
  match s with
  | String c s' =>
      match rstrip_by P s' with
      | EmptyString => if P c then EmptyString else String c EmptyString
      | r => String c r
      end
  | EmptyString => EmptyString
  end.

(** [s.strip()] *)
Definition strip (s : string) : string := rstrip_by isspace (lstrip_by isspace s).

(** [s.split(sep)] for a one-character separator: never the empty list. *)
Fixpoint split (sep : ascii) (s : string) : list string :=
  match s with
  | EmptyString => [EmptyString]
  | String c s' =>
      if Ascii.eqb c sep then EmptyString :: split sep s'
      else match split sep s' with
           | w :: ws => String c w :: ws
           | [] => [String c EmptyString]
           end
  end.

(** [sep.join(l)] *)
Fixpoint join (sep : string) (l : list string) : string :=
  match l with
  | [] => ""
  | [w] => w
  | w :: ws => w +:+ sep +:+ join sep ws
  end.

(** [s.startswith(p)] *)
Definition startswith (s p : string) : bool := String.prefix p s.

(** [s.endswith(p)] *)
Fixpoint endswith (s p : string) : bool :=
  String.eqb s p ||
  match s with
  | String _ s' => endswith s' p
  | EmptyString => false
  end.

(** [s.replace(old, new)] for a non-empty [old]: occurrences are found left
    to right and do not overlap; [skip] counts the characters of a matched
    occurrence still to be passed over. *)
Fixpoint replace_from (skip : nat) (old new s : string) : string :=
  match s with
  | EmptyString => EmptyString
  | String c s' =>
      match skip with
      | S k => replace_from k old new s'
      | O => if String.prefix old s
             then new +:+ replace_from (String.length old - 1) old new s'
             else String c (replace_from 0 old new s')
      end
  end.

Definition replace (s old new : string) : string := replace_from 0 old new s.

Definition lower_char (c : ascii) : ascii :=
  let n := code c in
  if ((65 <=? n) && (n <=? 90) || (192 <=? n) && (n <=? 222) && negb (n =? 215))%N
  then ascii_of_N (n + 32) else c.

(** [s.lower()] on code points below 256. *)
Fixpoint lower (s : string) : string :=
  match s with
  | String c s' => String (lower_char c) (lower s')
  | EmptyString => EmptyString
  end.

(** [c in s] *)
Fixpoint contains (c : ascii) (s : string) : bool :=
  match s with
  | String d s' => Ascii.eqb c d || contains c s'
  | EmptyString => false
  end.

(** [(s[:i], s[i:])] for the first position [i] whose character satisfies
    [P], and [(s, "")] when there is none. *)
Fixpoint break (P : ascii → bool) (s : string) : string * string :=
  match s with
  | String c s' =>
      if P c then (EmptyString, s)
      else let '(a, b) := break P s' in (String c a, b)
  | EmptyString => (EmptyString, EmptyString)
  end.

(** [str(n)] for an [int]. *)
Definition str_of_Z (z : Z) : string := NilZero.string_of_int (Z.to_int z).

(** [str(b)] for a [bool]. *)
Definition str_of_bool (b : bool) : string := if b then "True" else "False".

(** [d[k] = v] on an insertion-ordered [dict]: an existing key keeps its
    position, a new key goes to the end. *)
Fixpoint dict_set (k v : string) (d : list (string * string)) : list (string * string) :=
  match d with
  | [] => [(k, v)]
  | (k', v') :: d' => if String.eqb k k' then (k, v) :: d' else (k', v') :: dict_set k v d'
  end.

End Py.

#[global] Instance result_bind : MBind Py.result := fun A B k r => Py.bind r k.
#[global] Instance result_ret : MRet Py.result := fun A a => Py.Ok a.

(** ** The document tree BeautifulSoup builds

    [Text] is a [NavigableString] that [get_text] reports; [Other] is any
    other string node (comment, doctype, script or style text) and holds the
    markup it prints as.  The [BeautifulSoup] object is the [Elem] named
    ["[document]"]. *)

Module Soup.

Inductive node : Type :=
| Text (s : string)
| Other (markup : string)
| Elem (name : string) (attrs : list (string * string)) (children : list node).

Definition is_elem (n : node) : bool :=
  match n with Elem _ _ _ => true | _ => false end.

Definition named (t : string) (n : node) : bool :=
  match n with Elem nm _ _ => String.eqb nm t | _ => false end.

Fixpoint lookup_attr (k : string) (attrs : list (string * string)) : option string :=
  match attrs with
  | [] => None
  | (k', v) :: r => if String.eqb k k' then Some v else lookup_attr k r
  end.

(** [tag.get(k)] *)
Definition attr (k : string) (n : node) : option string :=
  match n with Elem _ a _ => lookup_attr k a | _ => None end.

(** The selectors the code uses: a tag name, [#id], [.class], [[k='v']]. *)
Inductive simple_selector : Type :=
| ByTag (t : string)
| ById (i : string)
| ByClass (c : string)
| ByAttr (k v : string).

Definition is_char (c d : ascii) : bool := Ascii.eqb c d.

(** Reading of one selector of the shapes above. *)
Definition css_simple (s : string) : simple_selector :=
  match s with
  | String "#" r => ById r
  | String "." r => ByClass r
  | String "[" r =>
      let '(k, rest) := Py.break (is_char "=") r in
      match rest with
      | String _ (String _ v) => ByAttr k (fst (Py.break (is_char "'") v))
      | _ => ByAttr k ""
      end
  | _ => ByTag s
  end.

(** A selector list [a, b, c] matches what any of its members matches. *)
Definition css (s : string) : list simple_selector :=
  map (fun w => css_simple (Py.strip w)) (Py.split "," s).

Definition matches_simple (sel : simple_selector) (n : node) : bool :=
  is_elem n &&
  match sel with
  | ByTag t => named t n
  | ById i => match attr "id" n with Some v => String.eqb v i | None => false end
  | ByClass c =>
      match attr "class" n with
      | Some v => existsb (String.eqb c) (String.words v)
      | None => false
      end
  | ByAttr k v => match attr k n with Some w => String.eqb w v | None => false end
  end.

Definition matches (sel : string) (n : node) : bool :=
  existsb (fun s => matches_simple s n) (css sel).

(** [for e in n.find_all(P): e.decompose()]: every descendant satisfying [P]
    is removed from the tree, in place. *)
Fixpoint decompose_all (P : node → bool) (n : node) : node :=
  match n with
  | Elem nm a ch =>
      Elem nm a (omap (fun c => if P c then None else Some (decompose_all P c)) ch)
  | _ => n
  end.

(** First descendant satisfying [P], in document order ([find], [select_one]). *)
Fixpoint first_match (P : node → bool) (n : node) : option node :=
  match n with
  | Elem _ _ ch =>
      (fix go (l : list node) : option node :=
         match l with
         | [] => None
         | c :: r =>
             if P c then Some c
             else match first_match P c with
                  | Some e => Some e
                  | None => go r
                  end
         end) ch
  | _ => None
  end.

(** The tree after the first descendant satisfying [P] has been changed in
    place to [f] of itself. *)
Fixpoint update_first (P : node → bool) (f : node → node) (n : node) : node :=
  match n with
  | Elem nm a ch =>
      Elem nm a
        ((fix go (l : list node) : list node :=
            match l with
            | [] => []
            | c :: r =>
                if P c then f c :: r
                else match first_match P c with
                     | Some _ => update_first P f c :: r
                     | None => c :: go r
                     end
            end) ch)
  | _ => n
  end.

(** All descendants satisfying [P], in document order ([find_all]). *)
Fixpoint find_all (P : node → bool) (n : node) : list node :=
  match n with
  | Elem _ _ ch =>
      flat_map (fun c => (if P c then [c] else []) ++ find_all P c) ch
  | _ => []
  end.

(** The text strings below a node, in document order. *)
Fixpoint strings (n : node) : list string :=
  match n with
  | Text s => [s]
  | Other _ => []
  | Elem _ _ ch => flat_map strings ch
  end.

Fixpoint concat_strings (l : list string) : string :=
  match l with
  | [] => ""
  | s :: r => s +:+ concat_strings r
  end.

(** [n.get_text(strip=True)]: every string stripped, empty ones dropped,
    the rest concatenated. *)
Definition get_text_strip (n : node) : string :=
  concat_strings
    (List.filter (fun s => negb (String.eqb s "")) (map Py.strip (strings n))).

(** Output formatting of [str(tag)] with the default formatter. *)
Fixpoint escape (s : string) : string :=
  match s with
  | EmptyString => EmptyString
  | String c r =>
      (if is_char c "&" then "&amp;"
       else if is_char c "<" then "&lt;"
       else if is_char c ">" then "&gt;"
       else String c "") +:+ escape r
  end.

Definition dquote : string := String "034" "".

Definition quoted (v : string) : string :=
  let v := escape v in
  if Py.contains "034" v then
    if Py.contains "'" v then dquote +:+ Py.replace v dquote "&quot;" +:+ dquote
    else "'" +:+ v +:+ "'"
  else dquote +:+ v +:+ dquote.

Definition void_tags : list string :=
  ["area"; "base"; "br"; "col"; "embed"; "hr"; "img"; "input"; "keygen";
   "link"; "menuitem"; "meta"; "param"; "source"; "track"; "wbr";
   "basefont"; "bgsound"; "command"; "frame"; "image"; "isindex"; "nextid";
   "spacer"].

Definition render_attrs (a : list (string * string)) : string :=
  concat_strings (map (fun '(k, v) => " " +:+ k +:+ "=" +:+ quoted v) a).

(** [str(n)] *)
Fixpoint render (n : node) : string :=
  match n with
  | Text s => escape s
  | Other m => m
  | Elem nm a ch =>
      match ch with
      | [] =>
          if existsb (String.eqb nm) void_tags
          then "<" +:+ nm +:+ render_attrs a +:+ "/>"
          else "<" +:+ nm +:+ render_attrs a +:+ "></" +:+ nm +:+ ">"
      | _ =>
          "<" +:+ nm +:+ render_attrs a +:+ ">"
          +:+ concat_strings (map render ch) +:+ "</" +:+ nm +:+ ">"
      end
  end.

(** A test on a node that does not look at its children. *)
Definition shallow (P : node → bool) : Prop :=
  ∀ nm a ch ch', P (Elem nm a ch) = P (Elem nm a ch').

End Soup.

(** ** What the code takes from outside

    One field per library call or observation of the outside world the two
    modules make; every result below is a function of these. *)

Class Env : Type := {
  (** [hashlib.md5(s.encode()).hexdigest()] *)
  md5_hexdigest : string → string;
  (** [urllib.parse.urljoin(base, url)] *)
  urljoin : string → string → Py.result string;
  (** the netloc validations of [urlsplit] that raise [ValueError], beyond
      the bracket balance modelled in [Url.urlsplit] *)
  netloc_check : string → option string;
  (** [BeautifulSoup(html, 'html.parser')] *)
  html_parser : string → Soup.node;
  (** [trafilatura.extract(html, output_format='html', ...)] *)
  trafilatura_extract : string → Py.result (option string);
  (** [Document(html)] with its [title()] and [summary()] *)
  readability_document : string → Py.result (string * string);
  (** [HTML2Text().handle(html)] with the converter options of the code *)
  html2text_handle : string → Py.result string;
  (** [requests.get(url, headers=..., timeout=15)], [raise_for_status()] and
      [.text]; [Raise] is a [requests.RequestException] *)
  requests_get_checked : string → Py.result string;
  (** [requests.get(url, timeout=15).text] *)
  requests_get_text : string → Py.result string;
  (** [RobotFileParser(robots_url).read()]: the [can_fetch(agent, url)] of
      the parser after the call, which answers or raises (it parses the
      unquoted URL), or the exception [read] raised; on an HTTP error status
      [read] does not raise but returns, leaving a parser that refuses
      everything (401, 403, 5xx) or allows everything (other 4xx) *)
  robots_read : string → Py.result (string → string → Py.result bool);
  (** [time.strftime('%Y-%m-%d %H:%M:%S')] *)
  strftime : string;
}.

(** ** urllib.parse.urlparse (CPython 3.11) *)

Module Url.

Record parts : Type := Parts {
  scheme : string;
  netloc : string;
  path : string;
  params : string;
  query : string;
  fragment : string;
}.

Definition c0_control_or_space (c : ascii) : bool := (Py.code c <=? 32)%N.

Definition unsafe_byte (c : ascii) : bool :=
  let n := Py.code c in ((n =? 9) || (n =? 10) || (n =? 13))%N.

Fixpoint remove (P : ascii → bool) (s : string) : string :=
  match s with
  | String c r => if P c then remove P r else String c (remove P r)
  | EmptyString => EmptyString
  end.

Fixpoint all_chars (P : ascii → bool) (s : string) : bool :=
  match s with
  | String c r => P c && all_chars P r
  | EmptyString => true
  end.

Definition ascii_alpha (c : ascii) : bool :=
  let n := Py.code c in
  ((65 <=? n) && (n <=? 90) || (97 <=? n) && (n <=? 122))%N.

Definition scheme_char (c : ascii) : bool :=
  let n := Py.code c in
  (ascii_alpha c || (48 <=? n) && (n <=? 57)
   || (n =? 43) || (n =? 45) || (n =? 46))%N.

(** [i = url.find(':')] and the scheme test of [urlsplit]. *)
Definition split_scheme (url : string) : string * string :=
  let '(pre, rest) := Py.break (Soup.is_char ":") url in
  match pre, rest with
  | String c _, String _ post =>
      if ascii_alpha c && all_chars scheme_char pre
      then (Py.lower pre, post) else ("", url)
  | _, _ => ("", url)
  end.

Definition netloc_delim (c : ascii) : bool :=
  Soup.is_char c "/" || Soup.is_char c "?" || Soup.is_char c "#".

(** [if url[:2] == '//': netloc, url = _splitnetloc(url, 2)] *)
Definition split_netloc (url : string) : string * string :=
  match url with
  | String "/" (String "/" r) => Py.break netloc_delim r
  | _ => ("", url)
  end.

(** [url, x = url.split(c, 1)] when [c in url]. *)
Definition split_once (c : ascii) (url : string) : string * string :=
  match Py.break (Soup.is_char c) url with
  | (a, String _ b) => (a, b)
  | (a, EmptyString) => (a, "")
  end.

Definition unbalanced_brackets (n : string) : bool :=
  Py.contains "[" n && negb (Py.contains "]" n)
  || Py.contains "]" n && negb (Py.contains "[" n).

(** [(url[:k+1], url[k+1:])] for the last ['/'] at [k]; [("", url)] when
    there is none. *)
Fixpoint split_last_segment (url : string) : string * string :=
  match url with
  | EmptyString => ("", "")
  | String c r =>
      let '(d, l) := split_last_segment r in
      if Soup.is_char c "/" then (String c d, l)
      else match d with
           | EmptyString => ("", String c l)
           | _ => (String c d, l)
           end
  end.

(** [_splitparams(url)[0]]: the path up to the first [';'] of its last
    segment. *)
Definition strip_params (url : string) : string * string :=
  let '(d, l) := split_last_segment url in
  let '(a, b) := split_once ";" l in
  (d +:+ a, b).

Definition uses_params : list string :=
  [""; "ftp"; "hdl"; "prospero"; "http"; "imap"; "https"; "shttp"; "rtsp";
   "rtspu"; "sip"; "sips"; "mms"; "sftp"; "tel"].

Section WithEnv.
Context `{Env}.

Definition urlparse (url : string) : Py.result parts :=
  let url := remove unsafe_byte (Py.lstrip_by c0_control_or_space url) in
  let '(scheme, url) := split_scheme url in
  let '(netloc, url) := split_netloc url in
  if unbalanced_brackets netloc then Py.Raise "Invalid IPv6 URL" else
  let '(url, fragment) := split_once "#" url in
  let '(url, query) := split_once "?" url in
  match netloc_check netloc with
  | Some msg => Py.Raise msg
  | None =>
      let '(url, params) :=
        if existsb (String.eqb scheme) uses_params && Py.contains ";" url
        then strip_params url else (url, "") in
      Py.Ok (Parts scheme netloc url params query fragment)
  end.

End WithEnv.
End Url.

(** ** Notions about strings used in the statements on URLs *)

Module Str.

(** No character of [s] satisfies [P]. *)
Definition lacks (P : ascii → bool) (s : string) : Prop :=
  Url.all_chars (fun c => negb (P c)) s = true.

Definition first_char (s : string) : option ascii :=
  match s with String c _ => Some c | EmptyString => None end.

Fixpoint last_char (s : string) : option ascii :=
  match s with
  | EmptyString => None
  | String c EmptyString => Some c
  | String _ r => last_char r
  end.

(** The last character is a slash, or there is none. *)
Definition ends_in_slash (e : string) : bool :=
  match last_char e with
  | Some c => Ascii.eqb c "/"
  | None => true
  end.

End Str.

(** ** parser.py *)

Definition nl : string := String "010" "".

Section Parser.
Context `{Env}.

Definition NOISE_TAGS : list string :=
  ["script"; "style"; "nav"; "footer"; "aside";
   "noscript"; "form"; "svg"; "iframe"; "header"].

(** [fetch_url]: a [RequestException] is re-raised as [ValueError]. *)
Definition fetch_url (url : string) : Py.result string :=
  match requests_get_checked url with
  | Py.Ok text => Py.Ok text
  | Py.Raise e => Py.Raise ("Failed to fetch URL " +:+ url +:+ ": " +:+ e)
  end.

(** The loop [for tag in NOISE_TAGS: for e in n.find_all(tag): e.decompose()]
    shared by [clean_html] and [extract_with_selector]. *)
Definition remove_noise (n : Soup.node) : Soup.node :=
  fold_left (fun n tag => Soup.decompose_all (Soup.named tag) n) NOISE_TAGS n.

Definition clean_html (html_content : string) : Soup.node :=
  remove_noise (html_parser html_content).

Definition extract_with_readability (html_content : string) : option string :=
  match readability_document html_content with
  | Py.Raise _ => None
  | Py.Ok (title, content) =>
      if String.eqb content "" || (String.length content <? 500)%nat then None
      else if negb (String.eqb title "")
           then Some ("<h1>" +:+ title +:+ "</h1>" +:+ nl +:+ content)
           else Some content
  end.

Definition extract_with_trafilatura (html_content : string) : option string :=
  match trafilatura_extract html_content with
  | Py.Raise _ => None
  | Py.Ok extracted_html =>
      if negb (Py.truthy extracted_html) then None
      else match extracted_html with
           | Some e => if (String.length e <? 500)%nat then None else Some e
           | None => None
           end
  end.

(** [extract_with_selector]: the noise tags are decomposed inside the
    selected element, which is part of [soup]; the tree after the call is
    returned with the result. *)
Definition extract_with_selector (soup : Soup.node) (selector : string)
  : Soup.node * option string :=
  match Soup.first_match (Soup.matches selector) soup with
  | None => (soup, None)
  | Some element =>
      let element := remove_noise element in
      let soup := Soup.update_first (Soup.matches selector) (fun _ => element) soup in
      if (String.length (Soup.get_text_strip element) <? 200)%nat then (soup, None)
      else (soup, Some (Soup.render element))
  end.

Definition convert_to_markdown (html_content : string) : Py.result string :=
  html2text_handle html_content.

(** One iteration of the loop of [deduplicate_content] on the pair
    [(unique_lines, seen_content)]. *)
Definition dedup_line (acc : list string * gset string) (line : string)
  : list string * gset string :=
  let '(unique_lines, seen_content) := acc in
  let line_hash := md5_hexdigest (Py.strip line) in
  if (40 <? String.length (Py.strip line))%nat && bool_decide (line_hash ∈ seen_content)
  then (unique_lines, seen_content)
  else
    let unique_lines := unique_lines ++ [line] in
    if (40 <? String.length (Py.strip line))%nat
    then (unique_lines, {[ line_hash ]} ∪ seen_content)
    else (unique_lines, seen_content).

Definition deduplicate_content (markdown : string) (seen_content : gset string)
  : string * gset string :=
  let lines := Py.split "010" markdown in
  let '(unique_lines, seen_content) := fold_left dedup_line lines ([], seen_content) in
  (Py.join nl unique_lines, seen_content).

(** The local variables of the cascade in [parse_url_to_markdown]; [attempted]
    lists the strategies evaluated so far, in order. *)
Record cascade : Type := Cascade {
  extracted_html : option string;
  strategy_used : string;
  soup : Soup.node;
  attempted : list string;
}.

Definition failed (st : cascade) : bool := negb (Py.truthy (extracted_html st)).

Definition try_raw (name : string) (extractor : string → option string)
    (html_content : string) (st : cascade) : cascade :=
  let r := extractor html_content in
  Cascade r (if Py.truthy r then name else strategy_used st)
          (soup st) (attempted st ++ [name]).

Definition try_selector (selector name : string) (st : cascade) : cascade :=
  let '(soup', r) := extract_with_selector (soup st) selector in
  Cascade r (if Py.truthy r then name else strategy_used st)
          soup' (attempted st ++ [name]).

Definition CONTENT_SELECTORS : list string :=
  ["#content"; ".content"; "[role='main']"; ".main-content"; "#main-content"].

(** [for content_selector in [...]: ...; if extracted_html: ...; break] *)
Fixpoint try_content_selectors (selectors : list string) (st : cascade) : cascade :=
  match selectors with
  | [] => st
  | content_selector :: rest =>
      let st := try_selector content_selector ("selector:" +:+ content_selector) st in
      if Py.truthy (extracted_html st) then st else try_content_selectors rest st
  end.

Definition BODY_NOISE : string :=
  ".sidebar, .comments, .related, .recommended, .ad, .advertisement".

Definition try_body (st : cascade) : cascade :=
  match Soup.first_match (Soup.named "body") (soup st) with
  | Some body =>
      let body := Soup.decompose_all (Soup.matches BODY_NOISE) body in
      Cascade (Some (Soup.render body)) "body-fallback"
              (Soup.update_first (Soup.named "body") (fun _ => body) (soup st))
              (attempted st ++ ["body-fallback"])
  | None =>
      Cascade (extracted_html st) (strategy_used st) (soup st)
              (attempted st ++ ["body-fallback"])
  end.

(** Lines 210 to 261 of [parse_url_to_markdown]: the strategies in the order
    written, each behind [if not extracted_html]. *)
Definition extract_cascade (html_content : string) : cascade :=
  let st := Cascade None "unknown" (clean_html html_content) [] in
  let st := try_raw "trafilatura" extract_with_trafilatura html_content st in
  let st := if failed st
            then try_raw "readability" extract_with_readability html_content st
            else st in
  let st := if failed st then try_selector "main" "main" st else st in
  let st := if failed st then try_selector "article" "article" st else st in
  let st := if failed st then try_content_selectors CONTENT_SELECTORS st else st in
  let st := if failed st then try_body st else st in
  st.

(** What the cascade hands on: the fragment and the strategy name, or the
    [ValueError] of line 265. *)
Definition extract (url html_content : string) : Py.result (string * string) :=
  let st := extract_cascade html_content in
  match extracted_html st with
  | Some (String c e) => Py.Ok (String c e, strategy_used st)
  | _ => Py.Raise ("Could not extract content from " +:+ url +:+ " using any strategy")
  end.

(** [parse_url_to_markdown], with the file [llms.md] it overwrites on
    success: the content of the file after the call and the outcome. *)
Definition parse_url_to_markdown (url : string) (llms_md : option string)
  : option string * Py.result string :=
  let body : Py.result string :=
    html_content ← fetch_url url;
    '(extracted, strategy) ← extract url html_content;
    markdown ← convert_to_markdown extracted;
    let '(markdown, _) := deduplicate_content markdown ∅ in
    Py.Ok ("# " +:+ url +:+ nl +:+ nl +:+ "*Extracted using: " +:+ strategy
           +:+ "*" +:+ nl +:+ nl +:+ markdown) in
  match body with
  | Py.Ok markdown => (Some markdown, Py.Ok markdown)
  | Py.Raise e => (llms_md, Py.Raise ("Failed to process URL: " +:+ e))
  end.

End Parser.

(** ** crawler.py *)

Definition SKIP_EXTENSIONS : list string :=
  [".pdf"; ".doc"; ".docx"; ".ppt"; ".pptx"; ".xls"; ".xlsx";
   ".zip"; ".rar"; ".tar"; ".gz"; ".7z";
   ".jpg"; ".jpeg"; ".png"; ".gif"; ".bmp"; ".svg"; ".webp";
   ".mp3"; ".mp4"; ".avi"; ".mov"; ".wmv"; ".flv";
   ".exe"; ".bin"; ".iso"; ".dmg"; ".apk"; ".ipa"].

(** The attributes of a [WebsiteCrawler] that [__init__] sets and nothing
    changes afterwards. *)
Record crawler : Type := Crawler {
  start_url : string;
  allow_subdomains : bool;
  max_pages : Z;
  delay : Q;
  respect_robots : bool;
  scheme : string;
  netloc : string;
  domain : string;
  robots_parser : option (string → string → Py.result bool);
}.

(** Calls that leave the process, in the order made. *)
Inductive event : Type :=
| Pipeline (url : string) (outcome : Py.result string)
    (** [parse_url_to_markdown(url)] and what it returned or raised *)
| Refetch (url : string)
    (** [requests.get(url, timeout=15)] of line 271 *)
| Sleep.
    (** [time.sleep(self.delay)] returned *)

(** The attributes the crawl mutates, the locals of [crawl], the file
    [llms.md] and the calls made so far. *)
Record crawl_state : Type := State {
  queue : list string;
  visited_urls : gset string;
  content_hashes : gset string;
  failed_urls : list (string * string);
  pages_crawled : Z;
  all_markdown : string;
  llms_md : option string;
  events : list event;
}.

(** How a block of the loop body ends. *)
Inductive flow : Type :=
| Falls_through
| Continue
| Raised (msg : string).

Section Crawler.
Context `{Env}.

Definition _init_robots_parser (scheme netloc : string)
  : option (string → string → Py.result bool) :=
  match robots_read (scheme +:+ "://" +:+ netloc +:+ "/robots.txt") with
  | Py.Ok can_fetch => Some can_fetch
  | Py.Raise _ => None
  end.

(** [WebsiteCrawler.__init__] *)
Definition new_crawler (start_url : string) (allow_subdomains : bool)
    (max_pages : Z) (delay : Q) (respect_robots : bool) : Py.result crawler :=
  parsed ← Url.urlparse start_url;
  let scheme := Url.scheme parsed in
  let netloc := Url.netloc parsed in
  Py.Ok (Crawler start_url allow_subdomains max_pages delay respect_robots
           scheme netloc (Py.replace netloc "www." "")
           (if respect_robots then _init_robots_parser scheme netloc else None)).

Definition in_scope (self : crawler) (netloc : string) : bool :=
  if allow_subdomains self then Py.endswith netloc (domain self)
  else negb (negb (String.eqb netloc (domain self))
             && negb (String.eqb netloc ("www." +:+ domain self))).

Definition _normalize_url (self : crawler) (url parent_url : string)
  : Py.result (option string) :=
  url ← (if negb (Py.startswith url "http://") && negb (Py.startswith url "https://")
         then if Py.startswith url "/"
              then urljoin (scheme self +:+ "://" +:+ netloc self) url
              else urljoin parent_url url
         else Py.Ok url);
  parsed ← Url.urlparse url;
  if negb (String.eqb (Url.scheme parsed) "http" || String.eqb (Url.scheme parsed) "https")
  then Py.Ok None
  else
    let netloc := Py.replace (Url.netloc parsed) "www." "" in
    if negb (in_scope self netloc) then Py.Ok None
    else
      let path := Py.lower (Url.path parsed) in
      if existsb (Py.endswith path) SKIP_EXTENSIONS then Py.Ok None
      else
        let clean_url :=
          Url.scheme parsed +:+ "://" +:+ Url.netloc parsed +:+ Url.path parsed in
        let clean_url :=
          if negb (Py.endswith clean_url "/") then clean_url +:+ "/" else clean_url in
        Py.Ok (Some clean_url).

(** [_can_fetch]: the answer, or the exception of
    [self.robots_parser.can_fetch("*", url)]. *)
Definition _can_fetch (self : crawler) (url : string) : Py.result bool :=
  match robots_parser self with
  | None => Py.Ok true
  | Some can_fetch => can_fetch "*" url
  end.

Definition has_href (n : Soup.node) : bool :=
  Soup.named "a" n && bool_decide (is_Some (Soup.attr "href" n)).

(** The loop of [_extract_links] over the [<a href>] tags. *)
Fixpoint collect_links (self : crawler) (url : string) (a_tags : list Soup.node)
    (links : list string) : Py.result (list string) :=
  match a_tags with
  | [] => Py.Ok links
  | a_tag :: rest =>
      let href := Py.strip (default "" (Soup.attr "href" a_tag)) in
      if String.eqb href "" || Py.startswith href "javascript:" || String.eqb href "#"
      then collect_links self url rest links
      else
        normalized_url ← _normalize_url self href url;
        collect_links self url rest
          (if Py.truthy normalized_url
           then links ++ [default "" normalized_url] else links)
  end.

Definition _extract_links (self : crawler) (url html_content : string)
  : Py.result (list string) :=
  collect_links self url (Soup.find_all has_href (html_parser html_content)) [].

(** [_is_duplicate_content]: the answer and [self.content_hashes] after. *)
Definition _is_duplicate_content (content : string) (content_hashes : gset string)
  : bool * gset string :=
  let content_hash := md5_hexdigest content in
  if bool_decide (content_hash ∈ content_hashes) then (true, content_hashes)
  else (false, {[ content_hash ]} ∪ content_hashes).

Definition time_sleep (d : Q) : Py.result unit :=
  if Qle_bool 0 d then Py.Ok tt else Py.Raise "sleep length must be non-negative".

Definition append_file (f : option string) (s : string) : option string :=
  Some (default "" f +:+ s).

Definition page_section (relative_path page_markdown : string) : string :=
  (nl +:+ nl +:+ "## Page: " +:+ relative_path +:+ nl +:+ nl)
  +:+ page_markdown +:+ (nl +:+ nl +:+ "---" +:+ nl +:+ nl).

(** Lines 245 to 278: the inner [try] block for a URL already popped and
    marked visited. *)
Definition inner_try (self : crawler) (url : string) (st : crawl_state)
  : crawl_state * flow :=
  let '(file, outcome) := parse_url_to_markdown url (llms_md st) in
  let events := events st ++ [Pipeline url outcome] in
  match outcome with
  | Py.Raise e =>
      (State (queue st) (visited_urls st) (content_hashes st) (failed_urls st)
             (pages_crawled st) (all_markdown st) file events, Raised e)
  | Py.Ok page_markdown =>
      let pages_crawled := (pages_crawled st + 1)%Z in
      let '(duplicate, hashes) :=
        _is_duplicate_content page_markdown (content_hashes st) in
      if duplicate then
        (State (queue st) (visited_urls st) hashes (failed_urls st)
               pages_crawled (all_markdown st) file events, Continue)
      else
        match Url.urlparse url with
        | Py.Raise e =>
            (State (queue st) (visited_urls st) hashes (failed_urls st)
                   pages_crawled (all_markdown st) file events, Raised e)
        | Py.Ok parsed =>
            let relative_path :=
              if String.eqb (Url.path parsed) "" then "/" else Url.path parsed in
            let section := page_section relative_path page_markdown in
            let file := append_file file section in
            let all_markdown := all_markdown st +:+ section in
            let events := events ++ [Refetch url] in
            match html_content ← requests_get_text url;
                  _extract_links self url html_content with
            | Py.Raise e =>
                (State (queue st) (visited_urls st) hashes (failed_urls st)
                       pages_crawled all_markdown file events, Raised e)
            | Py.Ok links =>
                let fresh :=
                  List.filter (fun link => negb (bool_decide (link ∈ visited_urls st)))
                              links in
                (State (queue st ++ fresh) (visited_urls st) hashes (failed_urls st)
                       pages_crawled all_markdown file events, Falls_through)
            end
        end
  end.

Definition record_failure (url error : string) (st : crawl_state) : crawl_state :=
  State (queue st) (visited_urls st) (content_hashes st)
        (Py.dict_set url error (failed_urls st))
        (pages_crawled st) (all_markdown st) (llms_md st) (events st).

(** Line 285 inside the outer [try]. *)
Definition sleep_after (self : crawler) (url : string) (st : crawl_state)
  : crawl_state :=
  match time_sleep (delay self) with
  | Py.Ok _ =>
      State (queue st) (visited_urls st) (content_hashes st) (failed_urls st)
            (pages_crawled st) (all_markdown st) (llms_md st) (events st ++ [Sleep])
  | Py.Raise e => record_failure url e st
  end.

(** One pass through the body of the [while] loop, lines 226 to 289, for a
    queue whose head is [url]: the state after it, or the exception that
    leaves [crawl].  The call of [_can_fetch] at line 236 stands outside
    both [try] blocks, so what it raises is not caught. *)
Definition loop_body (self : crawler) (url : string) (st : crawl_state)
  : Py.result crawl_state :=
  if bool_decide (url ∈ visited_urls st) then Py.Ok st
  else
    let st := State (queue st) ({[ url ]} ∪ visited_urls st) (content_hashes st)
                    (failed_urls st) (pages_crawled st) (all_markdown st)
                    (llms_md st) (events st) in
    allowed ← _can_fetch self url;
    if negb allowed
    then Py.Ok (record_failure url "Blocked by robots.txt" st)
    else
      let '(st, how) := inner_try self url st in
      Py.Ok match how with
            | Continue => st
            | Raised e => sleep_after self url (record_failure url e st)
            | Falls_through => sleep_after self url st
            end.

Definition pop (st : crawl_state) (rest : list string) : crawl_state :=
  State rest (visited_urls st) (content_hashes st) (failed_urls st)
        (pages_crawled st) (all_markdown st) (llms_md st) (events st).

(** [while queue and pages_crawled < self.max_pages]: the outcome of one
    iteration, or [None] when the loop is left. *)
Definition step (self : crawler) (st : crawl_state)
  : option (Py.result crawl_state) :=
  match queue st with
  | [] => None
  | url :: rest =>
      if (pages_crawled st <? max_pages self)%Z
      then Some (loop_body self url (pop st rest))
      else None
  end.

Definition file_header (self : crawler) : string :=
  "# Website Crawl: " +:+ start_url self +:+ nl +:+ nl
  +:+ "*Generated on " +:+ strftime +:+ "*" +:+ nl +:+ nl
  +:+ "*Crawl configuration: max_pages=" +:+ Py.str_of_Z (max_pages self)
  +:+ ", allow_subdomains=" +:+ Py.str_of_bool (allow_subdomains self)
  +:+ "*" +:+ nl +:+ nl.

(** The state when the [while] loop is first reached. *)
Definition crawl_start (self : crawler) : crawl_state :=
  State [start_url self] ∅ ∅ [] 0 "" (Some (file_header self)) [].

Definition failure_line (entry : string * string) : string :=
  "* " +:+ fst entry +:+ ": " +:+ snd entry +:+ nl.

Definition summary (st : crawl_state) : string :=
  nl +:+ nl +:+ "## Crawl Summary" +:+ nl +:+ nl
  +:+ "* Total pages crawled: " +:+ Py.str_of_Z (pages_crawled st) +:+ nl
  +:+ "* Total pages visited: "
  +:+ Py.str_of_Z (Z.of_nat (size (visited_urls st))) +:+ nl
  +:+ "* Failed pages: "
  +:+ Py.str_of_Z (Z.of_nat (length (failed_urls st))) +:+ nl
  +:+ match failed_urls st with
      | [] => ""
      | entries =>
          nl +:+ "### Failed URLs" +:+ nl +:+ nl
          +:+ Soup.concat_strings (map failure_line entries)
      end.

(** Lines 291 to 311: what [crawl] returns and the file it leaves. *)
Definition crawl_finish (st : crawl_state) : string * option string :=
  (all_markdown st +:+ summary st, append_file (llms_md st) (summary st)).

(** The [while] loop: the state in which it is left, or the exception an
    iteration raised, when either happens within [fuel] iterations. *)
Fixpoint crawl_loop (fuel : nat) (self : crawler) (st : crawl_state)
  : option (Py.result crawl_state) :=
  match step self st with
  | None => Some (Py.Ok st)
  | Some (Py.Raise e) => Some (Py.Raise e)
  | Some (Py.Ok st') =>
      match fuel with
      | O => None
      | S fuel => crawl_loop fuel self st'
      end
  end.

(** [crawl]: the returned Markdown and the content of [llms.md], or the
    exception raised, when the loop ends within [fuel] iterations. *)
Definition crawl (fuel : nat) (self : crawler)
  : option (Py.result (string * option string)) :=
  match crawl_loop fuel self (crawl_start self) with
  | Some (Py.Ok st) => Some (Py.Ok (crawl_finish st))
  | Some (Py.Raise e) => Some (Py.Raise e)
  | None => None
  end.

End Crawler.

(** ** The statements of the specification, in its own words *)

Section Dedupe_spec.
Context `{Env}.

(** A line is substantive when its trimmed length exceeds 40. *)
Definition substantive (line : string) : bool :=
  (40 <? String.length (Py.strip line))%nat.

(** The fingerprint of a line is taken of its trimmed text. *)
Definition fingerprint (line : string) : string := md5_hexdigest (Py.strip line).

(** [seenHashes] as accumulated when the lines [earlier] of the same input
    have been read: only substantive lines ever contribute. *)
Definition seen_after (seenHashes : gset string) (earlier : list string) : gset string :=
  seenHashes ∪ list_to_set (map fingerprint (List.filter substantive earlier)).

(** The dropping rule of Dedupe for a line read after [earlier]. *)
Definition dropped (seenHashes : gset string) (earlier : list string) (line : string) : bool :=
  substantive line && bool_decide (fingerprint line ∈ seen_after seenHashes earlier).

(** The lines Dedupe lets through, each unchanged and in input order: line
    [i] is judged against the lines before it. *)
Definition surviving (seenHashes : gset string) (lines : list string) : list string :=
  omap id (imap (fun i line =>
                   if dropped seenHashes (take i lines) line then None else Some line)
                lines).

End Dedupe_spec.

Section Cascade_spec.
Context `{Env}.

(** Strategy 1: the primary extractor on the raw HTML; rejected if the
    fragment is absent or shorter than 500 characters. *)
Definition primary_extractor (rawHTML : string) : option string :=
  match trafilatura_extract rawHTML with
  | Py.Ok (Some fragment) =>
      if (500 <=? String.length fragment)%nat then Some fragment else None
  | _ => None
  end.

(** Strategy 2: the secondary extractor on the raw HTML; an existing title
    is prepended as a heading; same 500-character floor on the fragment. *)
Definition secondary_extractor (rawHTML : string) : option string :=
  match readability_document rawHTML with
  | Py.Ok (title, fragment) =>
      if (500 <=? String.length fragment)%nat
      then Some (match title with
                 | EmptyString => fragment
                 | _ => "<h1>" +:+ title +:+ "</h1>" +:+ nl +:+ fragment
                 end)
      else None
  | Py.Raise _ => None
  end.

(** Strategies 3 to 5: the first element matching the selector in the
    cleaned DOM, noise tags stripped again within it, visible text of at
    least 200 characters. *)
Definition by_selector (selector : string) (cleaned : Soup.node) : option string :=
  match Soup.first_match (Soup.matches selector) cleaned with
  | Some element =>
      let element := remove_noise element in
      if (200 <=? String.length (Soup.get_text_strip element))%nat
      then Some (Soup.render element) else None
  | None => None
  end.

(** Strategy 6: the body element after the removal pass by class; succeeds
    whenever a body exists. *)
Definition body_fallback (cleaned : Soup.node) : option string :=
  match Soup.first_match (Soup.named "body") cleaned with
  | Some body => Some (Soup.render (Soup.decompose_all (Soup.matches BODY_NOISE) body))
  | None => None
  end.

(** The strategies in their fixed order, each with its name and with what it
    yields on the raw HTML or on the cleaned DOM. *)
Definition strategies (rawHTML : string) : list (string * option string) :=
  let cleaned := clean_html rawHTML in
  [ ("trafilatura", primary_extractor rawHTML);
    ("readability", secondary_extractor rawHTML);
    ("main", by_selector "main" cleaned);
    ("article", by_selector "article" cleaned);
    ("selector:#content", by_selector "#content" cleaned);
    ("selector:.content", by_selector ".content" cleaned);
    ("selector:[role='main']", by_selector "[role='main']" cleaned);
    ("selector:.main-content", by_selector ".main-content" cleaned);
    ("selector:#main-content", by_selector "#main-content" cleaned);
    ("body-fallback", body_fallback cleaned) ].

(** The fragment of the first strategy that succeeds, with its name. *)
Fixpoint first_success (l : list (string * option string)) : option (string * string) :=
  match l with
  | [] => None
  | (name, Some fragment) :: _ => Some (fragment, name)
  | (_, None) :: rest => first_success rest
  end.

(** The strategies that get evaluated when each one runs only if all the
    ones before it failed. *)
Fixpoint evaluated (l : list (string * option string)) : list string :=
  match l with
  | [] => []
  | (name, Some _) :: _ => [name]
  | (name, None) :: rest => name :: evaluated rest
  end.

End Cascade_spec.

(** ** Notions used in the proofs about the cascade *)

(** No element named by a noise tag below [n]. *)
Definition noise_free (n : Soup.node) : Prop :=
  Forall (fun t => Soup.find_all (Soup.named t) n = []) NOISE_TAGS.

Definition strip_tags (tags : list string) (n : Soup.node) : Soup.node :=
  fold_left (fun n tag => Soup.decompose_all (Soup.named tag) n) tags n.

(** The outcome variables of the cascade after the strategies [l] have had
    their turn. *)
Definition outcome (l : list (string * option string)) (st : cascade) : Prop :=
  attempted st = evaluated l ∧
  match first_success l with
  | Some (f, name) =>
      extracted_html st = Some f ∧ strategy_used st = name
      ∧ Py.truthy (Some f) = true
  | None => Py.truthy (extracted_html st) = false
  end.

(** The same, with the DOM still as cleaned. *)
Definition tracks (cleaned : Soup.node) (l : list (string * option string))
    (st : cascade) : Prop :=
  soup st = cleaned ∧ outcome l st.

(** ** Crawl runs *)

Section Runs.
Context `{Env}.

(** The states the [while] loop of [crawl] passes through. *)
Inductive reachable (self : crawler) : crawl_state → Prop :=
| reachable_start : reachable self (crawl_start self)
| reachable_step st st' :
    reachable self st → step self st = Some (Py.Ok st') → reachable self st'.

(** The URLs handed to the fetch pipeline, in order. *)
Definition pipeline_urls (evs : list event) : list string :=
  omap (fun e => match e with Pipeline url _ => Some url | _ => None end) evs.

Definition is_sleep (e : event) : bool :=
  match e with Sleep => true | _ => false end.

(** How many times the politeness delay was slept. *)
Definition sleeps (evs : list event) : nat := length (List.filter is_sleep evs).

(** The keys of [failed_urls]. *)
Definition failed_keys (st : crawl_state) : list string := map fst (failed_urls st).

(** The robots check lets the URL through. *)
Definition allowed (self : crawler) (url : string) : bool :=
  match _can_fetch self url with
  | Py.Ok answer => answer
  | Py.Raise _ => false
  end.

(** The skip on duplicate content: the pipeline returned Markdown whose hash
    is already in [content_hashes]. *)
Definition duplicate_skip (url : string) (st : crawl_state) : bool :=
  match snd (parse_url_to_markdown url (llms_md st)) with
  | Py.Ok page_markdown =>
      bool_decide (md5_hexdigest page_markdown ∈ content_hashes st)
  | Py.Raise _ => false
  end.

(** The Markdown of a page as converted and deduplicated, lines 209 to 271,
    before the pipeline puts the title and strategy lines in front. *)
Definition converted_markdown (url : string) : Py.result string :=
  html_content ← fetch_url url;
  '(extracted, _) ← extract url html_content;
  markdown ← convert_to_markdown extracted;
  Py.Ok (fst (deduplicate_content markdown ∅)).

(** The state invariant of a crawl. *)
Definition crawl_invariant (self : crawler) (st : crawl_state) : Prop :=
  (0 ≤ pages_crawled st ≤ Z.max 0 (max_pages self))%Z
  ∧ (∀ u, u ∈ failed_keys st → u ∈ visited_urls st)
  ∧ NoDup (pipeline_urls (events st))
  ∧ (∀ u, u ∈ pipeline_urls (events st) → u ∈ visited_urls st)
  ∧ (∀ u md, Pipeline u (Py.Ok md) ∈ events st →
             md5_hexdigest md ∈ content_hashes st).

End Runs.

(** ** The checks and the result of [_normalize_url] on a parsed URL *)

(** The text [_normalize_url] returns, from the parts of the parsed URL. *)
Definition clean_url (p : Url.parts) : string :=
  let c := Url.scheme p +:+ "://" +:+ Url.netloc p +:+ Url.path p in
  if negb (Py.endswith c "/") then c +:+ "/" else c.

(** The checks [_normalize_url] makes on a parsed URL before returning. *)
Definition accepted (self : crawler) (p : Url.parts) : Prop :=
  (Url.scheme p = "http" ∨ Url.scheme p = "https")
  ∧ in_scope self (Py.replace (Url.netloc p) "www." "") = true
  ∧ existsb (Py.endswith (Py.lower (Url.path p))) SKIP_EXTENSIONS = false.

(** ** Notions used in further statements on URLs *)

Section Url_notions.
Context `{Env}.

(** What [urlsplit] and [urlparse] do once the scheme is [scheme] and the
    text after [scheme://], unsafe bytes removed, is [rest]. *)
Definition parse_authority (scheme rest : string) : Py.result Url.parts :=
  let '(netloc, url) := Py.break Url.netloc_delim rest in
  if Url.unbalanced_brackets netloc then Py.Raise "Invalid IPv6 URL" else
  let '(url, fragment) := Url.split_once "#" url in
  let '(url, query) := Url.split_once "?" url in
  match netloc_check netloc with
  | Some msg => Py.Raise msg
  | None =>
      let '(url, params) :=
        if existsb (String.eqb scheme) Url.uses_params && Py.contains ";" url
        then Url.strip_params url else (url, "") in
      Py.Ok (Url.Parts scheme netloc url params query fragment)
  end.

(** Two outcomes of [urlparse] that [_normalize_url] cannot tell apart: the
    same exception, or the same scheme, netloc and path. *)
Definition same_address (r1 r2 : Py.result Url.parts) : Prop :=
  match r1, r2 with
  | Py.Ok p1, Py.Ok p2 =>
      Url.scheme p1 = Url.scheme p2 ∧ Url.netloc p1 = Url.netloc p2
      ∧ Url.path p1 = Url.path p2
  | Py.Raise m1, Py.Raise m2 => m1 = m2
  | _, _ => False
  end.

End Url_notions.

(** The same crawler with [allow_subdomains=True]. *)
Definition with_subdomains (self : crawler) : crawler :=
  Crawler (start_url self) true (max_pages self) (delay self)
          (respect_robots self) (scheme self) (netloc self) (domain self)
          (robots_parser self).

(** The same crawler with another [delay]. *)
Definition with_delay (self : crawler) (d : Q) : crawler :=
  Crawler (start_url self) (allow_subdomains self) (max_pages self) d
          (respect_robots self) (scheme self) (netloc self) (domain self)
          (robots_parser self).

(** ** Notions used in further statements on crawl runs *)

Section Run_notions.
Context `{Env}.

(** A pipeline call that returned Markdown. *)
Definition is_returned (e : event) : bool :=
  match e with Pipeline _ (Py.Ok _) => true | _ => false end.

(** How many pipeline calls returned Markdown. *)
Definition returned (evs : list event) : nat :=
  length (List.filter is_returned evs).

(** The URLs requested a second time, for their links. *)
Definition refetched (evs : list event) : list string :=
  omap (fun e => match e with Refetch url => Some url | _ => None end) evs.

(** The section appended for a page: [## Page:] with
    [parsed.path if parsed.path else "/"], the Markdown and the rule. *)
Definition section_of (url page_markdown : string) : string :=
  match Url.urlparse url with
  | Py.Ok parsed =>
      page_section (if String.eqb (Url.path parsed) "" then "/" else Url.path parsed)
                   page_markdown
  | Py.Raise _ => ""
  end.

(** The pages appended in the calls [evs], each with the Markdown the
    pipeline returned for it: a page is appended when its pipeline call is
    followed by the second request for the page. *)
Fixpoint appended (evs : list event) : list (string * string) :=
  match evs with
  | [] => []
  | Pipeline url (Py.Ok page_markdown) :: ((Refetch _ :: _) as rest) =>
      (url, page_markdown) :: appended rest
  | _ :: rest => appended rest
  end.

(** The sections of the pages appended in the calls [evs], in order. *)
Definition sections (evs : list event) : string :=
  Soup.concat_strings
    (map (fun page => section_of (fst page) (snd page)) (appended evs)).

(** Where a URL of a crawl comes from: it is the seed as given, or
    [_normalize_url] returned it for a link. *)
Definition originates (self : crawler) (u : string) : Prop :=
  u = start_url self
  ∨ ∃ href parent, _normalize_url self href parent = Py.Ok (Some u).

(** The [href] values [_extract_links] does not skip. *)
Definition usable_href (href : string) : bool :=
  negb (String.eqb href "" || Py.startswith href "javascript:" || String.eqb href "#").

End Run_notions.

(** ** Proof automation for the loop body *)

(** Opens one pass through the loop body into its control-flow paths. *)
Ltac loop_paths :=
  unfold step, loop_body, inner_try, sleep_after, record_failure, pop,
    _is_duplicate_content, time_sleep in *;
  repeat match goal with
    | H : context [match queue ?st with _ => _ end] |- _ =>
        destruct (queue st) eqn:?; [discriminate|]
    | H : context [if (?a <? ?b)%Z then _ else _] |- _ =>
        destruct (Z.ltb_spec a b); [|discriminate]
    | H : Some _ = Some (Py.Ok _) |- _ => injection H as H; revert H
    | |- Py.Ok _ = Py.Ok _ → _ => intros [= <-]
    | |- Py.Raise _ = Py.Ok _ → _ => intros [=]
    | |- context [bool_decide ?P] => destruct (bool_decide_reflect P)
    | |- context [_can_fetch ?s ?u] =>
        destruct (_can_fetch s u) as [[|]|?] eqn:?;
        cbn [mbind result_bind Py.bind]
    | |- context [parse_url_to_markdown ?u ?f] =>
        destruct (parse_url_to_markdown u f) as [? [?|?]] eqn:?
    | |- context [Url.urlparse ?u] => destruct (Url.urlparse u) eqn:?
    | |- context [mbind ?f ?r] => destruct (mbind f r) eqn:?
    | |- context [Qle_bool ?a ?b] => destruct (Qle_bool a b) eqn:?
    | _ => progress cbn [negb fst snd queue visited_urls content_hashes
                         failed_urls pages_crawled all_markdown llms_md events]
    end.

(** ** Output artifact of the specification *)

Section Artifact_spec.
Context `{Env}.

(** The Markdown of a pipeline call that returned. *)
Definition returned_markdown (e : event) : option string :=
  match e with
  | Pipeline _ (Py.Ok markdown) => Some markdown
  | _ => None
  end.

(** The fixed structure: title line, generation timestamp, configuration
    echo, one section per page ([## Page: <path>], the page's Markdown, a
    horizontal rule), and the crawl summary. *)
Definition artifact (self : crawler) (pages : list (string * string))
    (st : crawl_state) : string :=
  file_header self
  +:+ Soup.concat_strings (map (fun page => page_section (fst page) (snd page)) pages)
  +:+ summary st.

End Artifact_spec.

(** ** Scope rule of the specification *)

(** A leading [www.] stripped, as the specification words it. *)
Definition strip_leading_www (host : string) : string :=
  match host with
  | String "w" (String "w" (String "w" (String "." rest))) => rest
  | _ => host
  end.

(** ** Small worlds to run the code in *)

Module World.
Import Soup.

Definition document (children : list node) : node := Elem "[document]" [] children.

(** The markup of a document: that of its top-level nodes. *)
Definition markup (d : node) : string :=
  match d with
  | Elem _ _ ch => concat_strings (map render ch)
  | _ => render d
  end.

Fixpoint lookup {A} (k : string) (table : list (string * A)) : option A :=
  match table with
  | [] => None
  | (k', v) :: r => if String.eqb k k' then Some v else lookup k r
  end.

Fixpoint parse (html : string) (pages : list (string * node)) : node :=
  match pages with
  | [] => document []
  | (_, d) :: r => if String.eqb (markup d) html then d else parse html r
  end.

(** [urljoin] on the links of these worlds: a link with a scheme of its own
    that differs from the scheme of the base is returned as it is (what
    CPython does); other relative links do not occur in them. *)
Definition join_absolute (base url : string) : Py.result string :=
  let s := fst (Url.split_scheme url) in
  if negb (String.eqb s "") && negb (String.eqb s (fst (Url.split_scheme base)))
  then Py.Ok url
  else Py.Raise "relative link outside this world".

(** A world serving the documents [pages] by URL and nothing else.  The
    fingerprint of a text is the text itself (no collisions); the two
    readability extractors find nothing; the Markdown of a fragment is given
    by [markdown], and is the fragment itself where [markdown] is silent;
    no robots policy can be read. *)
Definition serving (pages : list (string * node)) (markdown : list (string * string))
  : Env := {|
  md5_hexdigest := id;
  urljoin := join_absolute;
  netloc_check := fun _ => None;
  html_parser := fun html => parse html pages;
  trafilatura_extract := fun _ => Py.Ok None;
  readability_document := fun _ => Py.Ok ("", "");
  html2text_handle := fun fragment => Py.Ok (default fragment (lookup fragment markdown));
  requests_get_checked := fun url =>
    match lookup url pages with
    | Some d => Py.Ok (markup d)
    | None => Py.Raise ("404 Client Error: Not Found for url: " +:+ url)
    end;
  requests_get_text := fun url =>
    match lookup url pages with
    | Some d => Py.Ok (markup d)
    | None => Py.Ok ""
    end;
  robots_read := fun _ => Py.Raise "robots.txt unreachable";
  strftime := "2025-01-01 00:00:00";
|}.

(** [WebsiteCrawler(seed, allow_subdomains, max_pages)] in a world, for a
    seed that parses. *)
Definition crawler_for (E : Env) (seed : string) (allow_subdomains : bool)
    (max_pages : Z) : crawler :=
  match @new_crawler E seed allow_subdomains max_pages (1 # 2) true with
  | Py.Ok self => self
  | Py.Raise _ => Crawler seed allow_subdomains max_pages (1 # 2) true "" "" "" None
  end.

(** A document whose body is empty. *)
Definition empty_body : node := document [Elem "html" [] [Elem "body" [] []]].

(** A site whose only page has an empty body. *)
Definition hollow_site : Env := serving [("https://example.com/", empty_body)] [].



(** A document whose body element stands inside a [noscript] element. *)
Definition nested_body : node :=
  document
    [Elem "html" []
       [Elem "noscript" [] [Elem "body" [] [Elem "p" [] [Text "Hello"]]]]].

Definition nested_site : Env := serving [("https://example.com/", nested_body)] [].

(** A page that links to itself by the URL it was reached under. *)
Definition docs_page : node :=
  document
    [Elem "html" []
       [Elem "body" []
          [Elem "p" [] [Text "Read the docs."];
           Elem "a" [("href", "https://example.com/docs")] [Text "Docs"]]]].

(** The page is served with and without the trailing slash. *)
Definition docs_site : Env :=
  serving [("https://example.com/docs", docs_page);
           ("https://example.com/docs/", docs_page)] [].

Definition docs_crawler : crawler :=
  crawler_for docs_site "https://example.com/docs" false 100.

(** The state after [n] iterations of the loop of [crawl] (the last state
    when the loop has ended or an iteration has raised before). *)
Fixpoint run (E : Env) (n : nat) (self : crawler) : crawl_state :=
  match n with
  | O => @crawl_start E self
  | S n =>
      let st := run E n self in
      match @step E self st with
      | Some (Py.Ok st') => st'
      | _ => st
      end
  end.

(** A site that serves nothing. *)
Definition dead_site : Env := serving [] [].

Definition dead_crawler : crawler :=
  crawler_for dead_site "https://example.com/" false 100.

(** A crawl seeded without scheme or host, so that its root domain is
    empty. *)
Definition hostless_crawler : crawler :=
  crawler_for dead_site "example.com" false 100.

(** A seed whose text goes on, after the address [http://a/], with the
    line the pipeline writes under a page title. *)
Definition echo_seed : string :=
  "http://a/" +:+ nl +:+ nl +:+ "*Extracted using: body-fallback*" +:+ nl +:+ nl +:+ "A".

Definition echo_first : node :=
  document
    [Elem "html" []
       [Elem "body" []
          [Elem "p" [] [Text "B"];
           Elem "a" [("href", "http://a/")] [Text "next"]]]].

Definition echo_second : node :=
  document
    [Elem "html" []
       [Elem "body" []
          [Elem "p" [] [Text "A"];
           Elem "p" [] [Text "*Extracted using: body-fallback*"];
           Elem "p" [] [Text "B"]]]].

(** Two pages whose Markdown, with the title and strategy lines the
    pipeline puts in front, is the same text. *)
Definition echo_site : Env :=
  serving [(echo_seed, echo_first); ("http://a/", echo_second)]
    [("<body><p>B</p><a href=" +:+ dquote +:+ "http://a/" +:+ dquote +:+ ">next</a></body>",
      "B");
     ("<body><p>A</p><p>*Extracted using: body-fallback*</p><p>B</p></body>",
      "A" +:+ nl +:+ nl +:+ "*Extracted using: body-fallback*" +:+ nl +:+ nl +:+ "B")].

Definition echo_crawler : crawler := crawler_for echo_site echo_seed false 100.

(** A world with the robots policy [can_fetch] in place of the unreachable
    one. *)
Definition with_robots (E : Env) (can_fetch : string → string → Py.result bool)
  : Env := {|
  md5_hexdigest := @md5_hexdigest E;
  urljoin := @urljoin E;
  netloc_check := @netloc_check E;
  html_parser := @html_parser E;
  trafilatura_extract := @trafilatura_extract E;
  readability_document := @readability_document E;
  html2text_handle := @html2text_handle E;
  requests_get_checked := @requests_get_checked E;
  requests_get_text := @requests_get_text E;
  robots_read := fun _ => Py.Ok can_fetch;
  strftime := @strftime E;
|}.

(** A home page with a script and a navigation bar around its text, which
    links to a private page, to a public one, to a file and to itself. *)
Definition home_page : node :=
  document
    [Elem "html" []
       [Elem "head" [] [Elem "script" [] [Text "track()"]];
        Elem "body" []
          [Elem "nav" [] [Elem "a" [("href", "#")] [Text "Top"]];
           Elem "p" [] [Text "Welcome."];
           Elem "a" [("href", "https://example.com/private/keys")] [Text "Keys"];
           Elem "a" [("href", "https://example.com/about?lang=en")] [Text "About"];
           Elem "a" [("href", "https://example.com/manual.pdf")] [Text "Manual"];
           Elem "a" [("href", "https://example.com/#top")] [Text "Home"]]]].

Definition about_page : node :=
  document [Elem "html" [] [Elem "body" [] [Elem "p" [] [Text "About us."]]]].

(** A site whose robots policy disallows everything under [/private]. *)
Definition guarded_site : Env :=
  with_robots
    (serving [("https://example.com/", home_page);
              ("https://example.com/about/", about_page);
              ("https://example.com/private/keys/", about_page)] [])
    (fun _ url => Py.Ok (negb (Py.startswith url "https://example.com/private"))).

Definition guarded_crawler : crawler :=
  crawler_for guarded_site "https://example.com/" false 100.



(** A page that links to a host written with an escaped bracket. *)
Definition escaped_page : node :=
  document
    [Elem "html" []
       [Elem "body" []
          [Elem "p" [] [Text "Elsewhere."];
           Elem "a" [("href", "https://%5Bexample.com/x")] [Text "X"]]]].

(** A site with a robots policy that allows everything; as
    [RobotFileParser.can_fetch] does, it first parses the URL with its
    escapes undone (here only that of the bracket), and raises if that
    fails. *)
Definition escaped_site : Env :=
  let E := serving [("https://example.com/", escaped_page)] [] in
  with_robots E
    (fun _ url =>
       match @Url.urlparse E (Py.replace url "%5B" "[") with
       | Py.Ok _ => Py.Ok true
       | Py.Raise e => Py.Raise e
       end).

Definition escaped_crawler : crawler :=
  crawler_for escaped_site "https://example.com/" true 100.

(** A page one of whose links has an unclosed bracket in its host. *)
Definition broken_page : node :=
  document
    [Elem "html" []
       [Elem "body" []
          [Elem "p" [] [Text "Links."];
           Elem "a" [("href", "https://example.com/about")] [Text "About"];
           Elem "a" [("href", "http://[::1/")] [Text "Local"]]]].

Definition broken_site : Env :=
  serving [("https://example.com/", broken_page);
           ("https://example.com/about/", about_page)] [].

Definition broken_crawler : crawler :=
  crawler_for broken_site "https://example.com/" false 100.

End World.

(* ===================================================================== *)
(** * Part II — lemmas and theorems *)
(* ===================================================================== *)


(** ** Line-level deduplication *)

Section Dedupe_facts.
Context `{Env}.

Lemma seen_after_snoc seen earlier line :
  seen_after seen (earlier ++ [line]) =
  if substantive line then {[ fingerprint line ]} ∪ seen_after seen earlier
  else seen_after seen earlier.
Proof.
  unfold seen_after. rewrite List.filter_app. simpl.
  destruct (substantive line); simpl.
  - rewrite map_app, list_to_set_app_L. simpl. set_solver.
  - by rewrite app_nil_r.
Qed.

Lemma dedup_line_spec unique seen earlier line :
  dedup_line (unique, seen_after seen earlier) line =
  (unique ++ (if dropped seen earlier line then [] else [line]),
   seen_after seen (earlier ++ [line])).
Proof.
  unfold dedup_line, dropped. rewrite seen_after_snoc.
  fold (substantive line). fold (fingerprint line).
  destruct (substantive line) eqn:Hs; simpl.
  - case_bool_decide as Hin; simpl.
    + rewrite app_nil_r. f_equal. set_solver.
    + done.
  - done.
Qed.

(** The loop, started after the lines [earlier] of the same input. *)
Lemma dedup_loop_spec seen lines : ∀ earlier unique,
  fold_left dedup_line lines (unique, seen_after seen earlier) =
  (unique ++ omap id (imap (fun i line =>
                       if dropped seen (earlier ++ take i lines) line
                       then None else Some line) lines),
   seen_after seen (earlier ++ lines)).
Proof.
  induction lines as [|line lines IH]; intros earlier unique; cbn [fold_left].
  - simpl. by rewrite !app_nil_r.
  - rewrite dedup_line_spec, IH. cbn [imap take]. rewrite app_nil_r.
    rewrite <- !(assoc_L (++)). f_equal. f_equal.
    assert (imap (fun i line0 =>
                    if dropped seen ((earlier ++ [line]) ++ take i lines) line0
                    then None else Some line0) lines
            = imap ((fun i line0 =>
                    if dropped seen (earlier ++ take i (line :: lines)) line0
                    then None else Some line0) ∘ S) lines) as ->.
    { apply imap_ext. intros i x _. simpl. by rewrite <- (assoc_L (++)). }
    cbn [omap]. by destruct (dropped seen earlier line).
Qed.

Lemma seen_after_nil seen : seen_after seen [] = seen.
Proof. unfold seen_after. simpl. set_solver. Qed.

(** C5.  For every input and every set of seen fingerprints,
    [deduplicate_content] returns the lines of the input that the dropping
    rule lets through, unchanged and in order, joined by newlines; line [i]
    is dropped exactly when its trimmed length exceeds 40 and the fingerprint
    of its trimmed text is in the set as accumulated over the lines before
    it; and the returned set is the given one extended with the fingerprints
    of the lines of trimmed length above 40 only. *)
Theorem deduplicate_content_spec (markdown : string) (seenHashes : gset string) :
  deduplicate_content markdown seenHashes =
  (Py.join nl (surviving seenHashes (Py.split "010" markdown)),
   seen_after seenHashes (Py.split "010" markdown)).
Proof.
  unfold deduplicate_content, surviving.
  pose proof (dedup_loop_spec seenHashes (Py.split "010" markdown) [] []) as Hloop.
  rewrite seen_after_nil in Hloop. simpl in Hloop. rewrite Hloop. done.
Qed.

End Dedupe_facts.

(** The threshold at work: a line of 50 characters repeated is kept once, a
    line of 10 characters repeated is kept twice. *)
Example long_line_collapsed :
  let line := "01234567890123456789012345678901234567890123456789" in
  String.length line = 50
  ∧ fst (@deduplicate_content World.dead_site (line +:+ nl +:+ line) ∅) = line.
Proof. vm_compute. done. Qed.

Example short_line_kept :
  let line := "0123456789" in
  fst (@deduplicate_content World.dead_site (line +:+ nl +:+ line) ∅)
  = line +:+ nl +:+ line.
Proof. vm_compute. done. Qed.


(** ** The document tree *)

Module SoupFacts.
Import Soup.

(** Induction on trees, with the hypothesis for every child. *)
Lemma node_induction (P : node → Prop) :
  (∀ s, P (Text s)) →
  (∀ m, P (Other m)) →
  (∀ nm a ch, Forall P ch → P (Elem nm a ch)) →
  ∀ n, P n.
Proof.
  intros Ht Ho He. fix IH 1. intros [s|m|nm a ch].
  - apply Ht.
  - apply Ho.
  - apply He. induction ch as [|c r IHr]; constructor; [apply IH | apply IHr].
Qed.

Lemma named_shallow t : shallow (named t).
Proof. by intros nm a ch ch'. Qed.

Lemma shallow_decompose P Q n : shallow P → P (decompose_all Q n) = P n.
Proof. intros HP. destruct n; simpl; [done..|apply HP]. Qed.

Lemma find_all_elem P nm a ch :
  find_all P (Elem nm a ch) =
  flat_map (fun c => (if P c then [c] else []) ++ find_all P c) ch.
Proof. done. Qed.

Lemma find_all_nil_inv P nm a ch :
  find_all P (Elem nm a ch) = [] →
  Forall (fun c => P c = false ∧ find_all P c = []) ch.
Proof.
  rewrite find_all_elem. induction ch as [|c r IH]; simpl; intros Hnil.
  - constructor.
  - apply app_eq_nil in Hnil as [Hc Hr].
    apply app_eq_nil in Hc as [Hc1 Hc2].
    constructor; [|by apply IH]. split; [|done]. by destruct (P c).
Qed.

Lemma find_all_nil_intro P nm a ch :
  Forall (fun c => P c = false ∧ find_all P c = []) ch →
  find_all P (Elem nm a ch) = [].
Proof.
  rewrite find_all_elem. induction 1 as [|c r [Hc1 Hc2] _ IH]; simpl; [done|].
  by rewrite Hc1, Hc2, IH.
Qed.

Lemma omap_cons_eq {A B} (f : A → option B) x l :
  omap f (x :: l) = match f x with Some y => y :: omap f l | None => omap f l end.
Proof. done. Qed.

Lemma decompose_all_elem P nm a ch :
  decompose_all P (Elem nm a ch) =
  Elem nm a (omap (fun c => if P c then None else Some (decompose_all P c)) ch).
Proof. done. Qed.

(** Nothing to decompose: the tree stays as it is. *)
Lemma decompose_all_absent P : ∀ n, find_all P n = [] → decompose_all P n = n.
Proof.
  induction n as [s|m|nm a ch IH] using node_induction; [done..|].
  intros Hnil%find_all_nil_inv. rewrite decompose_all_elem. f_equal.
  induction ch as [|c r IHr]; [done|].
  inversion IH as [|? ? IHc IHrest]; subst.
  inversion Hnil as [|? ? [Hc1 Hc2] Hrest]; subst.
  rewrite omap_cons_eq, Hc1, (IHc Hc2), (IHr IHrest Hrest). done.
Qed.

(** After decomposing, no match is left, for a test that does not look at
    children. *)
Lemma find_all_decompose_all P :
  shallow P → ∀ n, find_all P (decompose_all P n) = [].
Proof.
  intros HP. induction n as [s|m|nm a ch IH] using node_induction; [done..|].
  rewrite decompose_all_elem. apply find_all_nil_intro.
  induction ch as [|c r IHr]; [constructor|].
  inversion IH as [|? ? IHc IHrest]; subst. rewrite omap_cons_eq.
  destruct (P c) eqn:Hc; [by apply IHr|].
  constructor; [|by apply IHr]. split; [|done].
  by rewrite shallow_decompose.
Qed.

(** Decomposing by one test leaves the tree free of another. *)
Lemma find_all_decompose_other P Q :
  shallow P → ∀ n, find_all P n = [] → find_all P (decompose_all Q n) = [].
Proof.
  intros HP. induction n as [s|m|nm a ch IH] using node_induction; [done..|].
  intros Hnil%find_all_nil_inv. rewrite decompose_all_elem.
  apply find_all_nil_intro.
  induction ch as [|c r IHr]; [constructor|].
  inversion IH as [|? ? IHc IHrest]; subst.
  inversion Hnil as [|? ? [Hc1 Hc2] Hrest]; subst. rewrite omap_cons_eq.
  destruct (Q c); [by apply IHr|].
  constructor; [|by apply IHr]. split; [|by apply IHc].
  by rewrite shallow_decompose.
Qed.

Lemma first_match_elem P nm a c r :
  first_match P (Elem nm a (c :: r)) =
  if P c then Some c
  else match first_match P c with
       | Some e => Some e
       | None => first_match P (Elem nm a r)
       end.
Proof. done. Qed.

Lemma update_first_elem P f nm a c r :
  update_first P f (Elem nm a (c :: r)) =
  if P c then Elem nm a (f c :: r)
  else match first_match P c with
       | Some _ => Elem nm a (update_first P f c :: r)
       | None => match update_first P f (Elem nm a r) with
                 | Elem _ _ r' => Elem nm a (c :: r')
                 | other => other
                 end
       end.
Proof. simpl. destruct (P c); [done|]. by destruct (first_match P c). Qed.

Lemma update_first_children P f nm a ch :
  ∃ ch', update_first P f (Elem nm a ch) = Elem nm a ch'.
Proof. simpl. eauto. Qed.

(** The element found satisfies the test. *)
Lemma first_match_holds P : ∀ n e, first_match P n = Some e → P e = true.
Proof.
  induction n as [s|m|nm a ch IH] using node_induction; [done..|].
  induction ch as [|c r IHr]; intros e; [done|].
  inversion IH as [|? ? IHc IHrest]; subst.
  rewrite first_match_elem. destruct (P c) eqn:Hc.
  - by intros [= <-].
  - destruct (first_match P c) eqn:Hm.
    + intros [= <-]. by apply IHc.
    + by apply IHr.
Qed.

(** What lies below the element found lies below the tree. *)
Lemma find_all_first_match P Q :
  ∀ n e, first_match Q n = Some e → find_all P n = [] → find_all P e = [].
Proof.
  induction n as [s|m|nm a ch IH] using node_induction; [done..|].
  induction ch as [|c r IHr]; intros e; [done|].
  inversion IH as [|? ? IHc IHrest]; subst.
  rewrite first_match_elem. intros Hm Hnil%find_all_nil_inv.
  inversion Hnil as [|? ? [Hc1 Hc2] Hrest]; subst.
  destruct (Q c).
  - by injection Hm as <-.
  - destruct (first_match Q c) eqn:Hmc.
    + injection Hm as <-. by apply IHc.
    + apply IHr; [done..|]. by apply find_all_nil_intro.
Qed.

(** Writing back the element found, unchanged, changes nothing. *)
Lemma update_first_same P :
  ∀ n e, first_match P n = Some e → update_first P (fun _ => e) n = n.
Proof.
  induction n as [s|m|nm a ch IH] using node_induction; [done..|].
  induction ch as [|c r IHr]; intros e; [done|].
  inversion IH as [|? ? IHc IHrest]; subst.
  rewrite first_match_elem, update_first_elem. destruct (P c).
  - by intros [= <-].
  - destruct (first_match P c) eqn:Hmc.
    + intros [= <-]. by rewrite (IHc _ eq_refl).
    + intros Hm. by rewrite (IHr IHrest _ Hm).
Qed.

Lemma render_elem_nonempty nm a ch :
  ∃ c s, render (Elem nm a ch) = String c s.
Proof.
  destruct ch as [|c r]; cbn [render].
  - destruct (existsb (String.eqb nm) void_tags); do 2 eexists; reflexivity.
  - do 2 eexists; reflexivity.
Qed.

Lemma matches_is_elem sel n : matches sel n = true → is_elem n = true.
Proof.
  unfold matches. intros (s & _ & Hs)%existsb_exists.
  unfold matches_simple in Hs. by apply andb_prop in Hs as [? _].
Qed.

Lemma named_is_elem t n : named t n = true → is_elem n = true.
Proof. by destruct n. Qed.

Lemma decompose_all_is_elem P n : is_elem (decompose_all P n) = is_elem n.
Proof. by destruct n. Qed.

Lemma render_nonempty n : is_elem n = true → ∃ c s, render n = String c s.
Proof. destruct n; [done..|]. intros _. apply render_elem_nonempty. Qed.

End SoupFacts.


(** ** The extraction cascade *)

Section Cascade_facts.
Context `{Env}.
Import Soup SoupFacts.

Lemma strip_tags_free tags : ∀ n t,
  t ∈ tags ∨ find_all (named t) n = [] →
  find_all (named t) (strip_tags tags n) = [].
Proof.
  induction tags as [|t0 tags IH]; intros n t Ht; simpl.
  - destruct Ht as [Ht|Ht]; [by apply elem_of_nil in Ht | done].
  - apply IH. destruct Ht as [Ht|Ht].
    + apply elem_of_cons in Ht as [->|Ht]; [right|by left].
      apply find_all_decompose_all, named_shallow.
    + right. by apply find_all_decompose_other; [apply named_shallow|].
Qed.

Lemma strip_tags_absent tags : ∀ n,
  Forall (fun t => find_all (named t) n = []) tags → strip_tags tags n = n.
Proof.
  induction tags as [|t0 tags IH]; intros n Hn; simpl; [done|].
  inversion Hn as [|? ? H0 Hrest]; subst.
  rewrite (decompose_all_absent _ _ H0). by apply IH.
Qed.

Lemma strip_tags_is_elem tags : ∀ n, is_elem (strip_tags tags n) = is_elem n.
Proof.
  induction tags as [|t0 tags IH]; intros n; simpl; [done|].
  by rewrite IH, decompose_all_is_elem.
Qed.

Lemma remove_noise_free n : noise_free (remove_noise n).
Proof.
  apply Forall_forall. intros t Ht. apply strip_tags_free. by left.
Qed.

Lemma remove_noise_absent n : noise_free n → remove_noise n = n.
Proof. apply strip_tags_absent. Qed.

Lemma clean_html_free html : noise_free (clean_html html).
Proof. apply remove_noise_free. Qed.

Lemma noise_free_first_match Q n e :
  first_match Q n = Some e → noise_free n → noise_free e.
Proof.
  intros Hm Hn. eapply Forall_impl; [exact Hn|]. simpl.
  intros t Ht. by eapply find_all_first_match.
Qed.

(** On a cleaned DOM the second noise removal finds nothing, so the tree is
    left as it was and the outcome is that of the rule of strategies 3-5. *)
Lemma extract_with_selector_cleaned cleaned selector :
  noise_free cleaned →
  extract_with_selector cleaned selector = (cleaned, by_selector selector cleaned).
Proof.
  intros Hfree. unfold extract_with_selector, by_selector.
  destruct (first_match (matches selector) cleaned) as [e|] eqn:Hm; [|done].
  rewrite (remove_noise_absent e) by (by eapply noise_free_first_match).
  rewrite (update_first_same _ _ _ Hm), Nat.ltb_antisym.
  by destruct (200 <=? _)%nat.
Qed.

Lemma extract_with_trafilatura_spec html :
  extract_with_trafilatura html = primary_extractor html.
Proof.
  unfold extract_with_trafilatura, primary_extractor.
  destruct (trafilatura_extract html) as [[e|]|]; [|done..].
  rewrite Nat.ltb_antisym. destruct e; [done|]. simpl Py.truthy. cbn [negb].
  by destruct (500 <=? _)%nat.
Qed.

Lemma extract_with_readability_spec html :
  extract_with_readability html = secondary_extractor html.
Proof.
  unfold extract_with_readability, secondary_extractor.
  destruct (readability_document html) as [[title content]|]; [|done].
  rewrite Nat.ltb_antisym. destruct content as [|c content]; [done|].
  change (String.eqb (String c content) "") with false. cbn [orb].
  destruct (500 <=? _)%nat; [|done]. by destruct title.
Qed.

Lemma long_truthy n s : (S n <=? String.length s)%nat = true → Py.truthy (Some s) = true.
Proof. by destruct s. Qed.

Lemma primary_extractor_truthy html f :
  primary_extractor html = Some f → Py.truthy (Some f) = true.
Proof.
  unfold primary_extractor.
  destruct (trafilatura_extract html) as [[e|]|]; [|done..].
  destruct (500 <=? _)%nat eqn:Hlen; [|done]. intros [= <-].
  by eapply long_truthy.
Qed.

Lemma secondary_extractor_truthy html f :
  secondary_extractor html = Some f → Py.truthy (Some f) = true.
Proof.
  unfold secondary_extractor.
  destruct (readability_document html) as [[title content]|]; [|done].
  destruct (500 <=? _)%nat eqn:Hlen; [|done]. intros [= <-].
  destruct title; [by eapply long_truthy | done].
Qed.

Lemma render_truthy n : is_elem n = true → Py.truthy (Some (render n)) = true.
Proof. intros (c & s & ->)%render_nonempty. done. Qed.

Lemma by_selector_truthy selector cleaned f :
  by_selector selector cleaned = Some f → Py.truthy (Some f) = true.
Proof.
  unfold by_selector.
  destruct (first_match _ cleaned) as [e|] eqn:Hm; [|done].
  destruct (200 <=? _)%nat; [|done]. intros [= <-].
  apply render_truthy. unfold remove_noise. fold (strip_tags NOISE_TAGS e).
  rewrite strip_tags_is_elem.
  eapply matches_is_elem, first_match_holds, Hm.
Qed.

Lemma body_fallback_truthy cleaned f :
  body_fallback cleaned = Some f → Py.truthy (Some f) = true.
Proof.
  unfold body_fallback.
  destruct (first_match _ cleaned) as [e|] eqn:Hm; [|done]. intros [= <-].
  apply render_truthy. rewrite decompose_all_is_elem.
  eapply named_is_elem, first_match_holds, Hm.
Qed.

Lemma try_selector_cleaned selector name st :
  noise_free (soup st) →
  try_selector selector name st =
  Cascade (by_selector selector (soup st))
          (if Py.truthy (by_selector selector (soup st)) then name
           else strategy_used st)
          (soup st) (attempted st ++ [name]).
Proof.
  intros Hfree. unfold try_selector.
  by rewrite (extract_with_selector_cleaned _ _ Hfree).
Qed.

Lemma try_body_spec st :
  extracted_html (try_body st) =
    match body_fallback (soup st) with
    | Some f => Some f
    | None => extracted_html st
    end
  ∧ strategy_used (try_body st) =
    match body_fallback (soup st) with
    | Some _ => "body-fallback"
    | None => strategy_used st
    end
  ∧ attempted (try_body st) = attempted st ++ ["body-fallback"].
Proof.
  unfold try_body, body_fallback.
  by destruct (first_match (named "body") (soup st)).
Qed.

Lemma extract_of_cascade url rawHTML :
  extract url rawHTML =
  if Py.truthy (extracted_html (extract_cascade rawHTML))
  then Py.Ok (default "" (extracted_html (extract_cascade rawHTML)),
              strategy_used (extract_cascade rawHTML))
  else Py.Raise ("Could not extract content from " +:+ url +:+ " using any strategy").
Proof.
  unfold extract. by destruct (extracted_html _) as [[|c e]|].
Qed.

Lemma first_success_app_some l l' r :
  first_success l = Some r →
  first_success (l ++ l') = Some r ∧ evaluated (l ++ l') = evaluated l.
Proof.
  induction l as [|[name [f|]] l IH]; simpl; [done|done|].
  intros Hl. destruct (IH Hl) as [-> ->]. done.
Qed.

Lemma first_success_app_none l l' :
  first_success l = None →
  first_success (l ++ l') = first_success l'
  ∧ evaluated (l ++ l') = evaluated l ++ evaluated l'.
Proof.
  induction l as [|[name [f|]] l IH]; simpl; [done|done|].
  intros Hl. destruct (IH Hl) as [-> ->]. done.
Qed.

Lemma outcome_failed l st :
  outcome l st → failed st = true → first_success l = None.
Proof.
  intros (_ & Hr). unfold failed.
  destruct (first_success l) as [[f name]|]; [|done].
  destruct Hr as (-> & _ & ->). done.
Qed.

Lemma outcome_succeeded l l' st :
  outcome l st → failed st = false → outcome (l ++ l') st.
Proof.
  intros (Hatt & Hr) Hf. unfold failed in Hf. unfold outcome.
  destruct (first_success l) as [[f name]|] eqn:Hl.
  - destruct (first_success_app_some l l' _ Hl) as [-> ->]. done.
  - by rewrite Hr in Hf.
Qed.

(** A block behind [if not extracted_html]. *)
Lemma outcome_guard l l' st (block : cascade → cascade) :
  outcome l st →
  (first_success l = None → outcome (l ++ l') (block st)) →
  outcome (l ++ l') (if failed st then block st else st).
Proof.
  intros Hst Hblock. destruct (failed st) eqn:Hf.
  - eauto using outcome_failed.
  - by apply outcome_succeeded.
Qed.

Lemma tracks_guard cleaned l l' st (block : cascade → cascade) :
  tracks cleaned l st →
  (first_success l = None → tracks cleaned (l ++ l') (block st)) →
  tracks cleaned (l ++ l') (if failed st then block st else st).
Proof.
  intros [Hsoup Hst] Hblock. destruct (failed st) eqn:Hf.
  - eauto using outcome_failed.
  - split; [done|]. by apply outcome_succeeded.
Qed.

(** One strategy, evaluated when all of [l] failed. *)
Lemma outcome_strategy l st st' name o :
  outcome l st →
  first_success l = None →
  (∀ f, o = Some f → Py.truthy (Some f) = true) →
  attempted st' = attempted st ++ [name] →
  match o with
  | Some f => extracted_html st' = Some f ∧ strategy_used st' = name
  | None => Py.truthy (extracted_html st') = false
  end →
  outcome (l ++ [(name, o)]) st'.
Proof.
  intros (Hatt & _) Hl Ho Hatt' Hres. unfold outcome.
  destruct (first_success_app_none l [(name, o)] Hl) as [-> ->]. split.
  - rewrite Hatt', Hatt. by destruct o.
  - simpl. destruct o as [f|]; [|done].
    destruct Hres as [-> ->]. eauto.
Qed.

Lemma outcome_try_raw l st name extractor html :
  outcome l st →
  first_success l = None →
  (∀ f, extractor html = Some f → Py.truthy (Some f) = true) →
  outcome (l ++ [(name, extractor html)]) (try_raw name extractor html st).
Proof.
  intros Hst Hl Hex. eapply outcome_strategy; [done..|].
  cbn [try_raw extracted_html strategy_used].
  destruct (extractor html) as [f|] eqn:He; [|done].
  by rewrite (Hex _ eq_refl).
Qed.

Lemma tracks_try_selector cleaned l st selector name :
  noise_free cleaned →
  tracks cleaned l st →
  first_success l = None →
  tracks cleaned (l ++ [(name, by_selector selector cleaned)])
         (try_selector selector name st).
Proof.
  intros Hfree [Hsoup Hst] Hl.
  rewrite try_selector_cleaned by (by rewrite Hsoup). rewrite Hsoup.
  split; [done|].
  eapply outcome_strategy; [done..|eauto using by_selector_truthy|done|].
  cbn [extracted_html strategy_used].
  destruct (by_selector selector cleaned) as [f|] eqn:Hs; [|done].
  by rewrite (by_selector_truthy _ _ _ Hs).
Qed.

Lemma tracks_content_selectors cleaned selectors : ∀ l st,
  noise_free cleaned →
  tracks cleaned l st →
  first_success l = None →
  tracks cleaned
    (l ++ map (fun s => ("selector:" +:+ s, by_selector s cleaned)) selectors)
    (try_content_selectors selectors st).
Proof.
  induction selectors as [|s selectors IH]; intros l st Hfree Hst Hl.
  - simpl. by rewrite app_nil_r.
  - cbn [try_content_selectors map].
    pose proof (tracks_try_selector _ _ _ s ("selector:" +:+ s) Hfree Hst Hl)
      as [Hsoup' Hs].
    set (st' := try_selector s ("selector:" +:+ s) st) in *.
    rewrite (cons_middle _ l), (assoc_L (++)).
    destruct (Py.truthy (extracted_html st')) eqn:Ht.
    + split; [done|]. apply outcome_succeeded; [done|].
      unfold failed. by rewrite Ht.
    + apply IH; [done..|]. eapply outcome_failed; [done|].
      unfold failed. by rewrite Ht.
Qed.

Lemma outcome_try_body cleaned l st :
  tracks cleaned l st →
  first_success l = None →
  outcome (l ++ [("body-fallback", body_fallback cleaned)]) (try_body st).
Proof.
  intros [Hsoup Hst] Hl. pose proof Hst as [_ Hres]. rewrite Hl in Hres.
  eapply outcome_strategy; [done..|eauto using body_fallback_truthy| |].
  - unfold try_body. by destruct (first_match _ _).
  - unfold try_body, body_fallback. rewrite Hsoup.
    by destruct (first_match _ _).
Qed.

Lemma initial_outcome cleaned : tracks cleaned [] (Cascade None "unknown" cleaned []).
Proof. done. Qed.

(** The cascade variables at line 263, against the ordered list of
    strategies. *)
Lemma cascade_outcome (rawHTML : string) :
  outcome (strategies rawHTML) (extract_cascade rawHTML).
Proof.
  pose proof (clean_html_free rawHTML) as Hfree.
  unfold extract_cascade, strategies.
  set (cleaned := clean_html rawHTML) in *.
  pose proof (initial_outcome cleaned) as H0.
  set (st0 := Cascade None "unknown" cleaned []) in *.
  assert (tracks cleaned ([] ++ [("trafilatura", primary_extractor rawHTML)])
            (try_raw "trafilatura" extract_with_trafilatura rawHTML st0)) as H1.
  { split; [done|]. rewrite <- extract_with_trafilatura_spec.
    apply outcome_try_raw; [apply H0|done|].
    intros f. rewrite extract_with_trafilatura_spec.
    apply primary_extractor_truthy. }
  set (st1 := try_raw _ _ _ st0) in *.
  assert (tracks cleaned (([] ++ [("trafilatura", primary_extractor rawHTML)])
                          ++ [("readability", secondary_extractor rawHTML)])
            (if failed st1
             then try_raw "readability" extract_with_readability rawHTML st1
             else st1)) as H2.
  { apply tracks_guard; [done|]. intros Hl. split; [apply H1|].
    rewrite <- extract_with_readability_spec.
    apply outcome_try_raw; [apply H1|done|].
    intros f. rewrite extract_with_readability_spec.
    apply secondary_extractor_truthy. }
  set (st2 := if failed st1 then _ else st1) in *.
  pose proof (tracks_guard cleaned _ [("main", by_selector "main" cleaned)] st2
                (try_selector "main" "main") H2
                (tracks_try_selector _ _ _ _ _ Hfree H2)) as H3.
  set (st3 := if failed st2 then _ else st2) in *.
  pose proof (tracks_guard cleaned _ [("article", by_selector "article" cleaned)] st3
                (try_selector "article" "article") H3
                (tracks_try_selector _ _ _ _ _ Hfree H3)) as H4.
  set (st4 := if failed st3 then _ else st3) in *.
  pose proof (tracks_guard cleaned _ _ st4
                (try_content_selectors CONTENT_SELECTORS) H4
                (tracks_content_selectors _ CONTENT_SELECTORS _ _ Hfree H4)) as H5.
  set (st5 := if failed st4 then _ else st4) in *.
  pose proof (outcome_guard _ [("body-fallback", body_fallback cleaned)] st5
                try_body (proj2 H5) (outcome_try_body _ _ _ H5)) as H6.
  exact H6.
Qed.



End Cascade_facts.


(** The body that counts is the one left in the cleaned DOM: a body element
    inside a noise tag is removed with it, and extraction fails although
    the document as parsed has a body. *)
Lemma body_inside_noise_is_lost :
  let url := "https://example.com/" in
  let rawHTML := "<html><noscript><body><p>Hello</p></body></noscript></html>" in
  @requests_get_checked World.nested_site url = Py.Ok rawHTML
  ∧ Soup.first_match (Soup.named "body") (@html_parser World.nested_site rawHTML)
    = Some (Soup.Elem "body" [] [Soup.Elem "p" [] [Soup.Text "Hello"]])
  ∧ Soup.first_match (Soup.named "body") (@clean_html World.nested_site rawHTML)
    = None
  ∧ @extract World.nested_site url rawHTML
    = Py.Raise "Could not extract content from https://example.com/ using any strategy".
Proof. vm_compute. repeat split. Qed.



(** ** Strings *)

Module StrFacts.
Import Str.

Lemma app_cons c a b : String c a +:+ b = String c (a +:+ b).
Proof. reflexivity. Qed.

Lemma app_nil_l b : "" +:+ b = b.
Proof. reflexivity. Qed.

Lemma app_nil_r a : a +:+ "" = a.
Proof. induction a as [|c a IH]; [done|]. by rewrite app_cons, IH. Qed.

Lemma app_assoc a b c : (a +:+ b) +:+ c = a +:+ b +:+ c.
Proof. induction a as [|d a IH]; [done|]. by rewrite !app_cons, IH. Qed.

Lemma lacks_nil P : lacks P "".
Proof. done. Qed.

Lemma lacks_cons P c s : lacks P (String c s) ↔ P c = false ∧ lacks P s.
Proof.
  unfold lacks. simpl. rewrite andb_true_iff, negb_true_iff. done.
Qed.

Lemma lacks_app P a b : lacks P (a +:+ b) ↔ lacks P a ∧ lacks P b.
Proof.
  induction a as [|c a IH].
  - rewrite app_nil_l. split; [by split|by intros [_ ?]].
  - rewrite app_cons, !lacks_cons, IH. tauto.
Qed.

Lemma lacks_remove P s : lacks P (Url.remove P s).
Proof.
  induction s as [|c s IH]; [done|]. simpl.
  destruct (P c) eqn:Hc; [done|]. by apply lacks_cons.
Qed.

Lemma remove_lacking P s : lacks P s → Url.remove P s = s.
Proof.
  induction s as [|c s IH]; [done|]. intros [Hc Hs]%lacks_cons.
  simpl. by rewrite Hc, IH.
Qed.

Lemma last_char_cons c s : s ≠ "" → last_char (String c s) = last_char s.
Proof. by destruct s. Qed.

Lemma last_char_app a b : b ≠ "" → last_char (a +:+ b) = last_char b.
Proof.
  intros Hb. induction a as [|c a IH]; [done|].
  rewrite app_cons, last_char_cons; [done|]. by destruct a, b.
Qed.

Lemma last_char_none s : last_char s = None → s = "".
Proof.
  induction s as [|c s IH]; [done|]. destruct s; [done|].
  intros Hs. by specialize (IH Hs).
Qed.

Lemma endswith_unfold s p :
  Py.endswith s p =
  String.eqb s p || match s with String _ r => Py.endswith r p | "" => false end.
Proof. by destruct s. Qed.

Lemma endswith_app a b : Py.endswith (a +:+ b) b = true.
Proof.
  induction a as [|c a IH].
  - rewrite app_nil_l, endswith_unfold, String.eqb_refl. done.
  - rewrite app_cons, endswith_unfold, IH. apply orb_true_r.
Qed.

Lemma endswith_inv s p : Py.endswith s p = true → ∃ a, s = a +:+ p.
Proof.
  induction s as [|c s IH]; rewrite endswith_unfold.
  - rewrite orb_false_r. intros ->%String.eqb_eq. by exists "".
  - intros [->%String.eqb_eq|Hs]%orb_true_iff; [by exists ""|].
    destruct (IH Hs) as [a ->]. by exists (String c a).
Qed.

Lemma endswith_last_char s p :
  Py.endswith s p = true → p ≠ "" → last_char s = last_char p.
Proof. intros [a ->]%endswith_inv Hp. by apply last_char_app. Qed.

Lemma endswith_one s c :
  Py.endswith s (String c "") = true ↔ last_char s = Some c.
Proof.
  split.
  - intros Hs. by rewrite (endswith_last_char _ _ Hs).
  - induction s as [|d s IH]; [done|]. destruct s as [|e s].
    + intros [= ->]. by rewrite endswith_unfold, String.eqb_refl.
    + intros Hs. rewrite endswith_unfold, IH; [apply orb_true_r|done].
Qed.

Lemma startswith_app p s : Py.startswith (p +:+ s) p = true.
Proof.
  unfold Py.startswith. induction p as [|c p IH]; [by destruct s|].
  rewrite app_cons. simpl. by destruct (ascii_dec c c).
Qed.

Lemma lower_app a b : Py.lower (a +:+ b) = Py.lower a +:+ Py.lower b.
Proof. induction a as [|c a IH]; [done|]. simpl. by rewrite !app_cons, IH. Qed.

Lemma last_char_lower s : last_char (Py.lower s) = Py.lower_char <$> last_char s.
Proof.
  induction s as [|c s IH]; [done|]. destruct s as [|d s]; [done|].
  exact IH.
Qed.

(** [Py.break]: the text before the first character satisfying [P] and the
    text from it on. *)
Lemma break_spec P s :
  s = fst (Py.break P s) +:+ snd (Py.break P s)
  ∧ lacks P (fst (Py.break P s))
  ∧ match first_char (snd (Py.break P s)) with
    | Some c => P c = true
    | None => True
    end.
Proof.
  induction s as [|c s (IH1 & IH2 & IH3)]; [done|]. simpl.
  destruct (P c) eqn:Hc; [done|].
  destruct (Py.break P s) as [a b]. simpl in *.
  rewrite app_cons, <- IH1. repeat split; [|done]. by apply lacks_cons.
Qed.

Lemma break_app P a b :
  lacks P a →
  match first_char b with Some c => P c = true | None => True end →
  Py.break P (a +:+ b) = (a, b).
Proof.
  intros Ha Hb. induction a as [|c a IH].
  - rewrite app_nil_l. destruct b as [|c b]; [done|]. simpl in *. by rewrite Hb.
  - apply lacks_cons in Ha as [Hc Ha]. rewrite app_cons. simpl.
    by rewrite Hc, (IH Ha).
Qed.

Lemma break_lacking P s : lacks P s → Py.break P s = (s, "").
Proof.
  intros Hs. rewrite <- (app_nil_r s) at 1. by apply break_app.
Qed.

End StrFacts.

(** ** urlparse *)

Module UrlFacts.
Import Str StrFacts.

Lemma split_once_spec c s :
  lacks (Soup.is_char c) (fst (Url.split_once c s))
  ∧ (∃ r, s = fst (Url.split_once c s) +:+ r)
  ∧ (first_char (fst (Url.split_once c s)) = None
     ∨ first_char (fst (Url.split_once c s)) = first_char s).
Proof.
  unfold Url.split_once. destruct (break_spec (Soup.is_char c) s) as (Hs & Hl & _).
  destruct (Py.break (Soup.is_char c) s) as [a b]. simpl in *.
  assert (first_char a = None ∨ first_char a = first_char s) as Hf.
  { rewrite Hs. destruct a; [by left|by right]. }
  destruct b; simpl; eauto.
Qed.

Lemma split_once_lacking c s :
  lacks (Soup.is_char c) s → Url.split_once c s = (s, "").
Proof. intros Hs. unfold Url.split_once. by rewrite (break_lacking _ _ Hs). Qed.

Lemma split_scheme_suffix s : ∃ pre, s = pre +:+ snd (Url.split_scheme s).
Proof.
  unfold Url.split_scheme.
  destruct (break_spec (Soup.is_char ":") s) as (Hs & _ & _).
  destruct (Py.break (Soup.is_char ":") s) as [a b]. simpl in *.
  destruct a as [|c a]; [by exists ""|].
  destruct b as [|d b]; [by exists ""|].
  destruct (_ && _); [|by exists ""].
  exists (String c a +:+ String d ""). by rewrite app_assoc.
Qed.

Lemma split_netloc_spec s :
  (s = "//" +:+ fst (Url.split_netloc s) +:+ snd (Url.split_netloc s)
   ∧ lacks Url.netloc_delim (fst (Url.split_netloc s))
   ∧ match first_char (snd (Url.split_netloc s)) with
     | Some c => Url.netloc_delim c = true
     | None => True
     end)
  ∨ Url.split_netloc s = ("", s).
Proof.
  unfold Url.split_netloc.
  destruct s as [|c1 [|c2 r]].
  { right. reflexivity. }
  { right. destruct c1 as [[] [] [] [] [] [] [] []]; reflexivity. }
  destruct (Ascii.eqb_spec c1 "/") as [->|Hc1].
  2:{ right. destruct c1 as [[] [] [] [] [] [] [] []]; try reflexivity. done. }
  destruct (Ascii.eqb_spec c2 "/") as [->|Hc2].
  2:{ right. destruct c2 as [[] [] [] [] [] [] [] []]; try reflexivity. done. }
  left. destruct (break_spec Url.netloc_delim r) as (Hs & Hl & Hb).
  split; [|done]. rewrite !app_cons, app_nil_l. by rewrite <- Hs.
Qed.

Lemma split_last_segment_spec s :
  s = fst (Url.split_last_segment s) +:+ snd (Url.split_last_segment s).
Proof.
  induction s as [|c s IH]; [done|]. simpl.
  destruct (Url.split_last_segment s) as [d l]. simpl in *.
  destruct (Soup.is_char c "/"); simpl; [by rewrite app_cons, <- IH|].
  destruct d; simpl; [by rewrite IH|]. by rewrite IH, !app_cons.
Qed.

Lemma split_last_segment_closed s :
  last_char s = Some "/"%char → Url.split_last_segment s = (s, "").
Proof.
  induction s as [|c s IH]; [done|]. destruct s as [|d s].
  - by intros [= ->].
  - intros Hs. rewrite last_char_cons in Hs by done.
    cbn [Url.split_last_segment]. cbn [Url.split_last_segment] in IH.
    rewrite (IH Hs). by destruct (Soup.is_char c "/").
Qed.

Lemma strip_params_prefix s : ∃ r, s = fst (Url.strip_params s) +:+ r.
Proof.
  unfold Url.strip_params. pose proof (split_last_segment_spec s) as Hs.
  destruct (Url.split_last_segment s) as [d l]. simpl in *.
  destruct (split_once_spec ";" l) as (_ & [r Hr] & _).
  destruct (Url.split_once ";" l) as [a b]. simpl in *.
  exists r. by rewrite app_assoc, <- Hr.
Qed.

Lemma strip_params_closed s :
  s = "" ∨ last_char s = Some "/"%char → Url.strip_params s = (s, "").
Proof.
  intros [->|Hs]; [done|]. unfold Url.strip_params.
  rewrite (split_last_segment_closed _ Hs). simpl. by rewrite app_nil_r.
Qed.

Lemma first_char_prefix a r :
  first_char a = None ∨ first_char a = first_char (a +:+ r).
Proof. destruct a; [by left|by right]. Qed.

Section WithEnv.
Context `{Env}.

(** What [urlparse] guarantees of the netloc and path it returns. *)
Lemma urlparse_shape url p :
  Url.urlparse url = Py.Ok p →
  lacks Url.unsafe_byte (Url.netloc p)
  ∧ lacks Url.netloc_delim (Url.netloc p)
  ∧ Url.unbalanced_brackets (Url.netloc p) = false
  ∧ netloc_check (Url.netloc p) = None
  ∧ lacks Url.unsafe_byte (Url.path p)
  ∧ lacks (Soup.is_char "#") (Url.path p)
  ∧ lacks (Soup.is_char "?") (Url.path p)
  ∧ (Url.netloc p = ""
     ∨ first_char (Url.path p) = None
     ∨ first_char (Url.path p) = Some "/"%char).
Proof.
  unfold Url.urlparse.
  pose proof (lacks_remove Url.unsafe_byte
                (Py.lstrip_by Url.c0_control_or_space url)) as Hu1.
  set (u1 := Url.remove _ _) in *.
  destruct (split_scheme_suffix u1) as [pre Hpre].
  destruct (Url.split_scheme u1) as [sch u2]. simpl in Hpre.
  rewrite Hpre in Hu1. apply lacks_app in Hu1 as [_ Hu2].
  pose proof (split_netloc_spec u2) as Hn.
  destruct (Url.split_netloc u2) as [n u3]. simpl in Hn.
  destruct (Url.unbalanced_brackets n) eqn:Hbr; [done|].
  destruct (split_once_spec "#" u3) as (Hf1 & [r4 Hf2] & Hf3).
  destruct (Url.split_once "#" u3) as [u4 frag]. cbn [fst snd] in *.
  destruct (split_once_spec "?" u4) as (Hq1 & [r5 Hq2] & Hq3).
  destruct (Url.split_once "?" u4) as [u5 qry]. cbn [fst snd] in *.
  destruct (netloc_check n) eqn:Hck; [done|].
  assert (lacks Url.unsafe_byte n ∧ lacks Url.netloc_delim n
          ∧ lacks Url.unsafe_byte u3
          ∧ (n = "" ∨ match first_char u3 with
                       | Some c => Url.netloc_delim c = true
                       | None => True
                       end)) as (Hn1 & Hn2 & Hu3 & Hroot).
  { destruct Hn as [(Hu2' & Hnd & Hb)|[= -> ->]];
      [|by repeat split; [..|left]].
    rewrite Hu2' in Hu2. apply lacks_app in Hu2 as [_ Hu2].
    apply lacks_app in Hu2 as [? ?]. eauto. }
  assert (lacks Url.unsafe_byte u5 ∧ lacks (Soup.is_char "#") u5
          ∧ lacks (Soup.is_char "?") u5
          ∧ (n = "" ∨ first_char u5 = None ∨ first_char u5 = Some "/"%char))
    as (Hu5 & Hh5 & Hq5 & Hr5).
  { rewrite Hf2 in Hu3. apply lacks_app in Hu3 as [Hu4 _].
    rewrite Hq2 in Hu4, Hf1. apply lacks_app in Hu4 as [Hu5 _].
    apply lacks_app in Hf1 as [Hh5 _]. repeat split; [done..|].
    destruct Hroot as [->|Hroot]; [by left|]. right.
    destruct u5 as [|c u5]; [by left|]. right.
    destruct Hq3 as [?|Hq3]; [done|]. destruct Hf3 as [Hf3|Hf3].
    { rewrite Hf3 in Hq3. done. }
    rewrite <- Hf3, <- Hq3 in Hroot. simpl in Hroot.
    apply lacks_cons in Hh5 as [Hc1 _]. apply lacks_cons in Hq1 as [Hc2 _].
    unfold Url.netloc_delim, Soup.is_char in *.
    rewrite Ascii.eqb_sym in Hc1. rewrite Ascii.eqb_sym in Hc2.
    rewrite Hc1, Hc2, !orb_false_r in Hroot.
    by apply Ascii.eqb_eq in Hroot as ->. }
  assert (∀ u6 prm,
            (if existsb (String.eqb sch) Url.uses_params && Py.contains ";" u5
             then Url.strip_params u5 else (u5, "")) = (u6, prm) →
            ∃ r, u5 = u6 +:+ r) as Hprefix.
  { intros u6 prm. destruct (_ && _).
    - intros Hp. destruct (strip_params_prefix u5) as [r Hr].
      rewrite Hp in Hr. eauto.
    - intros [= <- <-]. exists "". by rewrite app_nil_r. }
  destruct (if existsb (String.eqb sch) Url.uses_params && Py.contains ";" u5
            then Url.strip_params u5 else (u5, "")) as [u6 prm] eqn:Hp6.
  destruct (Hprefix _ _ eq_refl) as [r6 Hr6].
  intros [= <-]. simpl.
  rewrite Hr6 in Hu5, Hh5, Hq5.
  apply lacks_app in Hu5 as [? _]. apply lacks_app in Hh5 as [? _].
  apply lacks_app in Hq5 as [? _]. repeat split; [done..|].
  destruct Hr5 as [?|Hr5]; [by left|]. right.
  destruct (first_char_prefix u6 r6) as [?|Hfc]; [by left|].
  rewrite <- Hr6 in Hfc. rewrite Hfc. done.
Qed.

End WithEnv.
End UrlFacts.


(** ** URL normalisation *)

Section Normalize_facts.
Context `{Env}.
Import Str StrFacts UrlFacts.

Lemma http_head s X :
  s = "http" ∨ s = "https" →
  Py.lstrip_by Url.c0_control_or_space (s +:+ "://" +:+ X) = s +:+ "://" +:+ X
  ∧ Url.remove Url.unsafe_byte (s +:+ "://" +:+ X)
    = s +:+ "://" +:+ Url.remove Url.unsafe_byte X
  ∧ Url.split_scheme (s +:+ "://" +:+ X) = (s, "//" +:+ X)
  ∧ Url.split_netloc ("//" +:+ X) = Py.break Url.netloc_delim X
  ∧ existsb (String.eqb s) Url.uses_params = true
  ∧ (Py.startswith (s +:+ "://" +:+ X) "http://"
     || Py.startswith (s +:+ "://" +:+ X) "https://") = true.
Proof.
  intros [-> | ->]; repeat split; try reflexivity.
  - change ("http" +:+ "://" +:+ X) with ("http://" +:+ X).
    by rewrite startswith_app.
  - change ("https" +:+ "://" +:+ X) with ("https://" +:+ X).
    rewrite (startswith_app "https://"). apply orb_true_r.
Qed.

(** The text [scheme://netloc path] of an http(s) URL, with a path that is
    empty or runs from a slash to a slash, parses back to its parts. *)
Lemma urlparse_rebuilt s n pa :
  s = "http" ∨ s = "https" →
  lacks Url.unsafe_byte n →
  lacks Url.netloc_delim n →
  Url.unbalanced_brackets n = false →
  netloc_check n = None →
  lacks Url.unsafe_byte pa →
  lacks (Soup.is_char "#") pa →
  lacks (Soup.is_char "?") pa →
  pa = "" ∨ (first_char pa = Some "/"%char ∧ last_char pa = Some "/"%char) →
  Url.urlparse (s +:+ "://" +:+ n +:+ pa) = Py.Ok (Url.Parts s n pa "" "" "").
Proof.
  intros Hs Hn1 Hn2 Hbr Hck Hp1 Hp2 Hp3 Hpa. unfold Url.urlparse.
  destruct (http_head s (n +:+ pa) Hs) as (-> & -> & Hsch & Hnet & Huses & _).
  rewrite (remove_lacking Url.unsafe_byte (n +:+ pa))
    by (by apply lacks_app).
  rewrite Hsch, Hnet. rewrite break_app; [|done|].
  2:{ destruct Hpa as [->|[Hf _]]; [done|]. by rewrite Hf. }
  rewrite Hbr, (split_once_lacking "#" pa Hp2), (split_once_lacking "?" pa Hp3), Hck.
  rewrite Huses, strip_params_closed by tauto.
  by destruct (Py.contains ";" pa).
Qed.

Lemma lacks_last_char P s c : lacks P s → last_char s = Some c → P c = false.
Proof.
  induction s as [|d s IH]; [done|]. intros [Hd Hs]%lacks_cons.
  destruct s as [|e s]; [by intros [= <-]|]. intros Hl. by apply IH.
Qed.

(** No skipped extension ends with a slash. *)
Lemma skip_extensions_slash x :
  last_char x = Some "/"%char →
  existsb (Py.endswith (Py.lower x)) SKIP_EXTENSIONS = false.
Proof.
  intros Hx. apply not_true_iff_false. intros (ext & Hin & He)%existsb_exists.
  assert (forallb (fun e => negb (ends_in_slash e)) SKIP_EXTENSIONS = true)
    as Hall by reflexivity.
  rewrite forallb_forall in Hall. specialize (Hall _ Hin).
  apply negb_true_iff in Hall. unfold ends_in_slash in Hall.
  destruct (last_char ext) as [c|] eqn:Hc; [|done].
  apply endswith_last_char in He; [|by intros ->].
  rewrite last_char_lower, Hx, Hc in He. injection He as <-. done.
Qed.

Lemma normalize_parsed self url p :
  Url.urlparse url = Py.Ok p →
  (Py.startswith url "http://" || Py.startswith url "https://") = true →
  accepted self p →
  _normalize_url self url "" = Py.Ok (Some (clean_url p))
  ∧ ∀ parent, _normalize_url self url parent = _normalize_url self url "".
Proof.
  intros Hp Hstart ([Hs|Hs] & Hscope & Hext); split; try intros parent;
    unfold _normalize_url, clean_url;
    apply orb_true_iff in Hstart;
    (destruct (Py.startswith url "http://"), (Py.startswith url "https://");
     try (by destruct Hstart));
    cbn [negb andb mbind result_bind Py.bind]; rewrite ?Hp;
    cbn [mbind result_bind Py.bind]; rewrite ?Hs, ?Hscope, ?Hext; done.
Qed.

Lemma normalize_inv self url parent c :
  _normalize_url self url parent = Py.Ok (Some c) →
  ∃ url' p, Url.urlparse url' = Py.Ok p ∧ accepted self p ∧ c = clean_url p.
Proof.
  unfold _normalize_url.
  destruct (if _ && _ then _ else _) as [url'|]; [|done].
  cbn [mbind result_bind Py.bind].
  destruct (Url.urlparse url') as [p|] eqn:Hp; [|done].
  cbn [mbind result_bind Py.bind].
  destruct (String.eqb_spec (Url.scheme p) "http") as [Hs1|Hs1];
    destruct (String.eqb_spec (Url.scheme p) "https") as [Hs2|Hs2];
    cbn [orb negb]; try done;
    (destruct (in_scope self _) eqn:Hscope; cbn [negb]; [|done]);
    (destruct (existsb _ SKIP_EXTENSIONS) eqn:Hext; [done|]);
    intros [= <-]; exists url', p; unfold accepted; eauto 10.
Qed.

Lemma clean_url_ends_with_slash p : Py.endswith (clean_url p) "/" = true.
Proof.
  unfold clean_url. cbv zeta.
  set (c0 := Url.scheme p +:+ "://" +:+ Url.netloc p +:+ Url.path p).
  destruct (Py.endswith c0 "/") eqn:He; cbn [negb]; [done|].
  apply endswith_app.
Qed.

(** Every URL [_normalize_url] returns ends with a slash. *)
Lemma normalize_ends_with_slash self url parent c :
  _normalize_url self url parent = Py.Ok (Some c) → Py.endswith c "/" = true.
Proof.
  intros (url' & p & _ & _ & ->)%normalize_inv. apply clean_url_ends_with_slash.
Qed.

Lemma in_scope_empty self : domain self ≠ "" → in_scope self "" = false.
Proof.
  intros Hd. unfold in_scope. destruct (domain self) as [|c d]; [done|].
  by destruct (allow_subdomains self).
Qed.

(** The returned text as [scheme://netloc path'], with a path that is empty
    or runs from a slash to a slash. *)
Lemma clean_url_rebuilt self url p :
  domain self ≠ "" →
  Url.urlparse url = Py.Ok p →
  accepted self p →
  ∃ pa',
    clean_url p = Url.scheme p +:+ "://" +:+ Url.netloc p +:+ pa'
    ∧ lacks Url.unsafe_byte pa'
    ∧ lacks (Soup.is_char "#") pa'
    ∧ lacks (Soup.is_char "?") pa'
    ∧ first_char pa' = Some "/"%char ∧ last_char pa' = Some "/"%char.
Proof.
  intros Hd Hp (Hs & Hscope & _).
  destruct (urlparse_shape _ _ Hp) as (Hn1 & Hn2 & _ & _ & Hp1 & Hp2 & Hp3 & Hroot).
  assert (Url.netloc p ≠ "") as Hn.
  { intros Hn. rewrite Hn in Hscope.
    change (Py.replace "" "www." "") with "" in Hscope.
    by rewrite in_scope_empty in Hscope. }
  destruct Hroot as [?|Hroot]; [done|].
  unfold clean_url. cbv zeta.
  destruct (Py.endswith (Url.scheme p +:+ "://" +:+ Url.netloc p +:+ Url.path p) "/")
    eqn:He; cbn [negb].
  - exists (Url.path p). split; [done|]. repeat split; [done..| |].
    + destruct Hroot as [Hroot|Hroot]; [|done].
      destruct (Url.path p); [|done]. rewrite app_nil_r in He.
      apply endswith_one in He.
      repeat (rewrite last_char_app in He by done).
      by pose proof (lacks_last_char _ _ _ Hn2 He).
    + apply endswith_one in He.
      destruct (Url.path p) as [|c pa] eqn:Hpa.
      * rewrite app_nil_r in He.
        repeat (rewrite last_char_app in He by done).
        by pose proof (lacks_last_char _ _ _ Hn2 He).
      * rewrite <- !app_assoc in He. by rewrite last_char_app in He.
  - exists (Url.path p +:+ "/"). rewrite !app_assoc. split; [done|].
    rewrite !lacks_app. repeat split; try done.
    + destruct Hroot as [Hroot|Hroot]; destruct (Url.path p); done.
    + by rewrite last_char_app.
Qed.

(** C9, as the code has it.  For a crawl whose root domain is not empty,
    normalisation is idempotent: a URL that [_normalize_url] returns for a
    link and a parent is returned unchanged when normalised again with the
    same parent. *)
Theorem normalize_idempotent (self : crawler) (u parent c : string) :
  domain self ≠ "" →
  _normalize_url self u parent = Py.Ok (Some c) →
  _normalize_url self c parent = Py.Ok (Some c).
Proof.
  intros Hd (url' & p & Hp & Hacc & ->)%normalize_inv.
  destruct (clean_url_rebuilt self url' p Hd Hp Hacc)
    as (pa' & Hc & Hu & Hh & Hq & Hfirst & Hlast).
  destruct (urlparse_shape _ _ Hp) as (Hn1 & Hn2 & Hbr & Hck & _).
  pose proof Hacc as (Hs & Hscope & _).
  pose proof (urlparse_rebuilt (Url.scheme p) (Url.netloc p) pa'
                Hs Hn1 Hn2 Hbr Hck Hu Hh Hq (or_intror (conj Hfirst Hlast)))
    as Hp'.
  rewrite <- Hc in Hp'.
  set (p' := Url.Parts (Url.scheme p) (Url.netloc p) pa' "" "" "") in *.
  assert (accepted self p') as Hacc'.
  { split; [done|]. split; [done|]. by apply skip_extensions_slash. }
  assert ((Py.startswith (clean_url p) "http://"
           || Py.startswith (clean_url p) "https://") = true) as Hstart.
  { rewrite Hc. by apply http_head. }
  destruct (normalize_parsed self _ p' Hp' Hstart Hacc') as [Hnorm Hparent].
  rewrite Hparent, Hnorm. do 2 f_equal.
  unfold clean_url at 1. cbn [Url.scheme Url.netloc Url.path p'].
  rewrite <- Hc, clean_url_ends_with_slash. done.
Qed.

End Normalize_facts.

Lemma normalize_idempotent_witness :
  @_normalize_url World.dead_site World.dead_crawler
    "https://example.com/about/" "https://example.com/"
  = Py.Ok (Some "https://example.com/about/").
Proof.
  apply (@normalize_idempotent World.dead_site World.dead_crawler
           "https://example.com/about?x=1#top" "https://example.com/").
  - vm_compute. discriminate.
  - vm_compute. reflexivity.
Defined.

(** C9 as stated fails for a crawl whose seed has no host: with the root
    domain empty, the link [https:docs/a] found on a page of another scheme
    is in scope and normalises to [https://docs/a/], which read again has
    host [docs] and is out of scope. *)
Lemma normalize_not_idempotent :
  let self := World.hostless_crawler in
  let parent := "http://example.com/" in
  domain self = ""
  ∧ @_normalize_url World.dead_site self "https:docs/a" parent
    = Py.Ok (Some "https://docs/a/")
  ∧ @_normalize_url World.dead_site self "https://docs/a/" parent = Py.Ok None.
Proof. vm_compute. repeat split. Qed.

(** C4.  With root domain [example.com] and subdomains not allowed, the
    code returns a URL for a link whose host is [exawww.mple.com]: removing
    every [www.] from the host leaves [example.com], while stripping a
    leading [www.] leaves the host as it is, different from the root
    domain. *)
Theorem www_removed_anywhere :
  let self := World.dead_crawler in
  allow_subdomains self = false
  ∧ domain self = "example.com"
  ∧ @_normalize_url World.dead_site self "https://exawww.mple.com/page"
      "https://example.com/"
    = Py.Ok (Some "https://exawww.mple.com/page/")
  ∧ strip_leading_www "exawww.mple.com" ≠ strip_leading_www (netloc self).
Proof. vm_compute. repeat split. discriminate. Qed.


(** ** The crawl loop *)

Section Crawl_facts.
Context `{Env}.

Lemma dict_set_keys k v d x :
  x ∈ map fst (Py.dict_set k v d) ↔ x = k ∨ x ∈ map fst d.
Proof.
  induction d as [|[k' v'] d IH]; simpl.
  - set_solver.
  - destruct (String.eqb k k') eqn:Hk; simpl.
    + apply String.eqb_eq in Hk as <-. set_solver.
    + rewrite !elem_of_cons, IH. naive_solver.
Qed.

Lemma pipeline_urls_app evs evs' :
  pipeline_urls (evs ++ evs') = pipeline_urls evs ++ pipeline_urls evs'.
Proof. apply omap_app. Qed.

Lemma sleeps_app evs evs' : sleeps (evs ++ evs') = sleeps evs + sleeps evs'.
Proof. unfold sleeps. by rewrite List.filter_app, length_app. Qed.

Lemma step_invariant self st st' :
  step self st = Some (Py.Ok st') → crawl_invariant self st → crawl_invariant self st'.
Proof.
  intros Hstep (Hpages & Hfailed & Hnodup & Hvisited & Hhash).
  unfold crawl_invariant, failed_keys in *.
  loop_paths.
  all: cbn [queue visited_urls content_hashes failed_urls pages_crawled
            all_markdown llms_md events].
  all: rewrite ?pipeline_urls_app; simpl pipeline_urls.
  all: repeat split; try lia.
  all: try (intros u; rewrite ?dict_set_keys; set_solver).
  all: try (intros u md; rewrite ?elem_of_app, ?elem_of_cons, ?elem_of_nil;
            intros Hin; destruct_or?; simplify_eq; try set_solver;
            try (specialize (Hhash _ _ Hin); set_solver)).
  all: try (rewrite ?app_nil_r; apply NoDup_app; repeat split;
            [done| set_solver | apply NoDup_singleton]).
  all: try done.
Qed.

Lemma start_invariant self : crawl_invariant self (crawl_start self).
Proof.
  unfold crawl_invariant, crawl_start, failed_keys. simpl.
  repeat split; try lia; try set_solver. constructor.
Qed.

Lemma reachable_invariant self st : reachable self st → crawl_invariant self st.
Proof.
  induction 1; eauto using start_invariant, step_invariant.
Qed.

(** What one iteration adds: [visited_urls] only grows, and a URL goes to
    the pipeline only if it was not in [visited_urls] when dequeued and is
    in it by then. *)
Lemma step_visited self st st' :
  step self st = Some (Py.Ok st') →
  (visited_urls st ⊆ visited_urls st')
  ∧ ∃ new, events st' = events st ++ new
           ∧ ∀ u, u ∈ pipeline_urls new →
                  (u ∉ visited_urls st) ∧ u ∈ visited_urls st'
                  ∧ head (queue st) = Some u.
Proof.
  intros Hstep. loop_paths.
  all: cbn [queue visited_urls content_hashes failed_urls pages_crawled
            all_markdown llms_md events].
  all: split; [set_solver|].
  all: rewrite <- ?(assoc_L (++)).
  all: try (eexists; split; [reflexivity|]; simpl;
            intros u; rewrite ?elem_of_cons, ?elem_of_nil;
            intros Hu; destruct_or?; simplify_eq; try done;
            repeat split; [done|set_solver]).
  all: exists []; rewrite ?app_nil_r; split; [done|]; simpl; set_solver.
Qed.

(** C6.  In every state a crawl run reaches, for a page budget that is not
    negative: [pages_crawled] does not exceed [max_pages]; every key of
    [failed_urls] is in [visited_urls]; an iteration never removes a URL
    from [visited_urls]; no URL has been handed to the fetch pipeline twice;
    and a URL handed to the pipeline by the next iteration is the one
    dequeued, was not in [visited_urls] before and is in it after. *)
Theorem crawl_state_invariant (self : crawler) (st : crawl_state) :
  (0 ≤ max_pages self)%Z →
  reachable self st →
  (pages_crawled st ≤ max_pages self)%Z
  ∧ (∀ u, u ∈ failed_keys st → u ∈ visited_urls st)
  ∧ NoDup (pipeline_urls (events st))
  ∧ (∀ st', step self st = Some (Py.Ok st') →
       (visited_urls st ⊆ visited_urls st')
       ∧ ∃ new, events st' = events st ++ new
                ∧ ∀ u, u ∈ pipeline_urls new →
                       (u ∉ visited_urls st) ∧ u ∈ visited_urls st'
                       ∧ head (queue st) = Some u).
Proof.
  intros Hmax Hreach.
  destruct (reachable_invariant _ _ Hreach) as (Hpages & Hfailed & Hnodup & _).
  split; [lia|]. split; [done|]. split; [done|].
  intros st' Hstep. exact (step_visited self st st' Hstep).
Qed.

(** The skip on duplicate content as the code has it.  When the pipeline
    returns for the dequeued URL the very text, title line included, that
    it returned for an earlier page of the same crawl, the iteration counts
    the page in [pages_crawled], appends nothing to the aggregate Markdown
    or to the file the pipeline left, extracts no links (the queue is the
    rest of the queue, no second request is made) and ends without the
    delay. *)
Lemma duplicate_page_skipped (self : crawler) (st : crawl_state)
    (url : string) (rest : list string) (file : option string)
    (page_markdown earlier : string) :
  reachable self st →
  queue st = url :: rest →
  (pages_crawled st < max_pages self)%Z →
  url ∉ visited_urls st →
  _can_fetch self url = Py.Ok true →
  parse_url_to_markdown url (llms_md st) = (file, Py.Ok page_markdown) →
  Pipeline earlier (Py.Ok page_markdown) ∈ events st →
  ∃ st', step self st = Some (Py.Ok st')
    ∧ pages_crawled st' = (pages_crawled st + 1)%Z
    ∧ all_markdown st' = all_markdown st
    ∧ llms_md st' = file
    ∧ queue st' = rest
    ∧ events st' = events st ++ [Pipeline url (Py.Ok page_markdown)]
    ∧ failed_urls st' = failed_urls st.
Proof.
  intros Hreach Hq Hlt Hnew Hcan Hpipe Hearlier.
  destruct (reachable_invariant _ _ Hreach) as (_ & _ & _ & _ & Hhash).
  specialize (Hhash _ _ Hearlier).
  unfold step. rewrite Hq. apply Z.ltb_lt in Hlt. rewrite Hlt.
  unfold loop_body, inner_try, pop, _is_duplicate_content.
  cbn [queue visited_urls content_hashes failed_urls pages_crawled
       all_markdown llms_md events].
  rewrite (bool_decide_eq_false_2 _ Hnew), Hcan.
  cbn [mbind result_bind Py.bind negb]. rewrite Hpipe.
  rewrite (bool_decide_eq_true_2 _ Hhash).
  eexists. split; [reflexivity|]. done.
Qed.

(** A URL [_normalize_url] returns holds no line feed: [urlparse] removes
    tabs and line breaks before it splits. *)
Lemma normalized_lacks_line_feed self href parent c :
  _normalize_url self href parent = Py.Ok (Some c) →
  Str.lacks (Soup.is_char "010") c.
Proof.
  intros (url' & p & Hp & (Hs & _ & _) & ->)%normalize_inv.
  destruct (UrlFacts.urlparse_shape _ _ Hp) as (Hn & _ & _ & _ & Hpath & _).
  assert (∀ s, Str.lacks Url.unsafe_byte s → Str.lacks (Soup.is_char "010") s)
    as Hweaken.
  { induction s as [|a s IH]; [done|]. rewrite !StrFacts.lacks_cons.
    intros [Ha Hrest]. split; [|by apply IH].
    destruct (Soup.is_char "010" a) eqn:Heq; [|done].
    apply Ascii.eqb_eq in Heq. by subst a. }
  unfold clean_url. cbv zeta. destruct (negb _);
    rewrite !StrFacts.lacks_app; repeat split;
    try (by destruct Hs as [-> | ->]); try done; by apply Hweaken.
Qed.

(** The text the pipeline returns begins with the title line of its URL. *)
Lemma pipeline_text_head url file file' markdown :
  parse_url_to_markdown url file = (file', Py.Ok markdown) →
  ∃ rest, markdown = "# " +:+ url +:+ nl +:+ rest.
Proof.
  unfold parse_url_to_markdown.
  destruct (fetch_url url) as [html|]; cbn [mbind result_bind Py.bind]; [|done].
  destruct (extract url html) as [[fragment name]|];
    cbn [mbind result_bind Py.bind]; [|done].
  destruct (convert_to_markdown fragment) as [md|];
    cbn [mbind result_bind Py.bind]; [|done].
  destruct (deduplicate_content md ∅) as [body seen].
  intros [= _ <-]. eauto.
Qed.


(** The seed enters the queue as given, and the first iteration records it
    in [visited_urls] as given. *)
Lemma inner_try_visited self url st :
  visited_urls (fst (inner_try self url st)) = visited_urls st.
Proof.
  unfold inner_try, _is_duplicate_content.
  destruct (parse_url_to_markdown url (llms_md st)) as [file [md|e]]; [|done].
  destruct (bool_decide _); [done|].
  destruct (Url.urlparse url); [|done].
  by destruct (mbind _ _).
Qed.

Lemma sleep_after_visited self url st :
  visited_urls (sleep_after self url st) = visited_urls st.
Proof. unfold sleep_after. by destruct (time_sleep _). Qed.

Lemma seed_verbatim self :
  queue (crawl_start self) = [start_url self]
  ∧ ∀ st', step self (crawl_start self) = Some (Py.Ok st') →
           visited_urls st' = {[ start_url self ]}.
Proof.
  split; [done|]. intros st'. unfold step. cbn [crawl_start queue].
  destruct (_ <? _)%Z; [|done]. intros [= Hbody]. revert Hbody.
  assert (∀ x : string, {[ x ]} ∪ (∅ : gset string) = {[ x ]}) as Hx
    by set_solver.
  unfold loop_body, pop.
  cbn [crawl_start queue visited_urls content_hashes failed_urls pages_crawled
       all_markdown llms_md events].
  rewrite bool_decide_eq_false_2 by set_solver.
  destruct (_can_fetch self (start_url self)) as [[|]|];
    cbn [mbind result_bind Py.bind negb]; [|intros [= <-]; apply Hx|done].
  match goal with
  | |- context [inner_try self ?u ?st] =>
      pose proof (inner_try_visited self u st) as Hin;
      destruct (inner_try self u st) as [st1 how]
  end.
  cbn [fst visited_urls] in Hin. intros [= <-].
  destruct how; rewrite ?sleep_after_visited; cbn [record_failure visited_urls];
    by rewrite Hin.
Qed.

(** An iteration either counts a page or shortens the queue by the URL it
    dequeued. *)
Lemma step_progress self st st' :
  step self st = Some (Py.Ok st') →
  (pages_crawled st < max_pages self)%Z
  ∧ (pages_crawled st' = (pages_crawled st + 1)%Z
     ∨ pages_crawled st' = pages_crawled st
       ∧ S (length (queue st')) = length (queue st)).
Proof.
  intros Hstep. loop_paths.
  all: cbn [queue visited_urls content_hashes failed_urls pages_crawled
            all_markdown llms_md events length].
  all: split; [done|]; auto.
Qed.

(** The loop of [crawl] ends: from every state some number of iterations
    reaches a state in which the loop condition fails. *)
Lemma crawl_loop_terminates self : ∀ st, ∃ fuel, is_Some (crawl_loop fuel self st).
Proof.
  assert (∀ budget queued st,
            (max_pages self - pages_crawled st ≤ Z.of_nat budget)%Z →
            length (queue st) ≤ queued →
            ∃ fuel, is_Some (crawl_loop fuel self st)) as Hloop.
  { induction budget as [|budget IHbudget].
    - intros queued st Hb _. exists 0. simpl.
      destruct (step self st) as [[st'|e]|] eqn:Hstep; [|eauto..].
      apply step_progress in Hstep as [? _]. lia.
    - induction queued as [|queued IHqueued]; intros st Hb Hq.
      + exists 0. simpl. unfold step. destruct (queue st); [eauto|].
        simpl in Hq. lia.
      + destruct (step self st) as [[st'|e]|] eqn:Hstep.
        2,3: exists 0; simpl; rewrite Hstep; eauto.
        destruct (step_progress _ _ _ Hstep) as [Hlt [Hcount|[Hsame Hshort]]].
        * destruct (IHbudget (length (queue st')) st') as [fuel Hfuel];
            [lia|done|].
          exists (S fuel). simpl. by rewrite Hstep.
        * destruct (IHqueued st') as [fuel Hfuel]; [lia|lia|].
          exists (S fuel). simpl. by rewrite Hstep. }
  intros st.
  apply (Hloop (Z.to_nat (max_pages self - pages_crawled st)) (length (queue st)));
    lia.
Qed.

(** [crawl] ends, by returning or by raising. *)
Lemma crawl_returns self : ∃ fuel, is_Some (crawl fuel self).
Proof.
  destruct (crawl_loop_terminates self (crawl_start self)) as [fuel [[st|e] Hst]];
    exists fuel; unfold crawl; rewrite Hst; eauto.
Qed.

(** The pipeline leaves [llms.md] holding the page it returns, whatever the
    file held. *)
Lemma pipeline_overwrites_file url file file' markdown :
  parse_url_to_markdown url file = (file', Py.Ok markdown) →
  file' = Some markdown.
Proof.
  unfold parse_url_to_markdown.
  destruct (mbind _ _) as [md|e]; [|done]. by intros [= <- <-].
Qed.

End Crawl_facts.

(** *** The theorems at work in small worlds *)

Lemma run_reachable (E : Env) (n : nat) (self : crawler) :
  @reachable E self (World.run E n self).
Proof.
  induction n as [|n IH]; simpl; [constructor|].
  destruct (step self (World.run E n self)) as [[st'|e]|] eqn:Hstep; simpl;
    [|done..].
  by econstructor.
Qed.

Lemma crawl_state_invariant_witness :
  let st := World.run World.docs_site 1 World.docs_crawler in
  (pages_crawled st ≤ 100)%Z
  ∧ (∀ u, u ∈ @failed_keys st → u ∈ visited_urls st)
  ∧ NoDup (pipeline_urls (events st)).
Proof.
  destruct (@crawl_state_invariant World.docs_site World.docs_crawler
              (World.run World.docs_site 1 World.docs_crawler))
    as (Hp & Hf & Hn & _).
  - vm_compute. discriminate.
  - apply run_reachable.
  - exact (conj Hp (conj Hf Hn)).
Defined.

(** The title line ends at the first line feed when the URL holds none. *)
Lemma title_line_break url rest :
  Str.lacks (Soup.is_char "010") url →
  Py.break (Soup.is_char "010") ("# " +:+ url +:+ nl +:+ rest)
  = ("# " +:+ url, nl +:+ rest).
Proof.
  intros Hurl. rewrite <- (StrFacts.app_assoc "# " url (nl +:+ rest)).
  apply StrFacts.break_app; [|done].
  apply StrFacts.lacks_app. split; [by vm_compute|done].
Qed.

(** C7.  The duplicate check of [crawl] never sees the converted Markdown
    alone: it hashes the text the pipeline returns, which begins with the
    line [# <url>].  For two URLs without line feeds equal texts mean equal
    URLs, and every URL [_normalize_url] returns is without line feeds, so
    two distinct links are never found to be duplicates by their text.
    In the world [docs_site] the URLs
    [/docs] and [/docs/] serve one document and the Markdown converted from
    it is the same for both; yet the second page is not skipped: it is
    counted, appended to the aggregate Markdown after the first, and
    requested a second time for its links. *)
Theorem same_markdown_appended_twice :
  (∀ (E : Env) (url1 url2 : string) (file1 file1' file2 file2' : option string)
     (markdown : string),
      Str.lacks (Soup.is_char "010") url1 →
      Str.lacks (Soup.is_char "010") url2 →
      parse_url_to_markdown url1 file1 = (file1', Py.Ok markdown) →
      parse_url_to_markdown url2 file2 = (file2', Py.Ok markdown) →
      url1 = url2)
  ∧ (∀ (E : Env) (self : crawler) (href parent c : string),
      _normalize_url self href parent = Py.Ok (Some c) →
      Str.lacks (Soup.is_char "010") c)
  ∧ (let self := World.docs_crawler in
     let first := "https://example.com/docs" in
     let second := "https://example.com/docs/" in
     let st1 := World.run World.docs_site 1 self in
     let st2 := World.run World.docs_site 2 self in
     (∃ md, @converted_markdown World.docs_site first = Py.Ok md
            ∧ @converted_markdown World.docs_site second = Py.Ok md)
     ∧ queue st1 = [second]
     ∧ map fst (appended (events st1)) = [first]
     ∧ @duplicate_skip World.docs_site second st1 = false
     ∧ @step World.docs_site self st1 = Some (Py.Ok st2)
     ∧ pages_crawled st2 = 2%Z
     ∧ map fst (appended (events st2)) = [first; second]
     ∧ refetched (events st2) = [first; second]
     ∧ all_markdown st2
       = Soup.concat_strings
           (map (fun page => @section_of World.docs_site (fst page) (snd page))
                (appended (events st2)))).
Proof.
  split.
  - intros E url1 url2 file1 file1' file2 file2' markdown Hl1 Hl2
      (rest1 & ->)%pipeline_text_head (rest2 & Heq)%pipeline_text_head.
    apply (f_equal (Py.break (Soup.is_char "010"))) in Heq.
    rewrite !title_line_break in Heq by done.
    injection Heq as Heq _. exact Heq.
  - split; [intros E self href parent c; apply normalized_lacks_line_feed|].
    vm_compute. repeat split. eexists. split; reflexivity.
Qed.

Lemma duplicate_page_skipped_witness :
  let st := World.run World.echo_site 1 World.echo_crawler in
  ∃ st', @step World.echo_site World.echo_crawler st = Some (Py.Ok st')
    ∧ pages_crawled st' = 2%Z
    ∧ all_markdown st' = all_markdown st
    ∧ queue st' = [].
Proof.
  destruct (@duplicate_page_skipped World.echo_site World.echo_crawler
              (World.run World.echo_site 1 World.echo_crawler)
              "http://a/" []
              (fst (@parse_url_to_markdown World.echo_site "http://a/" None))
              (match snd (@parse_url_to_markdown World.echo_site "http://a/" None) with
               | Py.Ok md => md
               | Py.Raise _ => ""
               end)
              World.echo_seed)
    as (st' & Hstep & Hpages & Hall & _ & Hq & _).
  - apply run_reachable.
  - vm_compute. reflexivity.
  - vm_compute. reflexivity.
  - apply (bool_decide_eq_false_1 _). vm_compute. reflexivity.
  - vm_compute. reflexivity.
  - vm_compute. reflexivity.
  - apply list_elem_of_In. vm_compute. left. reflexivity.
  - exists st'. repeat split; [exact Hstep|exact Hpages|exact Hall|exact Hq].
Defined.



(** C10.  In every world the seed is enqueued as given and recorded in
    [visited_urls] as given, while every URL [_normalize_url] returns ends
    with a slash, hence differs from a seed that does not; and in the world
    [docs_site], whose page links to itself, the crawl seeded with
    [https://example.com/docs] hands to the pipeline first the seed and then
    [https://example.com/docs/], two requests answered with the same page. *)
Theorem seed_bypasses_normalize :
  (∀ (E : Env) (self : crawler),
      queue (crawl_start self) = [start_url self]
      ∧ (∀ st', step self (crawl_start self) = Some (Py.Ok st') →
                visited_urls st' = {[ start_url self ]})
      ∧ (∀ url parent c,
           _normalize_url self url parent = Py.Ok (Some c) →
           Py.endswith c "/" = true
           ∧ (Py.endswith (start_url self) "/" = false → c ≠ start_url self)))
  ∧ (let self := World.docs_crawler in
     let st := World.run World.docs_site 2 self in
     Py.endswith (start_url self) "/" = false
     ∧ @step World.docs_site self st = None
     ∧ pipeline_urls (events st) = [start_url self; start_url self +:+ "/"]
     ∧ @requests_get_checked World.docs_site (start_url self)
       = @requests_get_checked World.docs_site (start_url self +:+ "/")).
Proof.
  split.
  - intros E self. destruct (seed_verbatim self) as [Hq Hv].
    split; [done|]. split; [done|]. intros url parent c Hc.
    pose proof (normalize_ends_with_slash _ _ _ _ Hc) as Hslash.
    split; [done|]. intros Hseed ->. by rewrite Hslash in Hseed.
  - vm_compute. repeat split.
Qed.

Lemma seed_bypasses_normalize_witness :
  Py.endswith "https://example.com/docs/" "/" = true
  ∧ "https://example.com/docs/" ≠ start_url World.docs_crawler.
Proof.
  destruct (proj2 (proj2 (proj1 seed_bypasses_normalize World.docs_site
                            World.docs_crawler))
              "https://example.com/docs" "https://example.com/docs"
              "https://example.com/docs/") as [Hslash Hdiffers].
  - vm_compute. reflexivity.
  - split; [exact Hslash|]. apply Hdiffers. vm_compute. reflexivity.
Defined.

(** C3.  In the world [docs_site] the crawl ends after two pages, both
    extracted and appended; the file it leaves and the text it returns are
    not the artifact of the specification for these two pages: the file
    starts with the last page as the pipeline wrote it, the returned text
    with the first page section, and neither with the title line. *)
Theorem crawl_artifact_overwritten :
  let self := World.docs_crawler in
  let st := World.run World.docs_site 2 self in
  let pages := zip ["/docs"; "/docs/"] (omap returned_markdown (events st)) in
  @crawl World.docs_site 2 self = Some (Py.Ok (@crawl_finish st))
  ∧ pages_crawled st = 2%Z
  ∧ failed_urls st = []
  ∧ all_markdown st
    = Soup.concat_strings (map (fun page => page_section (fst page) (snd page)) pages)
  ∧ snd (@crawl_finish st) ≠ Some (@artifact World.docs_site self pages st)
  ∧ fst (@crawl_finish st) ≠ @artifact World.docs_site self pages st
  ∧ Py.startswith (default "" (snd (@crawl_finish st)))
      "# https://example.com/docs/" = true
  ∧ Py.startswith (fst (@crawl_finish st)) (nl +:+ nl +:+ "## Page: /docs") = true.
Proof. vm_compute. repeat split; discriminate. Qed.


(** * Further properties of the code *)

(** ** Lines: [split] and [join] *)

Module LineFacts.
Import Str StrFacts.

Lemma split_cons_inv sep s : ∃ w ws, Py.split sep s = w :: ws.
Proof.
  induction s as [|c s (w & ws & IH)]; simpl; [eauto|].
  destruct (Ascii.eqb c sep); [eauto|]. rewrite IH. eauto.
Qed.

Lemma join_cons sep w v ws :
  Py.join sep (w :: v :: ws) = w +:+ sep +:+ Py.join sep (v :: ws).
Proof. done. Qed.

(** Splitting at newlines and joining with newlines gives the text back. *)
Lemma join_split s : Py.join nl (Py.split "010" s) = s.
Proof.
  induction s as [|c s IH]; [done|]. simpl.
  destruct (split_cons_inv "010" s) as (w & ws & Hs). rewrite Hs in *.
  destruct (Ascii.eqb_spec c "010") as [->|Hc].
  - rewrite join_cons, IH. done.
  - destruct ws as [|v ws].
    + simpl in *. by rewrite IH.
    + rewrite join_cons in *. by rewrite app_cons, IH.
Qed.

Lemma split_lacks_newline s :
  Forall (lacks (Soup.is_char "010")) (Py.split "010" s).
Proof.
  induction s as [|c s IH]; simpl; [by repeat constructor|].
  destruct (Ascii.eqb_spec c "010") as [->|Hc]; [by constructor|].
  destruct (split_cons_inv "010" s) as (w & ws & Hs). rewrite Hs in *.
  inversion IH as [|? ? Hw Hws]; subst. constructor; [|done].
  apply lacks_cons. split; [|done]. unfold Soup.is_char.
  rewrite Ascii.eqb_sym. by apply Ascii.eqb_neq.
Qed.

Lemma split_lacking s : lacks (Soup.is_char "010") s → Py.split "010" s = [s].
Proof.
  induction s as [|c s IH]; [done|]. intros [Hc Hs]%lacks_cons. simpl.
  unfold Soup.is_char in Hc. rewrite Ascii.eqb_sym in Hc.
  by rewrite Hc, (IH Hs).
Qed.

Lemma split_app_newline w s :
  lacks (Soup.is_char "010") w →
  Py.split "010" (w +:+ nl +:+ s) = w :: Py.split "010" s.
Proof.
  induction w as [|c w IH]; [done|]. intros [Hc Hw]%lacks_cons.
  rewrite app_cons. simpl. unfold Soup.is_char in Hc.
  rewrite Ascii.eqb_sym in Hc. by rewrite Hc, (IH Hw).
Qed.

(** Joining lines that hold no newline and splitting again gives the lines
    back. *)
Lemma split_join w ws :
  Forall (lacks (Soup.is_char "010")) (w :: ws) →
  Py.split "010" (Py.join nl (w :: ws)) = w :: ws.
Proof.
  revert w. induction ws as [|v ws IH]; intros w Hall.
  - simpl. apply split_lacking. by inversion Hall.
  - inversion Hall as [|? ? Hw Hrest]; subst.
    rewrite join_cons, split_app_newline by done. by rewrite IH.
Qed.

End LineFacts.

(** ** Line-level deduplication, continued *)

Section Dedupe_more.
Context `{Env}.
Import Str StrFacts LineFacts.

(** The loop result does not depend on what is already in [unique_lines]. *)
Lemma dedup_loop_acc lines : ∀ unique seen,
  fold_left dedup_line lines (unique, seen) =
  (unique ++ fst (fold_left dedup_line lines ([], seen)),
   snd (fold_left dedup_line lines ([], seen))).
Proof.
  induction lines as [|line lines IH]; intros unique seen; cbn [fold_left].
  - simpl. by rewrite List.app_nil_r.
  - unfold dedup_line at 2 4 6.
    destruct ((40 <? String.length (Py.strip line))%nat && _) eqn:Hdrop.
    + apply IH.
    + destruct (40 <? String.length (Py.strip line))%nat;
        rewrite (IH (unique ++ [line])), (IH ([] ++ [line])); cbn [fst snd];
        by rewrite <- (assoc_L (++)).
Qed.

Lemma dedup_loop_cons line lines seen :
  fold_left dedup_line (line :: lines) ([], seen) =
  if substantive line && bool_decide (fingerprint line ∈ seen)
  then fold_left dedup_line lines ([], seen)
  else
    let seen' := if substantive line then {[ fingerprint line ]} ∪ seen else seen in
    (line :: fst (fold_left dedup_line lines ([], seen')),
     snd (fold_left dedup_line lines ([], seen'))).
Proof.
  cbn [fold_left]. unfold dedup_line at 2. fold (substantive line).
  fold (fingerprint line).
  destruct (substantive line && _); [done|].
  by destruct (substantive line); rewrite dedup_loop_acc.
Qed.

(** Running the loop again over the lines it kept, from the same set, keeps
    them all and ends with the same set. *)
Lemma dedup_loop_again lines : ∀ seen,
  fold_left dedup_line (fst (fold_left dedup_line lines ([], seen))) ([], seen)
  = fold_left dedup_line lines ([], seen).
Proof.
  induction lines as [|line lines IH]; intros seen; [done|].
  rewrite (dedup_loop_cons line lines).
  destruct (substantive line && _) eqn:Hdrop; [apply IH|].
  cbv zeta. cbn [fst]. rewrite dedup_loop_cons, Hdrop. cbv zeta.
  by rewrite IH.
Qed.

Lemma dedup_loop_nothing_kept lines : ∀ seen,
  fst (fold_left dedup_line lines ([], seen)) = [] →
  snd (fold_left dedup_line lines ([], seen)) = seen.
Proof.
  induction lines as [|line lines IH]; intros seen; [done|].
  rewrite dedup_loop_cons. destruct (substantive line && _); [apply IH|done].
Qed.

Lemma dedup_loop_sublist lines : ∀ seen,
  fst (fold_left dedup_line lines ([], seen)) `sublist_of` lines
  ∧ seen ⊆ snd (fold_left dedup_line lines ([], seen)).
Proof.
  induction lines as [|line lines IH]; intros seen; [done|].
  rewrite dedup_loop_cons. destruct (substantive line && _).
  - destruct (IH seen). split; [by apply sublist_cons|done].
  - cbv zeta. cbn [fst snd].
    destruct (IH (if substantive line then {[fingerprint line]} ∪ seen else seen))
      as [Hsub Hseen].
    split; [by apply sublist_skip|]. destruct (substantive line); set_solver.
Qed.

Lemma dedup_loop_short lines : ∀ seen,
  Forall (fun line => substantive line = false) lines →
  fold_left dedup_line lines ([], seen) = (lines, seen).
Proof.
  induction lines as [|line lines IH]; intros seen Hall; [done|].
  inversion Hall as [|? ? Hline Hrest]; subst.
  rewrite dedup_loop_cons, Hline. cbn [andb]. cbv zeta. by rewrite IH.
Qed.

Lemma deduplicate_content_unfold markdown seen :
  deduplicate_content markdown seen =
  (Py.join nl (fst (fold_left dedup_line (Py.split "010" markdown) ([], seen))),
   snd (fold_left dedup_line (Py.split "010" markdown) ([], seen))).
Proof.
  unfold deduplicate_content. by destruct (fold_left _ _ _).
Qed.

(** X1.  A text none of whose lines has a trimmed length above 40 comes back
    from [deduplicate_content] unchanged, with the set unchanged. *)
Theorem deduplicate_short_lines_unchanged (markdown : string) (seen : gset string) :
  Forall (fun line => substantive line = false) (Py.split "010" markdown) →
  deduplicate_content markdown seen = (markdown, seen).
Proof.
  intros Hshort. rewrite deduplicate_content_unfold, dedup_loop_short by done.
  cbn [fst snd]. by rewrite join_split.
Qed.

(** X2.  [deduplicate_content] only removes lines: the lines of its output
    are lines of the input in the input's order, and every fingerprint given
    is still in the set returned. *)
Theorem deduplicate_only_removes (markdown : string) (seen : gset string) :
  ∃ kept,
    fst (deduplicate_content markdown seen) = Py.join nl kept
    ∧ kept `sublist_of` Py.split "010" markdown
    ∧ seen ⊆ snd (deduplicate_content markdown seen).
Proof.
  rewrite deduplicate_content_unfold. cbn [fst snd].
  destruct (dedup_loop_sublist (Py.split "010" markdown) seen) as [Hsub Hseen].
  eauto.
Qed.

(** X3.  [deduplicate_content] is idempotent: applied to its own output with
    the set it was given, it returns the same output and the same set. *)
Theorem deduplicate_idempotent (markdown : string) (seen : gset string) :
  deduplicate_content (fst (deduplicate_content markdown seen)) seen
  = deduplicate_content markdown seen.
Proof.
  rewrite (deduplicate_content_unfold markdown). cbn [fst].
  set (lines := Py.split "010" markdown).
  pose proof (dedup_loop_again lines seen) as Hagain.
  pose proof (dedup_loop_nothing_kept lines seen) as Hnone.
  destruct (dedup_loop_sublist lines seen) as [Hsub _].
  destruct (fold_left dedup_line lines ([], seen)) as [kept seen'] eqn:Hloop.
  cbn [fst snd] in *. rewrite deduplicate_content_unfold.
  destruct kept as [|w ws].
  - rewrite (Hnone eq_refl). done.
  - rewrite split_join, Hagain; [done|].
    apply Forall_forall. intros line Hline.
    pose proof (split_lacks_newline markdown) as Hlines.
    rewrite Forall_forall in Hlines.
    eauto using elem_of_sublist.
Qed.

Lemma dedup_loop_fresh lines : ∀ seen,
  NoDup (map fingerprint
           (List.filter substantive (fst (fold_left dedup_line lines ([], seen)))))
  ∧ ∀ h, h ∈ map fingerprint
               (List.filter substantive (fst (fold_left dedup_line lines ([], seen))))
         → h ∉ seen.
Proof.
  induction lines as [|line lines IH]; intros seen.
  { simpl. split; [constructor|]. intros h Hh. by apply elem_of_nil in Hh. }
  rewrite dedup_loop_cons.
  destruct (substantive line) eqn:Hsub; cbn [andb].
  - case_bool_decide as Hin; [apply IH|]. cbv zeta. cbn [fst List.filter].
    rewrite Hsub. cbn [map].
    destruct (IH ({[fingerprint line]} ∪ seen)) as [Hnodup Hfresh]. split.
    + constructor; [|done]. intros Hh%Hfresh. set_solver.
    + intros h [->|Hh%Hfresh]%elem_of_cons; [done|set_solver].
  - cbv zeta. cbn [fst List.filter]. rewrite Hsub. apply IH.
Qed.

(** The lines of the output are the lines the loop kept, or the one empty
    line of an empty output. *)
Lemma deduplicate_output_lines markdown seen :
  let kept := fst (fold_left dedup_line (Py.split "010" markdown) ([], seen)) in
  Py.split "010" (fst (deduplicate_content markdown seen))
  = match kept with [] => [""] | _ => kept end.
Proof.
  cbv zeta. rewrite deduplicate_content_unfold. cbn [fst].
  destruct (dedup_loop_sublist (Py.split "010" markdown) seen) as [Hsub _].
  destruct (fst (fold_left dedup_line (Py.split "010" markdown) ([], seen)))
    as [|w ws]; [done|].
  apply split_join, Forall_forall. intros line Hline.
  pose proof (split_lacks_newline markdown) as Hlines.
  rewrite Forall_forall in Hlines. eauto using elem_of_sublist.
Qed.

(** X4.  Among the lines of the output of [deduplicate_content], those of
    trimmed length above 40 have pairwise different fingerprints, none of
    which was in the set given. *)
Theorem deduplicate_leaves_no_repeat (markdown : string) (seen : gset string) :
  let lines := Py.split "010" (fst (deduplicate_content markdown seen)) in
  NoDup (map fingerprint (List.filter substantive lines))
  ∧ ∀ line, line ∈ lines → substantive line = true → fingerprint line ∉ seen.
Proof.
  cbv zeta. rewrite deduplicate_output_lines. cbv zeta.
  destruct (dedup_loop_fresh (Py.split "010" markdown) seen) as [Hnodup Hfresh].
  destruct (fst (fold_left dedup_line (Py.split "010" markdown) ([], seen)))
    as [|w ws] eqn:Hkept.
  - split; [constructor|]. by intros line ->%list_elem_of_singleton.
  - split; [done|]. intros line Hline Hsub. apply Hfresh, list_elem_of_fmap.
    exists line. split; [done|]. apply list_elem_of_In, filter_In.
    split; [by apply list_elem_of_In|done].
Qed.

End Dedupe_more.

Lemma deduplicate_short_lines_unchanged_witness :
  @deduplicate_content World.dead_site ("# Title" +:+ nl +:+ "text" +:+ nl +:+ "text") ∅
  = ("# Title" +:+ nl +:+ "text" +:+ nl +:+ "text", ∅).
Proof.
  apply (@deduplicate_short_lines_unchanged World.dead_site).
  repeat constructor.
Defined.


(** ** The single-page pipeline, continued *)

Section Parser_more.
Context `{Env}.
Import Soup SoupFacts Str StrFacts.

(** X5.  [clean_html] leaves no element named by a noise tag anywhere in the
    tree, and removing the noise tags from its result again changes
    nothing. *)
Theorem clean_html_removes_noise (html_content tag : string) :
  tag ∈ NOISE_TAGS →
  find_all (named tag) (clean_html html_content) = []
  ∧ remove_noise (clean_html html_content) = clean_html html_content.
Proof.
  intros Htag. pose proof (clean_html_free html_content) as Hfree. split.
  - unfold noise_free in Hfree. rewrite Forall_forall in Hfree. by apply Hfree.
  - by apply remove_noise_absent.
Qed.

(** X6.  A parsed document that holds no element named by a noise tag is
    what [clean_html] returns, unchanged. *)
Theorem clean_html_keeps_clean_document (html_content : string) :
  Forall (fun tag => find_all (named tag) (html_parser html_content) = []) NOISE_TAGS →
  clean_html html_content = html_parser html_content.
Proof. intros Hfree. unfold clean_html. by apply remove_noise_absent. Qed.

Lemma length_app (a b : string) :
  String.length (a +:+ b) = String.length a + String.length b.
Proof.
  induction a as [|c a IH]; [done|]. rewrite app_cons. simpl. by rewrite IH.
Qed.

Lemma first_success_entry l f name :
  first_success l = Some (f, name) → (name, Some f) ∈ l.
Proof.
  induction l as [|[n [g|]] l IH]; simpl; [done| |].
  - intros [= <- <-]. by left.
  - intros Hl. right. by apply IH.
Qed.

Lemma extract_entry url rawHTML fragment name :
  extract url rawHTML = Py.Ok (fragment, name) →
  (name, Some fragment) ∈ strategies rawHTML ∧ fragment ≠ "".
Proof.
  rewrite extract_of_cascade.
  destruct (cascade_outcome rawHTML) as [_ Hres].
  destruct (first_success (strategies rawHTML)) as [[f n]|] eqn:Hfirst.
  - destruct Hres as (Hf & Hn & Ht). rewrite Hf, Ht. cbn [default].
    rewrite Hn. intros [= <- <-]. split; [by apply first_success_entry|].
    by destruct f.
  - by rewrite Hres.
Qed.

(** The names under which the cascade hands a fragment on. *)
Lemma extract_name url rawHTML fragment name :
  extract url rawHTML = Py.Ok (fragment, name) →
  name ∈ ["trafilatura"; "readability"; "main"; "article";
          "selector:#content"; "selector:.content"; "selector:[role='main']";
          "selector:.main-content"; "selector:#main-content"; "body-fallback"].
Proof.
  intros [Hin _]%extract_entry.
  apply (list_elem_of_fmap_2 fst) in Hin. exact Hin.
Qed.

(** X7.  A fragment the cascade hands on is never empty, and one handed on
    under the name [trafilatura] or [readability] has at least 500
    characters. *)
Theorem extract_fragment_floor (url rawHTML fragment name : string) :
  extract url rawHTML = Py.Ok (fragment, name) →
  fragment ≠ ""
  ∧ (name = "trafilatura" ∨ name = "readability" →
     500 ≤ String.length fragment).
Proof.
  intros [Hin Hne]%extract_entry. split; [done|]. intros Hname.
  unfold strategies in Hin.
  repeat (apply elem_of_cons in Hin as [Hin|Hin];
          [injection Hin as -> Hin; try (by destruct Hname)|]);
    try (by apply elem_of_nil in Hin).
  - symmetry in Hin. unfold primary_extractor in Hin.
    destruct (trafilatura_extract rawHTML) as [[e|]|]; [|done..].
    destruct (Nat.leb_spec 500 (String.length e)); [|done].
    by injection Hin as <-.
  - symmetry in Hin. unfold secondary_extractor in Hin.
    destruct (readability_document rawHTML) as [[title content]|]; [|done].
    destruct (Nat.leb_spec 500 (String.length content)); [|done].
    injection Hin as <-. destruct title as [|c title]; [done|].
    rewrite !length_app. lia.
Qed.

(** X8.  When [parse_url_to_markdown] returns, the text starts with the
    title line of the URL and the line naming one of the ten strategies
    (never the initial [unknown]), and [llms.md] holds exactly that text;
    when it raises, the message starts with [Failed to process URL: ] and
    the file is as it was. *)
Theorem parse_url_to_markdown_outcome (url : string) (llms_md : option string) :
  match parse_url_to_markdown url llms_md with
  | (file, Py.Ok markdown) =>
      file = Some markdown
      ∧ ∃ name body,
          name ∈ ["trafilatura"; "readability"; "main"; "article";
                  "selector:#content"; "selector:.content";
                  "selector:[role='main']"; "selector:.main-content";
                  "selector:#main-content"; "body-fallback"]
          ∧ markdown = "# " +:+ url +:+ nl +:+ nl +:+ "*Extracted using: "
                       +:+ name +:+ "*" +:+ nl +:+ nl +:+ body
  | (file, Py.Raise e) =>
      file = llms_md ∧ ∃ reason, e = "Failed to process URL: " +:+ reason
  end.
Proof.
  unfold parse_url_to_markdown.
  destruct (fetch_url url) as [html|e] eqn:Hfetch; cbn [mbind result_bind Py.bind];
    [|eauto].
  destruct (extract url html) as [[fragment name]|e] eqn:Hextract;
    cbn [mbind result_bind Py.bind]; [|eauto].
  destruct (convert_to_markdown fragment) as [md|e];
    cbn [mbind result_bind Py.bind]; [|eauto].
  destruct (deduplicate_content md ∅) as [body seen].
  split; [done|]. exists name, body. split; [|done].
  by eapply extract_name.
Qed.

End Parser_more.

Lemma clean_html_removes_noise_witness :
  let cleaned := @clean_html World.guarded_site (World.markup World.home_page) in
  Soup.find_all (Soup.named "nav") cleaned = []
  ∧ remove_noise cleaned = cleaned.
Proof.
  apply (@clean_html_removes_noise World.guarded_site
           (World.markup World.home_page) "nav").
  apply list_elem_of_In. vm_compute. tauto.
Defined.

Lemma clean_html_keeps_clean_document_witness :
  @clean_html World.docs_site (World.markup World.docs_page) = World.docs_page.
Proof.
  apply (@clean_html_keeps_clean_document World.docs_site).
  repeat constructor.
Defined.

Lemma extract_fragment_floor_witness :
  "<body></body>" ≠ ""
  ∧ ("body-fallback" = "trafilatura" ∨ "body-fallback" = "readability" →
     500 ≤ String.length "<body></body>").
Proof.
  apply (@extract_fragment_floor World.hollow_site "https://example.com/"
           "<html><body></body></html>").
  vm_compute. reflexivity.
Defined.


(** ** URL normalisation, continued *)

Module BreakFacts.
Import Str StrFacts UrlFacts.

Lemma remove_app P a b : Url.remove P (a +:+ b) = Url.remove P a +:+ Url.remove P b.
Proof.
  induction a as [|c a IH]; [done|]. rewrite app_cons. simpl.
  destruct (P c); [done|]. by rewrite app_cons, IH.
Qed.

Lemma lacks_weaken (P Q : ascii → bool) s :
  (∀ c, Q c = true → P c = true) → lacks P s → lacks Q s.
Proof.
  intros HPQ. induction s as [|c s IH]; [done|].
  rewrite !lacks_cons. intros [Hc Hs]. split; [|by apply IH].
  destruct (Q c) eqn:HQ; [|done]. by rewrite (HPQ _ HQ) in Hc.
Qed.

(** Either no character of [a] satisfies [P], or the break of [a] is at
    such a character. *)
Lemma break_cases P a :
  (lacks P a ∧ Py.break P a = (a, ""))
  ∨ ∃ a1 c a2, Py.break P a = (a1, String c a2) ∧ P c = true
               ∧ lacks P a1 ∧ a = a1 +:+ String c a2.
Proof.
  destruct (break_spec P a) as (Ha & Hl & Hc).
  destruct (Py.break P a) as [a1 [|c a2]]; cbn [fst snd first_char] in *.
  - left. rewrite app_nil_r in Ha. subst a1. done.
  - right. eauto 10.
Qed.

Lemma break_hit P a b a1 c a2 :
  Py.break P a = (a1, String c a2) → lacks P a1 → P c = true →
  a = a1 +:+ String c a2 →
  Py.break P (a +:+ b) = (a1, String c a2 +:+ b).
Proof.
  intros _ Hl Hc ->. rewrite app_assoc. by apply break_app.
Qed.

(** Appending text that starts with a breaking character only extends what
    comes after the break. *)
Lemma break_app_delim P a c b :
  P c = true →
  Py.break P (a +:+ String c b)
  = (fst (Py.break P a), snd (Py.break P a) +:+ String c b).
Proof.
  intros Hc.
  destruct (break_cases P a) as [[Hl ->]|(a1 & d & a2 & Hb & Hd & Hl & Ha)].
  - by apply break_app.
  - rewrite Hb. cbn [fst snd]. by eapply break_hit.
Qed.

Lemma split_once_break c s :
  fst (Url.split_once c s) = fst (Py.break (Soup.is_char c) s).
Proof.
  unfold Url.split_once. by destruct (Py.break _ s) as [a [|d b]].
Qed.

Lemma is_char_refl c : Soup.is_char c c = true.
Proof. apply Ascii.eqb_refl. Qed.

(** The text before the first [c] is not changed by appending [c] and more. *)
Lemma split_once_app_same c a b :
  fst (Url.split_once c (a +:+ String c b)) = fst (Url.split_once c a).
Proof.
  rewrite !split_once_break, break_app_delim; [done|apply is_char_refl].
Qed.

(** Appending to a text that holds [c] does not change what is before the
    first [c]; appending to one that does not, appends to it what is before
    the first [c] of the appended text. *)
Lemma split_once_app c a b :
  fst (Url.split_once c (a +:+ b))
  = if Py.contains c a then fst (Url.split_once c a)
    else a +:+ fst (Url.split_once c b).
Proof.
  rewrite !split_once_break. induction a as [|d a IH].
  - done.
  - rewrite app_cons. cbn [Py.break Py.contains]. unfold Soup.is_char at 1 3.
    destruct (Ascii.eqb c d) eqn:Hcd; [done|]. cbn [orb].
    destruct (Py.break (Soup.is_char c) (a +:+ b)) as [x y] eqn:Hxy.
    destruct (Py.break (Soup.is_char c) a) as [x' y'] eqn:Hxy'.
    cbn [fst] in *. rewrite IH. destruct (Py.contains c a); [done|].
    done.
Qed.

End BreakFacts.

Section Normalize_more.
Context `{Env}.
Import Str StrFacts UrlFacts BreakFacts.

(** [urlparse] on an http(s) URL: the text after [scheme://], unsafe bytes
    removed, is split into netloc, path, query and fragment. *)
Lemma urlparse_http s X :
  s = "http" ∨ s = "https" →
  Url.urlparse (s +:+ "://" +:+ X)
  = parse_authority s (Url.remove Url.unsafe_byte X).
Proof.
  intros Hs. unfold Url.urlparse.
  destruct (http_head s X Hs) as (-> & -> & _).
  destruct (http_head s (Url.remove Url.unsafe_byte X) Hs)
    as (_ & _ & -> & -> & _).
  reflexivity.
Qed.

Lemma split_once_absent c a :
  Py.contains c a = false → fst (Url.split_once c a) = a.
Proof.
  intros Ha. pose proof (split_once_app c a "") as Happ.
  rewrite Ha, !app_nil_r in Happ. done.
Qed.

(** The path of a URL does not depend on what follows a [?] or a [#]
    appended to it. *)
Lemma path_ignores_suffix rest c b :
  c = "?"%char ∨ c = "#"%char →
  fst (Url.split_once "?" (fst (Url.split_once "#" (rest +:+ String c b))))
  = fst (Url.split_once "?" (fst (Url.split_once "#" rest))).
Proof.
  intros [-> | ->].
  - rewrite (split_once_app "#" rest).
    destruct (Py.contains "#" rest) eqn:Hhash; [done|].
    rewrite (split_once_absent "#" rest Hhash).
    assert (fst (Url.split_once "#" (String "?" b))
            = String "?" (fst (Py.break (Soup.is_char "#") b))) as ->.
    { rewrite split_once_break. cbn [Py.break].
      change (Soup.is_char "#" "?") with false. cbv iota.
      by destruct (Py.break (Soup.is_char "#") b). }
    apply split_once_app_same.
  - by rewrite split_once_app_same.
Qed.

Lemma parse_authority_suffix s x c b :
  c = "?"%char ∨ c = "#"%char →
  same_address (parse_authority s (x +:+ String c b)) (parse_authority s x).
Proof.
  intros Hc. unfold parse_authority.
  rewrite break_app_delim by (by destruct Hc as [-> | ->]).
  destruct (Py.break Url.netloc_delim x) as [n rest]. cbn [fst snd].
  destruct (Url.unbalanced_brackets n); [done|].
  pose proof (path_ignores_suffix rest c b Hc) as Hpath.
  destruct (Url.split_once "#" (rest +:+ String c b)) as [A2 f2].
  destruct (Url.split_once "#" rest) as [A1 f1]. cbn [fst] in Hpath.
  destruct (Url.split_once "?" A2) as [B2 q2].
  destruct (Url.split_once "?" A1) as [B1 q1]. cbn [fst] in Hpath. subst B2.
  destruct (netloc_check n); [done|].
  destruct (if _ && _ then _ else _) as [path params]. done.
Qed.

(** For URLs that start with [http://] or [https://], [_normalize_url]
    depends on the URL only through the scheme, netloc and path that
    [urlparse] finds, and not on the parent. *)
Lemma normalize_same_address self u1 u2 parent1 parent2 :
  (Py.startswith u1 "http://" || Py.startswith u1 "https://") = true →
  (Py.startswith u2 "http://" || Py.startswith u2 "https://") = true →
  same_address (Url.urlparse u1) (Url.urlparse u2) →
  _normalize_url self u1 parent1 = _normalize_url self u2 parent2.
Proof.
  intros H1 H2 Hsame. unfold _normalize_url.
  apply orb_true_iff in H1. apply orb_true_iff in H2.
  assert (negb (Py.startswith u1 "http://") && negb (Py.startswith u1 "https://")
          = false) as -> by (destruct H1 as [-> | ->]; [done|apply andb_false_r]).
  assert (negb (Py.startswith u2 "http://") && negb (Py.startswith u2 "https://")
          = false) as -> by (destruct H2 as [-> | ->]; [done|apply andb_false_r]).
  cbn [mbind result_bind Py.bind].
  destruct (Url.urlparse u1) as [p1|m1], (Url.urlparse u2) as [p2|m2];
    cbn [same_address] in Hsame; try done; [|by subst].
  destruct Hsame as (Hs & Hn & Hp). cbn [mbind result_bind Py.bind].
  by rewrite Hs, Hn, Hp.
Qed.

(** X9.  A query string or a fragment appended to an http(s) URL makes no
    difference to [_normalize_url]. *)
Theorem normalize_ignores_query_and_fragment
    (self : crawler) (s X suffix parent : string) :
  s = "http" ∨ s = "https" →
  _normalize_url self ((s +:+ "://" +:+ X) +:+ "?" +:+ suffix) parent
  = _normalize_url self (s +:+ "://" +:+ X) parent
  ∧ _normalize_url self ((s +:+ "://" +:+ X) +:+ "#" +:+ suffix) parent
    = _normalize_url self (s +:+ "://" +:+ X) parent.
Proof.
  intros Hs.
  assert (∀ c, c = "?"%char ∨ c = "#"%char →
               _normalize_url self ((s +:+ "://" +:+ X) +:+ String c suffix) parent
               = _normalize_url self (s +:+ "://" +:+ X) parent) as Hany.
  { intros c Hc. rewrite !app_assoc.
    apply normalize_same_address; [by apply http_head..|].
    rewrite !urlparse_http, remove_app by done.
    assert (Url.remove Url.unsafe_byte (String c suffix)
            = String c (Url.remove Url.unsafe_byte suffix)) as ->
      by (by destruct Hc as [-> | ->]).
    by apply parse_authority_suffix. }
  split; apply Hany; auto.
Qed.

Lemma lacks_is_char_of_delim c s :
  Url.netloc_delim c = true → lacks Url.netloc_delim s → lacks (Soup.is_char c) s.
Proof.
  intros Hc. apply lacks_weaken. intros d Hd.
  apply Ascii.eqb_eq in Hd. by subst d.
Qed.

(** X10.  Whatever the link and the page it was found on, a URL returned by
    [_normalize_url] begins with [http://] or [https://], holds no [?] and
    no [#], and ends with a slash. *)
Theorem normalize_result_shape (self : crawler) (url parent c : string) :
  _normalize_url self url parent = Py.Ok (Some c) →
  (Py.startswith c "http://" || Py.startswith c "https://") = true
  ∧ lacks (Soup.is_char "?") c
  ∧ lacks (Soup.is_char "#") c
  ∧ Py.endswith c "/" = true.
Proof.
  intros Hc. split; [|split; [|split]];
    [| | |by eapply normalize_ends_with_slash].
  all: destruct (normalize_inv _ _ _ _ Hc) as (url' & p & Hp & (Hs & _ & _) & ->).
  all: destruct (urlparse_shape _ _ Hp) as (_ & Hn & _ & _ & _ & Hh & Hq & _).
  all: unfold clean_url; cbv zeta.
  all: destruct (negb _); rewrite ?app_assoc.
  1,2: by apply http_head.
  all: rewrite !lacks_app; repeat split;
    try done; try (by destruct Hs as [-> | ->]);
    by apply lacks_is_char_of_delim.
Qed.

Lemma in_scope_with_subdomains self n :
  in_scope self n = true → in_scope (with_subdomains self) n = true.
Proof.
  unfold in_scope, with_subdomains. cbn [allow_subdomains domain].
  destruct (allow_subdomains self); [done|].
  destruct (String.eqb_spec n (domain self)) as [->|_].
  - intros _. rewrite <- (app_nil_l (domain self)) at 1. apply endswith_app.
  - destruct (String.eqb_spec n ("www." +:+ domain self)) as [->|_]; [|done].
    intros _. apply endswith_app.
Qed.

(** X11.  Allowing subdomains only widens the scope: a link the crawler
    keeps is kept, as the same URL, by the crawler that differs in
    [allow_subdomains=True] only. *)
Theorem subdomains_widen_scope (self : crawler) (url parent c : string) :
  _normalize_url self url parent = Py.Ok (Some c) →
  _normalize_url (with_subdomains self) url parent = Py.Ok (Some c).
Proof.
  unfold _normalize_url.
  change (scheme (with_subdomains self)) with (scheme self).
  change (netloc (with_subdomains self)) with (netloc self).
  destruct (if _ && _ then _ else _) as [url'|]; [|done].
  cbn [mbind result_bind Py.bind].
  destruct (Url.urlparse url') as [p|]; [|done].
  cbn [mbind result_bind Py.bind].
  destruct (negb (_ || _)); [done|].
  destruct (in_scope self _) eqn:Hscope; cbn [negb]; [|done].
  by rewrite (in_scope_with_subdomains _ _ Hscope).
Qed.

Lemma in_scope_own_domain self : in_scope self (domain self) = true.
Proof.
  unfold in_scope. destruct (allow_subdomains self).
  - rewrite <- (app_nil_l (domain self)) at 1. apply endswith_app.
  - by rewrite String.eqb_refl.
Qed.

(** X12.  The seed is in the scope of the crawler built from it: for an
    http(s) seed that [__init__] accepts, [_normalize_url] on the seed
    returns its cleaned form, or [None] only because of the file extension
    of its path. *)
Theorem seed_in_own_scope (s X : string) (subdomains : bool) (pages : Z)
    (d : Q) (robots : bool) (self : crawler) (parent : string) :
  s = "http" ∨ s = "https" →
  new_crawler (s +:+ "://" +:+ X) subdomains pages d robots = Py.Ok self →
  ∃ p, Url.urlparse (s +:+ "://" +:+ X) = Py.Ok p
       ∧ _normalize_url self (s +:+ "://" +:+ X) parent
         = Py.Ok (if existsb (Py.endswith (Py.lower (Url.path p))) SKIP_EXTENSIONS
                  then None else Some (clean_url p)).
Proof.
  intros Hs. unfold new_crawler.
  destruct (Url.urlparse (s +:+ "://" +:+ X)) as [p|] eqn:Hp; [|done].
  cbn [mbind result_bind Py.bind]. intros [= <-]. exists p. split; [done|].
  assert (Url.scheme p = s) as Hscheme.
  { rewrite urlparse_http in Hp by done. unfold parse_authority in Hp.
    destruct (Py.break _ _), (Url.unbalanced_brackets _); [done|].
    destruct (Url.split_once "#" _), (Url.split_once "?" _), (netloc_check _);
      [done|].
    destruct (if _ && _ then _ else _). by injection Hp as <-. }
  unfold _normalize_url.
  destruct (http_head s X Hs) as (_ & _ & _ & _ & _ & Hstart).
  apply orb_true_iff in Hstart.
  assert (negb (Py.startswith (s +:+ "://" +:+ X) "http://")
          && negb (Py.startswith (s +:+ "://" +:+ X) "https://") = false) as ->
    by (destruct Hstart as [-> | ->]; [done|apply andb_false_r]).
  cbn [mbind result_bind Py.bind]. rewrite Hp.
  cbn [mbind result_bind Py.bind]. rewrite Hscheme.
  assert (negb (String.eqb s "http" || String.eqb s "https") = false) as ->
    by (by destruct Hs as [-> | ->]).
  match goal with |- context [in_scope ?c ?n] =>
    change (in_scope c n) with (in_scope c (domain c)) end.
  rewrite in_scope_own_domain. cbn [negb].
  unfold clean_url. rewrite Hscheme. by destruct (existsb _ _).
Qed.

End Normalize_more.

Lemma normalize_ignores_query_and_fragment_witness :
  let self := World.dead_crawler in
  let parent := "https://example.com/" in
  @_normalize_url World.dead_site self "https://example.com/a?x=1" parent
  = @_normalize_url World.dead_site self "https://example.com/a" parent
  ∧ @_normalize_url World.dead_site self "https://example.com/a#top" parent
    = @_normalize_url World.dead_site self "https://example.com/a" parent.
Proof.
  apply (@normalize_ignores_query_and_fragment World.dead_site World.dead_crawler
           "https" "example.com/a"). by right.
Defined.

Lemma normalize_result_shape_witness :
  let c := "https://example.com/about/" in
  (Py.startswith c "http://" || Py.startswith c "https://") = true
  ∧ Str.lacks (Soup.is_char "?") c
  ∧ Str.lacks (Soup.is_char "#") c
  ∧ Py.endswith c "/" = true.
Proof.
  apply (@normalize_result_shape World.dead_site World.dead_crawler
           "https://example.com/about?x=1#top" "https://example.com/").
  vm_compute. reflexivity.
Defined.

Lemma subdomains_widen_scope_witness :
  @_normalize_url World.dead_site (with_subdomains World.dead_crawler)
    "https://www.example.com/about" "https://example.com/"
  = Py.Ok (Some "https://www.example.com/about/").
Proof.
  apply (@subdomains_widen_scope World.dead_site World.dead_crawler).
  vm_compute. reflexivity.
Defined.

Lemma seed_in_own_scope_witness :
  ∃ p, @Url.urlparse World.dead_site "https://example.com/" = Py.Ok p
       ∧ @_normalize_url World.dead_site World.dead_crawler
           "https://example.com/" ""
         = Py.Ok (if existsb (Py.endswith (Py.lower (Url.path p))) SKIP_EXTENSIONS
                  then None else Some (clean_url p)).
Proof.
  apply (@seed_in_own_scope World.dead_site "https" "example.com/"
           false 100 (1 # 2) true World.dead_crawler "").
  - by right.
  - vm_compute. reflexivity.
Defined.

Section Normalize_paths.
Context `{Env}.
Import Str StrFacts UrlFacts BreakFacts.

Lemma contains_lacking c s : lacks (Soup.is_char c) s → Py.contains c s = false.
Proof.
  induction s as [|d s IH]; [done|]. rewrite lacks_cons. intros [Hd Hs].
  cbn [Py.contains]. unfold Soup.is_char in Hd. by rewrite Hd, IH.
Qed.

Lemma lacks_remove_other P Q s : lacks P s → lacks P (Url.remove Q s).
Proof.
  induction s as [|c s IH]; [done|]. rewrite lacks_cons. intros [Hc Hs].
  cbn [Url.remove]. destruct (Q c); [by apply IH|].
  apply lacks_cons. split; [done|by apply IH].
Qed.

(** [urlparse] on [scheme://netloc path] for a path without query,
    fragment or parameters. *)
Lemma parse_authority_plain s n pa :
  lacks Url.netloc_delim n →
  pa = "" ∨ first_char pa = Some "/"%char →
  lacks (Soup.is_char "#") pa → lacks (Soup.is_char "?") pa →
  lacks (Soup.is_char ";") pa →
  parse_authority s (n +:+ pa)
  = if Url.unbalanced_brackets n then Py.Raise "Invalid IPv6 URL"
    else match netloc_check n with
         | Some msg => Py.Raise msg
         | None => Py.Ok (Url.Parts s n pa "" "" "")
         end.
Proof.
  intros Hn Hpa Hh Hq Hs. unfold parse_authority.
  rewrite (break_app Url.netloc_delim n pa Hn)
    by (destruct Hpa as [-> | ->]; done).
  destruct (Url.unbalanced_brackets n); [done|].
  rewrite (split_once_lacking "#" pa Hh), (split_once_lacking "?" pa Hq).
  destruct (netloc_check n); [done|].
  by rewrite (contains_lacking ";" pa Hs), andb_false_r.
Qed.

(** What [_normalize_url] returned for an http(s) URL, read back. *)
Lemma normalize_absolute_inv self url parent c :
  (Py.startswith url "http://" || Py.startswith url "https://") = true →
  _normalize_url self url parent = Py.Ok (Some c) →
  ∃ p, Url.urlparse url = Py.Ok p ∧ accepted self p ∧ c = clean_url p.
Proof.
  intros Hstart. unfold _normalize_url. apply orb_true_iff in Hstart.
  assert (negb (Py.startswith url "http://") && negb (Py.startswith url "https://")
          = false) as ->
    by (destruct Hstart as [-> | ->]; [done|apply andb_false_r]).
  cbn [mbind result_bind Py.bind].
  destruct (Url.urlparse url) as [p|] eqn:Hp; [|done].
  cbn [mbind result_bind Py.bind].
  destruct (String.eqb_spec (Url.scheme p) "http") as [Hs1|Hs1];
    destruct (String.eqb_spec (Url.scheme p) "https") as [Hs2|Hs2];
    cbn [orb negb]; try done;
    (destruct (in_scope self _) eqn:Hscope; cbn [negb]; [|done]);
    (destruct (existsb _ SKIP_EXTENSIONS) eqn:Hext; [done|]);
    intros [= <-]; exists p; unfold accepted; eauto 10.
Qed.

(** The text after [scheme://] as netloc and path. *)
Lemma authority_split X :
  ∃ n pa, X = n +:+ pa ∧ lacks Url.netloc_delim n
          ∧ (pa = "" ∨ ∃ c r, pa = String c r ∧ Url.netloc_delim c = true).
Proof.
  destruct (break_cases Url.netloc_delim X)
    as [[Hl _]|(n & c & r & _ & Hc & Hl & ->)].
  - exists X, "". rewrite app_nil_r. auto.
  - exists n, (String c r). eauto 10.
Qed.

(** X13.  Trailing-slash consistency: an http(s) URL without query,
    fragment, parameters or line breaks that does not end with a slash and
    that the crawler keeps, is normalised to the same URL as the URL with
    the slash added. *)
Theorem trailing_slash_consistent (self : crawler) (s X parent c : string) :
  s = "http" ∨ s = "https" →
  lacks Url.unsafe_byte X →
  lacks (Soup.is_char "?") X → lacks (Soup.is_char "#") X →
  lacks (Soup.is_char ";") X →
  Py.endswith (s +:+ "://" +:+ X) "/" = false →
  _normalize_url self (s +:+ "://" +:+ X) parent = Py.Ok (Some c) →
  _normalize_url self (s +:+ "://" +:+ X +:+ "/") parent = Py.Ok (Some c).
Proof.
  intros Hs Hu Hq Hh Hsc Hend Hc.
  destruct (normalize_absolute_inv _ _ _ _ (Logic.proj2 (Logic.proj2 (Logic.proj2
             (Logic.proj2 (Logic.proj2 (http_head s X Hs)))))) Hc)
    as (p & Hp & (Hscheme & Hscope & Hext) & ->).
  rewrite urlparse_http, (remove_lacking _ _ Hu) in Hp by done.
  assert (∃ n pa, X = n +:+ pa ∧ lacks Url.netloc_delim n
                  ∧ (pa = "" ∨ first_char pa = Some "/"%char)) as
    (n & pa & -> & Hn & Hpa).
  { destruct (authority_split X) as (n & pa & -> & Hn & [->|(d & r & -> & Hd)]).
    - exists n, "". auto.
    - exists n, (String d r). split; [done|]. split; [done|]. right.
      apply lacks_app in Hq as [_ [Hq _]%lacks_cons].
      apply lacks_app in Hh as [_ [Hh _]%lacks_cons].
      unfold Url.netloc_delim, Soup.is_char in *.
      rewrite Ascii.eqb_sym in Hq. rewrite Ascii.eqb_sym in Hh.
      rewrite Hq, Hh, !orb_false_r in Hd. apply Ascii.eqb_eq in Hd. by subst d. }
  apply lacks_app in Hq as [_ Hq]. apply lacks_app in Hh as [_ Hh].
  apply lacks_app in Hsc as [_ Hsc].
  rewrite (parse_authority_plain s n pa) in Hp by done.
  destruct (Url.unbalanced_brackets n) eqn:Hbr; [done|].
  destruct (netloc_check n) eqn:Hcheck; [done|]. injection Hp as <-.
  set (p2 := Url.Parts s n (pa +:+ "/") "" "" "").
  assert (Url.urlparse (s +:+ "://" +:+ (n +:+ pa) +:+ "/") = Py.Ok p2) as Hp2.
  { rewrite urlparse_http by done.
    rewrite (remove_lacking Url.unsafe_byte)
      by (apply lacks_app; split; [done|by vm_compute]).
    rewrite app_assoc, (parse_authority_plain s n (pa +:+ "/")), Hbr, Hcheck.
    - done.
    - done.
    - right. destruct Hpa as [-> | Hpa]; [done|]. by destruct pa.
    - apply lacks_app. split; [done|by vm_compute].
    - apply lacks_app. split; [done|by vm_compute].
    - apply lacks_app. split; [done|by vm_compute]. }
  assert (last_char (pa +:+ "/") = Some "/"%char) as Hlast
    by (by apply last_char_app).
  destruct (normalize_parsed self _ p2 Hp2) as (Hnorm & Hparent).
  { by apply http_head. }
  { split; [done|]. split; [done|]. by apply skip_extensions_slash. }
  rewrite Hparent, Hnorm. do 2 f_equal.
  unfold clean_url, p2; cbn [Url.scheme Url.netloc Url.path].
  rewrite Hend. cbn [negb].
  assert (s +:+ "://" +:+ n +:+ pa +:+ "/" = (s +:+ "://" +:+ n +:+ pa) +:+ "/")
    as -> by (by rewrite !app_assoc).
  by rewrite endswith_app.
Qed.

Lemma endswith_cons c s p : Py.endswith s p = true → Py.endswith (String c s) p = true.
Proof. intros Hs. rewrite endswith_unfold, Hs. apply orb_true_r. Qed.

(** X14.  A link to a file of a skipped type is never returned, whatever
    the case of the extension and whatever the host: for a path [/r] whose
    lower-case form ends with an extension of [SKIP_EXTENSIONS],
    [_normalize_url] returns [None], unless parsing the link raises. *)
Theorem skipped_extension_not_followed
    (self : crawler) (s n r ext parent : string) :
  s = "http" ∨ s = "https" →
  lacks Url.netloc_delim n →
  lacks Url.unsafe_byte r →
  lacks (Soup.is_char "?") r → lacks (Soup.is_char "#") r →
  lacks (Soup.is_char ";") r →
  ext ∈ SKIP_EXTENSIONS →
  Py.endswith (Py.lower r) ext = true →
  _normalize_url self (s +:+ "://" +:+ n +:+ "/" +:+ r) parent = Py.Ok None
  ∨ ∃ e, _normalize_url self (s +:+ "://" +:+ n +:+ "/" +:+ r) parent
         = Py.Raise e.
Proof.
  intros Hs Hn Hu Hq Hh Hsc Hext Hend.
  destruct (_normalize_url self (s +:+ "://" +:+ n +:+ "/" +:+ r) parent)
    as [[c|]|e] eqn:Hc; [exfalso|by left|by right; exists e].
  destruct (normalize_absolute_inv _ _ _ _ (Logic.proj2 (Logic.proj2 (Logic.proj2
             (Logic.proj2 (Logic.proj2 (http_head s _ Hs)))))) Hc)
    as (p & Hp & (_ & _ & Hkept) & _).
  rewrite urlparse_http, remove_app in Hp by done.
  change (Url.remove Url.unsafe_byte ("/" +:+ r))
    with (String "/" (Url.remove Url.unsafe_byte r)) in Hp.
  rewrite (remove_lacking _ r Hu) in Hp.
  rewrite (parse_authority_plain s _ (String "/" r)) in Hp.
  - destruct (Url.unbalanced_brackets _); [done|].
    destruct (netloc_check _); [done|]. injection Hp as <-.
    cbn [Url.path] in Hkept.
    assert (existsb (Py.endswith (Py.lower (String "/" r))) SKIP_EXTENSIONS = true)
      as Hskip; [|by rewrite Hskip in Hkept].
    apply existsb_exists. exists ext. split; [by apply list_elem_of_In|].
    cbn [Py.lower]. by apply endswith_cons.
  - by apply lacks_remove_other.
  - by right.
  - by apply lacks_cons.
  - by apply lacks_cons.
  - by apply lacks_cons.
Qed.

End Normalize_paths.

Lemma trailing_slash_consistent_witness :
  @_normalize_url World.dead_site World.dead_crawler
    "https://example.com/about/" "https://example.com/"
  = Py.Ok (Some "https://example.com/about/").
Proof.
  apply (@trailing_slash_consistent World.dead_site World.dead_crawler
           "https" "example.com/about" "https://example.com/");
    [by right|vm_compute; reflexivity..].
Defined.

Lemma skipped_extension_not_followed_witness :
  @_normalize_url World.dead_site World.dead_crawler
    "https://example.com/files/Report.PDF" "https://example.com/"
  = Py.Ok None
  ∨ ∃ e, @_normalize_url World.dead_site World.dead_crawler
           "https://example.com/files/Report.PDF" "https://example.com/"
         = Py.Raise e.
Proof.
  apply (@skipped_extension_not_followed World.dead_site World.dead_crawler
           "https" "example.com" "files/Report.PDF" ".pdf" "https://example.com/");
    [by right|vm_compute; reflexivity..| |vm_compute; reflexivity].
  apply list_elem_of_In. vm_compute. tauto.
Defined.


(** ** The crawler, continued *)

Section Crawler_more.
Context `{Env}.
Import Str StrFacts UrlFacts.

(** X15.  [_is_duplicate_content] remembers what it is asked about: it
    answers [True] exactly when the hash of the content is in
    [content_hashes], it never removes a hash, and asked again about the
    same content it answers [True] and leaves the set as it is. *)
Theorem duplicate_content_second_call (content : string) (hashes : gset string) :
  let first := _is_duplicate_content content hashes in
  (fst first = true ↔ md5_hexdigest content ∈ hashes)
  ∧ hashes ⊆ snd first
  ∧ _is_duplicate_content content (snd first) = (true, snd first).
Proof.
  unfold _is_duplicate_content. cbv zeta.
  destruct (bool_decide_reflect (md5_hexdigest content ∈ hashes)) as [Hin|Hin];
    cbn [fst snd].
  - by rewrite bool_decide_eq_true_2.
  - rewrite bool_decide_eq_true_2 by set_solver.
    split; [split; [done|by intros ?]|]. split; [set_solver|done].
Qed.

(** What the loop of [_extract_links] appends to [links]. *)
Lemma collect_links_spec self url a_tags : ∀ acc links,
  collect_links self url a_tags acc = Py.Ok links →
  ∃ new,
    links = acc ++ new
    ∧ (∀ l, l ∈ new ↔
            ∃ a_tag, a_tag ∈ a_tags
              ∧ usable_href (Py.strip (default "" (Soup.attr "href" a_tag))) = true
              ∧ _normalize_url self (Py.strip (default "" (Soup.attr "href" a_tag))) url
                = Py.Ok (Some l))
    ∧ length new ≤ length a_tags.
Proof.
  induction a_tags as [|a_tag rest IH]; intros acc links; cbn [collect_links].
  - intros [= <-]. exists []. rewrite List.app_nil_r. split; [done|].
    split; [|done]. intros l. split; [by intros ?%elem_of_nil|].
    by intros (a & ?%elem_of_nil & _).
  - cbv zeta. set (href := Py.strip (default "" (Soup.attr "href" a_tag))).
    destruct (String.eqb href "" || Py.startswith href "javascript:"
              || String.eqb href "#") eqn:Hskip.
    + intros (new & -> & Hnew & Hlen)%IH. exists new. split; [done|].
      split; [|cbn [length]; lia]. intros l. rewrite Hnew. split.
      * intros (a & Ha & Hrest). exists a. split; [by right|done].
      * intros (a & [->|Ha]%elem_of_cons & Hu & Hn).
        -- fold href in Hu. unfold usable_href in Hu. by rewrite Hskip in Hu.
        -- eauto.
    + destruct (_normalize_url self href url) as [normalized|e] eqn:Hnorm;
        cbn [mbind result_bind Py.bind]; [|done].
      assert (∀ c, normalized = Some c → Py.truthy normalized = true) as Htrue.
      { intros c ->.
        pose proof (normalize_ends_with_slash _ _ _ _ Hnorm) as Hslash.
        by destruct c. }
      intros (new & -> & Hnew & Hlen)%IH.
      destruct normalized as [c|].
      * rewrite (Htrue c eq_refl). cbn [default].
        exists (c :: new). rewrite <- (assoc_L (++)). split; [done|].
        split; [|cbn [length]; lia]. intros l. rewrite elem_of_cons, Hnew. split.
        -- intros [->|(a & Ha & Hrest)].
           ++ exists a_tag. split; [by left|]. fold href.
              unfold usable_href. by rewrite Hskip.
           ++ exists a. split; [by right|done].
        -- intros (a & [->|Ha]%elem_of_cons & Hu & Hn).
           ++ left. fold href in Hn. congruence.
           ++ right. eauto.
      * cbn [Py.truthy]. exists new. split; [done|].
        split; [|cbn [length]; lia]. intros l. rewrite Hnew. split.
        -- intros (a & Ha & Hrest). exists a. split; [by right|done].
        -- intros (a & [->|Ha]%elem_of_cons & Hu & Hn).
           ++ fold href in Hn. congruence.
           ++ eauto.
Qed.

(** X16.  When [_extract_links] returns, its links are exactly the URLs
    that [_normalize_url] returns, with the page as parent, for the
    stripped [href] values of the [<a href>] tags of the page other than
    the empty one, [#] and [javascript:] actions; there are at most as many
    links as such tags. *)
Theorem extract_links_normalized
    (self : crawler) (url html_content : string) (links : list string) :
  _extract_links self url html_content = Py.Ok links →
  (∀ l, l ∈ links ↔
        ∃ a_tag, a_tag ∈ Soup.find_all has_href (html_parser html_content)
          ∧ usable_href (Py.strip (default "" (Soup.attr "href" a_tag))) = true
          ∧ _normalize_url self (Py.strip (default "" (Soup.attr "href" a_tag))) url
            = Py.Ok (Some l))
  ∧ length links ≤ length (Soup.find_all has_href (html_parser html_content)).
Proof.
  unfold _extract_links.
  intros (new & -> & Hnew & Hlen)%collect_links_spec. done.
Qed.

(** The first link that cannot be parsed makes [_extract_links] raise. *)
Lemma collect_links_raises self url a_tags : ∀ acc a_tag e,
  a_tag ∈ a_tags →
  usable_href (Py.strip (default "" (Soup.attr "href" a_tag))) = true →
  _normalize_url self (Py.strip (default "" (Soup.attr "href" a_tag))) url
  = Py.Raise e →
  ∃ e', collect_links self url a_tags acc = Py.Raise e'.
Proof.
  induction a_tags as [|a rest IH]; intros acc a_tag e Hin Hu Hn.
  - by apply elem_of_nil in Hin.
  - cbn [collect_links]. cbv zeta.
    destruct (_ || _ || _) eqn:Hskip.
    + apply elem_of_cons in Hin as [->|Hin]; [|by eapply IH].
      unfold usable_href in Hu. by rewrite Hskip in Hu.
    + destruct (_normalize_url self (Py.strip (default "" (Soup.attr "href" a))) url)
        as [normalized|e0] eqn:Hnorm; cbn [mbind result_bind Py.bind]; [|eauto].
      apply elem_of_cons in Hin as [->|Hin]; [congruence|by eapply IH].
Qed.

(** X17.  One link that cannot be parsed loses all the links of its page:
    if [_normalize_url] raises for the [href] of some [<a href>] tag that
    is not skipped, [_extract_links] raises and returns no link at all. *)
Theorem extract_links_all_or_nothing
    (self : crawler) (url html_content : string) (a_tag : Soup.node) (e : string) :
  a_tag ∈ Soup.find_all has_href (html_parser html_content) →
  usable_href (Py.strip (default "" (Soup.attr "href" a_tag))) = true →
  _normalize_url self (Py.strip (default "" (Soup.attr "href" a_tag))) url
  = Py.Raise e →
  ∃ e', _extract_links self url html_content = Py.Raise e'.
Proof. intros Hin Hu Hn. by eapply collect_links_raises. Qed.

Lemma dict_set_same k v d : (k, v) ∈ Py.dict_set k v d.
Proof.
  induction d as [|[k' v'] d IH]; cbn [Py.dict_set]; [by left|].
  destruct (String.eqb k k'); [by left|by right].
Qed.

Lemma dict_set_other k v k' v' d :
  k ≠ k' → (k, v) ∈ d → (k, v) ∈ Py.dict_set k' v' d.
Proof.
  intros Hk. induction d as [|[k0 v0] d IH]; cbn [Py.dict_set].
  - by intros ?%elem_of_nil.
  - intros [[= -> ->]|Hin]%elem_of_cons.
    + destruct (String.eqb_spec k' k0) as [->|_]; [done|by left].
    + destruct (String.eqb k' k0); right; [done|by apply IH].
Qed.

Lemma refetched_app evs evs' : refetched (evs ++ evs') = refetched evs ++ refetched evs'.
Proof. apply omap_app. Qed.

(** The robots invariant of the loop. *)
Lemma step_robots self st st' :
  step self st = Some (Py.Ok st') →
  (∀ u, u ∈ pipeline_urls (events st) → _can_fetch self u = Py.Ok true) →
  (∀ u, u ∈ refetched (events st) → u ∈ pipeline_urls (events st)) →
  (∀ u, u ∈ visited_urls st → _can_fetch self u = Py.Ok false →
        (u, "Blocked by robots.txt") ∈ failed_urls st) →
  (∀ u, u ∈ pipeline_urls (events st') → _can_fetch self u = Py.Ok true)
  ∧ (∀ u, u ∈ refetched (events st') → u ∈ pipeline_urls (events st'))
  ∧ (∀ u, u ∈ visited_urls st' → _can_fetch self u = Py.Ok false →
          (u, "Blocked by robots.txt") ∈ failed_urls st').
Proof.
  intros Hstep Hpipe Hre Hblocked.
  loop_paths.
  all: cbn [queue visited_urls content_hashes failed_urls pages_crawled
            all_markdown llms_md events].
  all: rewrite ?pipeline_urls_app, ?refetched_app; simpl pipeline_urls;
    simpl refetched; rewrite ?List.app_nil_r.
  all: split; [|split].
  all: try done.
  all: try (intros u; rewrite ?elem_of_app, ?elem_of_cons, ?elem_of_nil;
            intros Hu; destruct_or?; simplify_eq; auto; done).
  all: intros u [->%elem_of_singleton|Hu]%elem_of_union Hno;
    try congruence;
    try apply dict_set_same;
    repeat (apply dict_set_other; [by intros ->|]); auto.
Qed.

(** X18.  A crawl obeys the robots policy it loaded: no URL that
    [_can_fetch] refuses is handed to the pipeline or requested for its
    links, and every visited URL that [_can_fetch] refuses is listed in
    [failed_urls] as blocked by robots.txt. *)
Theorem robots_respected (self : crawler) (st : crawl_state) :
  reachable self st →
  (∀ u, u ∈ pipeline_urls (events st) ∨ u ∈ refetched (events st) →
        _can_fetch self u = Py.Ok true)
  ∧ (∀ u, u ∈ visited_urls st → _can_fetch self u = Py.Ok false →
          (u, "Blocked by robots.txt") ∈ failed_urls st).
Proof.
  intros Hreach.
  assert ((∀ u, u ∈ pipeline_urls (events st) → _can_fetch self u = Py.Ok true)
          ∧ (∀ u, u ∈ refetched (events st) → u ∈ pipeline_urls (events st))
          ∧ (∀ u, u ∈ visited_urls st → _can_fetch self u = Py.Ok false →
                  (u, "Blocked by robots.txt") ∈ failed_urls st))
    as (Hpipe & Hre & Hblocked).
  { induction Hreach as [|st st' _ (Hpipe & Hre & Hblocked) Hstep].
    - cbn. repeat split; intros u; set_solver.
    - by eapply step_robots. }
  split; [|done]. intros u [Hu|Hu]; auto.
Qed.

Lemma returned_app evs evs' : returned (evs ++ evs') = returned evs + returned evs'.
Proof. unfold returned. by rewrite List.filter_app, List.length_app. Qed.

Lemma refetched_length_app evs evs' :
  length (refetched (evs ++ evs')) = length (refetched evs) + length (refetched evs').
Proof. by rewrite refetched_app, List.length_app. Qed.

Lemma step_counts self st st' :
  step self st = Some (Py.Ok st') →
  pages_crawled st = Z.of_nat (returned (events st)) →
  length (refetched (events st)) ≤ returned (events st) →
  pages_crawled st' = Z.of_nat (returned (events st'))
  ∧ length (refetched (events st')) ≤ returned (events st').
Proof.
  intros Hstep Hcount Hre.
  loop_paths.
  all: cbn [queue visited_urls content_hashes failed_urls pages_crawled
            all_markdown llms_md events].
  all: rewrite ?returned_app, ?refetched_length_app; cbn; lia.
Qed.

(** X19.  [pages_crawled] counts the pipeline calls that returned Markdown,
    whether or not the page was then skipped as a duplicate; the pages
    requested a second time for their links are at most as many. *)
Theorem pages_crawled_counts_returns (self : crawler) (st : crawl_state) :
  reachable self st →
  pages_crawled st = Z.of_nat (returned (events st))
  ∧ length (refetched (events st)) ≤ returned (events st).
Proof.
  induction 1 as [|st st' _ [Hcount Hre] Hstep]; [done|].
  by eapply step_counts.
Qed.

Lemma appended_cons e rest :
  appended (e :: rest)
  = match e, rest with
    | Pipeline url (Py.Ok page_markdown), Refetch _ :: _ => [(url, page_markdown)]
    | _, _ => []
    end ++ appended rest.
Proof. destruct e as [url [md|e]| |]; destruct rest as [|[]]; reflexivity. Qed.

(** A block of calls that does not begin with the second request adds its
    own pages. *)
Lemma appended_app evs new :
  match new with Refetch _ :: _ => False | _ => True end →
  appended (evs ++ new) = appended evs ++ appended new.
Proof.
  intros Hnew. induction evs as [|e evs IH]; [done|].
  rewrite <- app_comm_cons, !appended_cons, IH, (assoc_L (++)). f_equal.
  destruct e as [url [md|]| |]; try done.
  destruct evs as [|[]]; try done.
  cbn [app]. by destruct new as [|[]].
Qed.

Lemma concat_strings_app l l' :
  Soup.concat_strings (l ++ l') = Soup.concat_strings l +:+ Soup.concat_strings l'.
Proof.
  induction l as [|x l IH]; [done|].
  cbn [app Soup.concat_strings]. by rewrite IH, app_assoc.
Qed.

Lemma sections_app evs new :
  match new with Refetch _ :: _ => False | _ => True end →
  sections (evs ++ new) = sections evs +:+ sections new.
Proof.
  intros Hnew. unfold sections.
  by rewrite appended_app, map_app, concat_strings_app.
Qed.

Lemma step_sections self st st' :
  step self st = Some (Py.Ok st') →
  all_markdown st = sections (events st) →
  all_markdown st' = sections (events st').
Proof.
  intros Hstep Hmd.
  loop_paths.
  all: cbn [queue visited_urls content_hashes failed_urls pages_crawled
            all_markdown llms_md events].
  all: rewrite <- ?(assoc_L (++)); cbn [app].
  all: rewrite ?sections_app by done.
  all: try done.
  all: unfold sections at 2;
    cbn [appended map Soup.concat_strings fst snd]; rewrite ?app_nil_r.
  all: try done.
  all: unfold section_of;
    repeat match goal with Hp : Url.urlparse _ = _ |- _ => rewrite Hp end;
    by rewrite Hmd.
Qed.

(** X20.  The Markdown a crawl accumulates is the sections of the pages that
    were requested a second time for their links, in crawl order, each made
    of the header [## Page:] with the path of the URL, the Markdown the
    pipeline returned for it, and the rule; nothing else is ever added
    before the summary. *)
Theorem crawl_markdown_is_page_sections (self : crawler) (st : crawl_state) :
  reachable self st → all_markdown st = sections (events st).
Proof.
  induction 1 as [|st st' _ IH Hstep]; [done|]. by eapply step_sections.
Qed.

Lemma elem_of_list_filter_bool {A} (f : A → bool) (l : list A) x :
  x ∈ List.filter f l → x ∈ l.
Proof. rewrite !list_elem_of_In, filter_In. tauto. Qed.

Lemma extracted_links_originate self url (r : Py.result string) links :
  (html_content ← r; _extract_links self url html_content) = Py.Ok links →
  ∀ l, l ∈ links → originates self l.
Proof.
  destruct r as [html|]; cbn [mbind result_bind Py.bind]; [|done].
  unfold _extract_links. intros (new & -> & Hnew & _)%collect_links_spec l Hl.
  apply Hnew in Hl as (a_tag & _ & _ & Hnorm). right. eauto.
Qed.

Lemma step_origin self st st' :
  step self st = Some (Py.Ok st') →
  (∀ u, u ∈ queue st ∨ u ∈ visited_urls st → originates self u) →
  ∀ u, u ∈ queue st' ∨ u ∈ visited_urls st' → originates self u.
Proof.
  intros Hstep Hinv.
  pose proof (fun u Hu => Hinv u (or_introl Hu)) as Hq.
  pose proof (fun u Hu => Hinv u (or_intror Hu)) as Hv. clear Hinv.
  loop_paths.
  all: cbn [queue visited_urls content_hashes failed_urls pages_crawled
            all_markdown llms_md events].
  all: intros u;
    rewrite ?elem_of_app, ?elem_of_union, ?elem_of_singleton;
    intros Hu; destruct_or?; simplify_eq;
    try (apply Hq; by left); try (apply Hq; by right); try (by apply Hv).
  all: eapply extracted_links_originate; [eassumption|].
  all: by eapply elem_of_list_filter_bool.
Qed.

(** What [_normalize_url] returns is, for a crawl with a root domain, a URL
    that parses to an http(s) address in scope. *)
Lemma normalized_in_scope self href parent u :
  domain self ≠ "" →
  _normalize_url self href parent = Py.Ok (Some u) →
  ∃ p, Url.urlparse u = Py.Ok p ∧ accepted self p ∧ clean_url p = u.
Proof.
  intros Hd (url' & p & Hp & Hacc & ->)%normalize_inv.
  destruct (clean_url_rebuilt self url' p Hd Hp Hacc)
    as (pa' & Hc & Hu & Hh & Hq & Hfirst & Hlast).
  destruct (urlparse_shape _ _ Hp) as (Hn1 & Hn2 & Hbr & Hck & _).
  pose proof Hacc as (Hs & Hscope & _).
  pose proof (urlparse_rebuilt (Url.scheme p) (Url.netloc p) pa'
                Hs Hn1 Hn2 Hbr Hck Hu Hh Hq (or_intror (conj Hfirst Hlast)))
    as Hp'.
  rewrite <- Hc in Hp'.
  eexists. split; [exact Hp'|]. split.
  - split; [done|]. split; [done|]. by apply skip_extensions_slash.
  - unfold clean_url at 1. cbn [Url.scheme Url.netloc Url.path].
    by rewrite <- Hc, clean_url_ends_with_slash.
Qed.

Lemma reachable_origin self st :
  reachable self st →
  ∀ u, u ∈ queue st ∨ u ∈ visited_urls st → originates self u.
Proof.
  induction 1 as [|st st' _ IH Hstep].
  - intros u [->%list_elem_of_singleton|Hu]; [by left|done].
  - by eapply step_origin.
Qed.

(** X21.  A crawl with a root domain stays in scope: every URL it hands to
    the pipeline is the seed as given, or a URL returned by
    [_normalize_url], which parses to an http(s) address whose host passes
    the scope check and whose path has no skipped extension. *)
Theorem crawl_stays_in_scope (self : crawler) (st : crawl_state) (u : string) :
  domain self ≠ "" →
  reachable self st →
  u ∈ pipeline_urls (events st) →
  u = start_url self
  ∨ (∃ href parent, _normalize_url self href parent = Py.Ok (Some u))
    ∧ ∃ p, Url.urlparse u = Py.Ok p ∧ accepted self p ∧ clean_url p = u.
Proof.
  intros Hd Hreach Hu.
  destruct (reachable_invariant self st Hreach) as (_ & _ & _ & Hvisited & _).
  destruct (reachable_origin self st Hreach u (or_intror (Hvisited u Hu)))
    as [->|(href & parent & Hnorm)]; [by left|].
  right. split; [eauto|]. by eapply normalized_in_scope.
Qed.

(** X22.  A page is kept even when its links are lost: if the pipeline
    returned new Markdown for a URL but the second request for the page or
    the extraction of its links raises, the iteration has already appended
    the section of the page and counted it, enqueues nothing, and lists the
    URL in [failed_urls] with the exception. *)
Theorem page_kept_though_links_failed
    (self : crawler) (url : string) (st : crawl_state)
    (file : option string) (page_markdown : string) (parsed : Url.parts)
    (e : string) :
  url ∉ visited_urls st →
  _can_fetch self url = Py.Ok true →
  parse_url_to_markdown url (llms_md st) = (file, Py.Ok page_markdown) →
  md5_hexdigest page_markdown ∉ content_hashes st →
  Url.urlparse url = Py.Ok parsed →
  (html_content ← requests_get_text url; _extract_links self url html_content)
  = Py.Raise e →
  Qle_bool 0 (delay self) = true →
  ∃ st',
    loop_body self url st = Py.Ok st'
    ∧ all_markdown st' = all_markdown st +:+ section_of url page_markdown
    ∧ pages_crawled st' = (pages_crawled st + 1)%Z
    ∧ queue st' = queue st
    ∧ (url, e) ∈ failed_urls st'.
Proof.
  intros Hnew Hcan Hparse Hhash Hurl Hlinks Hdelay.
  unfold loop_body. rewrite bool_decide_eq_false_2 by done.
  rewrite Hcan. cbn [mbind result_bind Py.bind negb]. unfold inner_try.
  cbn [queue visited_urls content_hashes failed_urls pages_crawled
       all_markdown llms_md events].
  rewrite Hparse. unfold _is_duplicate_content.
  rewrite bool_decide_eq_false_2 by done. rewrite Hurl, Hlinks.
  unfold sleep_after, time_sleep. rewrite Hdelay.
  cbn [record_failure queue visited_urls content_hashes failed_urls pages_crawled
       all_markdown llms_md events].
  unfold section_of. rewrite Hurl.
  eexists. split; [reflexivity|].
  cbn [queue visited_urls content_hashes failed_urls pages_crawled
       all_markdown llms_md events].
  repeat split; try done. apply dict_set_same.
Qed.

Lemma crawl_loop_more self fuel : ∀ st r more,
  crawl_loop fuel self st = Some r →
  crawl_loop (fuel + more) self st = Some r.
Proof.
  induction fuel as [|fuel IH]; intros st r more; cbn [crawl_loop Nat.add].
  - destruct (step self st) as [[st'|e]|] eqn:Hstep; [done| |];
      intros [= <-]; destruct more; cbn [crawl_loop]; by rewrite Hstep.
  - destruct (step self st) as [[st'|e]|] eqn:Hstep; [by apply IH|done..].
Qed.

(** The loop is left in a reachable state in which its condition fails. *)
Lemma crawl_loop_left self fuel : ∀ st st',
  crawl_loop fuel self st = Some (Py.Ok st') →
  reachable self st →
  reachable self st' ∧ step self st' = None.
Proof.
  induction fuel as [|fuel IH]; intros st st'; cbn [crawl_loop].
  - destruct (step self st) as [[st1|e]|] eqn:Hstep; [done..|]. by intros [= <-].
  - destruct (step self st) as [[st1|e]|] eqn:Hstep.
    + intros Hloop Hreach. apply (IH st1); [done|]. by eapply reachable_step.
    + done.
    + by intros [= <-].
Qed.

(** The loop raises in a reachable state whose iteration raises. *)
Lemma crawl_loop_raised self fuel : ∀ st e,
  crawl_loop fuel self st = Some (Py.Raise e) →
  reachable self st →
  ∃ st', reachable self st' ∧ step self st' = Some (Py.Raise e).
Proof.
  induction fuel as [|fuel IH]; intros st e; cbn [crawl_loop].
  - destruct (step self st) as [[st1|e1]|] eqn:Hstep; [done| |done].
    intros [= <-] Hreach. eauto.
  - destruct (step self st) as [[st1|e1]|] eqn:Hstep.
    + intros Hloop Hreach. apply (IH st1); [done|]. by eapply reachable_step.
    + intros [= <-] Hreach. eauto.
    + done.
Qed.

(** Only the robots check makes an iteration raise. *)
Lemma step_raises self st e :
  step self st = Some (Py.Raise e) →
  ∃ url rest,
    queue st = url :: rest
    ∧ (pages_crawled st < max_pages self)%Z
    ∧ (url ∉ visited_urls st)
    ∧ _can_fetch self url = Py.Raise e.
Proof.
  unfold step. destruct (queue st) as [|url rest]; [done|].
  destruct (Z.ltb_spec (pages_crawled st) (max_pages self)); [|done].
  intros [= Hbody]. exists url, rest. split; [done|]. split; [done|].
  revert Hbody. unfold loop_body, pop.
  cbn [queue visited_urls content_hashes failed_urls pages_crawled
       all_markdown llms_md events].
  destruct (bool_decide_reflect (url ∈ visited_urls st)); [done|].
  destruct (_can_fetch self url) as [[|]|e']; cbn [mbind result_bind Py.bind negb].
  - by destruct (inner_try _ _ _).
  - done.
  - by intros [= ->].
Qed.

(** X23.  With the file [llms.md] writable, the loop of [crawl] always
    ends, in one of two ways.  Either it is left, with the queue empty or
    the page budget used up, and [crawl] returns the accumulated Markdown
    followed by the summary, which is also appended to the file; or
    [_can_fetch], called outside both [try] blocks, raises for a dequeued
    URL not visited before, and [crawl] raises that exception, which only
    a crawler with a robots parser can do. *)
Theorem crawl_ends (self : crawler) :
  ∃ fuel st,
    reachable self st
    ∧ ((queue st = [] ∨ (max_pages self ≤ pages_crawled st)%Z)
       ∧ (∀ more,
            crawl (fuel + more) self
            = Some (Py.Ok (all_markdown st +:+ summary st,
                           append_file (llms_md st) (summary st))))
       ∨ ∃ url rest e,
           queue st = url :: rest
           ∧ (pages_crawled st < max_pages self)%Z
           ∧ (url ∉ visited_urls st)
           ∧ _can_fetch self url = Py.Raise e
           ∧ robots_parser self ≠ None
           ∧ ∀ more, crawl (fuel + more) self = Some (Py.Raise e)).
Proof.
  destruct (crawl_loop_terminates self (crawl_start self)) as [fuel [[st|e] Hst]].
  - exists fuel, st.
    destruct (crawl_loop_left self fuel _ _ Hst (reachable_start self))
      as [Hreach Hstop].
    split; [done|]. left. split.
    + unfold step in Hstop. destruct (queue st); [by left|].
      destruct (Z.ltb_spec (pages_crawled st) (max_pages self)); [done|by right].
    + intros more. unfold crawl. by rewrite (crawl_loop_more _ _ _ _ more Hst).
  - destruct (crawl_loop_raised self fuel _ _ Hst (reachable_start self))
      as (st & Hreach & Hstep).
    exists fuel, st. split; [done|]. right.
    destruct (step_raises _ _ _ Hstep) as (url & rest & Hq & Hlt & Hnew & Hcan).
    exists url, rest, e. repeat (split; [done|]). split.
    + intros Hnone. unfold _can_fetch in Hcan. by rewrite Hnone in Hcan.
    + intros more. unfold crawl. by rewrite (crawl_loop_more _ _ _ _ more Hst).
Qed.

(** X24.  A page that cannot be fetched is recorded and nothing else: the
    iteration lists the URL in [failed_urls] with the message of
    [fetch_url] wrapped by the pipeline, counts no page, appends nothing,
    leaves the file and the queue as they are, and marks the URL visited. *)
Theorem unfetchable_page_recorded
    (self : crawler) (url : string) (st : crawl_state) (e : string) :
  url ∉ visited_urls st →
  _can_fetch self url = Py.Ok true →
  requests_get_checked url = Py.Raise e →
  Qle_bool 0 (delay self) = true →
  ∃ st',
    loop_body self url st = Py.Ok st'
    ∧ failed_urls st'
      = Py.dict_set url
          ("Failed to process URL: Failed to fetch URL " +:+ url +:+ ": " +:+ e)
          (failed_urls st)
    ∧ pages_crawled st' = pages_crawled st
    ∧ all_markdown st' = all_markdown st
    ∧ llms_md st' = llms_md st
    ∧ queue st' = queue st
    ∧ visited_urls st' = {[ url ]} ∪ visited_urls st.
Proof.
  intros Hnew Hcan Hget Hdelay.
  unfold loop_body. rewrite bool_decide_eq_false_2 by done.
  rewrite Hcan. cbn [mbind result_bind Py.bind negb].
  unfold inner_try, parse_url_to_markdown, fetch_url.
  rewrite Hget. cbn [mbind result_bind Py.bind].
  unfold sleep_after, time_sleep. rewrite Hdelay.
  cbn [record_failure queue visited_urls content_hashes failed_urls pages_crawled
       all_markdown llms_md events].
  eexists. split; [reflexivity|].
  cbn [queue visited_urls content_hashes failed_urls pages_crawled
       all_markdown llms_md events].
  repeat split; reflexivity.
Qed.

Lemma step_negative_delay self st st' :
  Qle_bool 0 (delay self) = false →
  step self st = Some (Py.Ok st') →
  sleeps (events st) = 0 →
  (∀ page, page ∈ appended (events st) →
           fst page ∈ visited_urls st
           ∧ (fst page, "sleep length must be non-negative") ∈ failed_urls st) →
  sleeps (events st') = 0
  ∧ ∀ page, page ∈ appended (events st') →
            fst page ∈ visited_urls st'
            ∧ (fst page, "sleep length must be non-negative") ∈ failed_urls st'.
Proof.
  intros Hdelay Hstep Hsleeps Hfailed.
  loop_paths; try discriminate.
  all: cbn [queue visited_urls content_hashes failed_urls pages_crawled
            all_markdown llms_md events].
  all: rewrite <- ?(assoc_L (++)); cbn [app].
  all: rewrite ?sleeps_app, ?appended_app by done;
    cbn [appended]; rewrite ?List.app_nil_r.
  all: split; [unfold sleeps in *; cbn [List.filter is_sleep length]; lia|].
  all: intros page; rewrite ?elem_of_app, ?elem_of_cons, ?elem_of_nil;
    intros Hu; destruct_or?; simplify_eq; try done; cbn [fst].
  all: try (split; [set_solver|apply dict_set_same]).
  all: destruct (Hfailed page Hu) as [Hvisited Hlisted].
  all: split; [set_solver|].
  all: repeat (apply dict_set_other; [intros Heq; by rewrite Heq in Hvisited|]);
    done.
Qed.

(** X25.  With a negative delay [time.sleep] raises in every iteration that
    reaches it, and the outer handler records the exception: the crawl
    never sleeps, and every page it appended to the output is listed in
    [failed_urls] with the message of [time.sleep]. *)
Theorem negative_delay_fails_pages (self : crawler) (st : crawl_state) :
  Qle_bool 0 (delay self) = false →
  reachable self st →
  sleeps (events st) = 0
  ∧ ∀ page, page ∈ appended (events st) →
            (fst page, "sleep length must be non-negative") ∈ failed_urls st.
Proof.
  intros Hdelay Hreach.
  assert (sleeps (events st) = 0
          ∧ ∀ page, page ∈ appended (events st) →
                    fst page ∈ visited_urls st
                    ∧ (fst page, "sleep length must be non-negative")
                      ∈ failed_urls st)
    as [Hsleeps Hfailed].
  { induction Hreach as [|st st' _ [Hsleeps Hfailed] Hstep].
    - split; [done|]. by intros u ?%elem_of_nil.
    - by eapply step_negative_delay. }
  split; [done|]. intros page Hpage. by apply Hfailed.
Qed.

(** X26.  With a page budget of zero or less the loop is never entered:
    no request is made, nothing is marked visited, and [crawl] returns the
    summary alone, the file holding the header and the summary. *)
Theorem empty_budget_crawls_nothing (self : crawler) (fuel : nat) :
  (max_pages self ≤ 0)%Z →
  crawl_loop fuel self (crawl_start self) = Some (Py.Ok (crawl_start self))
  ∧ crawl fuel self
    = Some (Py.Ok (summary (crawl_start self),
                   Some (file_header self +:+ summary (crawl_start self))))
  ∧ (∀ st, reachable self st → st = crawl_start self).
Proof.
  intros Hbudget.
  assert (step self (crawl_start self) = None) as Hstep.
  { unfold step. cbn [crawl_start queue pages_crawled].
    destruct (Z.ltb_spec 0 (max_pages self)); [lia|done]. }
  assert (crawl_loop fuel self (crawl_start self) = Some (Py.Ok (crawl_start self)))
    as Hloop by (destruct fuel; cbn [crawl_loop]; by rewrite Hstep).
  split; [done|]. split.
  - unfold crawl. by rewrite Hloop.
  - induction 1 as [|st st' _ -> Hnext]; [done|]. congruence.
Qed.


Lemma step_distinct_pages self st st' :
  step self st = Some (Py.Ok st') →
  NoDup (map (fun page => md5_hexdigest (snd page)) (appended (events st))) →
  (∀ page, page ∈ appended (events st) →
           md5_hexdigest (snd page) ∈ content_hashes st) →
  NoDup (map (fun page => md5_hexdigest (snd page)) (appended (events st')))
  ∧ ∀ page, page ∈ appended (events st') →
            md5_hexdigest (snd page) ∈ content_hashes st'.
Proof.
  intros Hstep Hnodup Hhashes.
  loop_paths.
  all: cbn [queue visited_urls content_hashes failed_urls pages_crawled
            all_markdown llms_md events].
  all: rewrite <- ?(assoc_L (++)); cbn [app].
  all: rewrite ?appended_app by done; cbn [appended]; rewrite ?List.app_nil_r.
  all: try (split; [done|]; intros page Hpage; specialize (Hhashes page Hpage);
            set_solver).
  all: split.
  all: try (rewrite map_app; cbn [map snd]; apply NoDup_app; repeat split;
            [done| |apply NoDup_singleton];
            intros h (page & -> & Hpage)%list_elem_of_fmap
              Hsame%list_elem_of_singleton;
            specialize (Hhashes page Hpage); by rewrite Hsame in Hhashes).
  all: intros page [Hpage|Hpage%list_elem_of_singleton]%elem_of_app;
    [specialize (Hhashes page Hpage)|subst page; cbn [snd]]; set_solver.
Qed.

(** X28.  The pages a crawl appends to its output carry texts, as the
    pipeline returned them with their title lines, with pairwise distinct
    hashes, all of them recorded in [content_hashes]. *)
Theorem appended_pages_distinct (self : crawler) (st : crawl_state) :
  reachable self st →
  NoDup (map (fun page => md5_hexdigest (snd page)) (appended (events st)))
  ∧ ∀ page, page ∈ appended (events st) →
            md5_hexdigest (snd page) ∈ content_hashes st.
Proof.
  induction 1 as [|st st' _ [Hnodup Hhashes] Hstep].
  - split; [constructor|]. by intros page ?%elem_of_nil.
  - by eapply step_distinct_pages.
Qed.

End Crawler_more.


Lemma extract_links_normalized_witness :
  let links := ["https://example.com/private/keys/"; "https://example.com/about/";
                "https://example.com/"] in
  (∀ l, l ∈ links ↔
        ∃ a_tag,
          a_tag ∈ Soup.find_all has_href
                    (@html_parser World.guarded_site (World.markup World.home_page))
          ∧ usable_href (Py.strip (default "" (Soup.attr "href" a_tag))) = true
          ∧ @_normalize_url World.guarded_site World.guarded_crawler
              (Py.strip (default "" (Soup.attr "href" a_tag))) "https://example.com/"
            = Py.Ok (Some l))
  ∧ length links ≤ 5.
Proof.
  apply (@extract_links_normalized World.guarded_site World.guarded_crawler
           "https://example.com/" (World.markup World.home_page)).
  vm_compute. reflexivity.
Defined.

Lemma extract_links_all_or_nothing_witness :
  ∃ e', @_extract_links World.broken_site World.broken_crawler
          "https://example.com/" (World.markup World.broken_page)
        = Py.Raise e'.
Proof.
  apply (@extract_links_all_or_nothing World.broken_site World.broken_crawler
           "https://example.com/" (World.markup World.broken_page)
           (Soup.Elem "a" [("href", "http://[::1/")] [Soup.Text "Local"])
           "Invalid IPv6 URL").
  - apply list_elem_of_In. vm_compute. tauto.
  - vm_compute. reflexivity.
  - vm_compute. reflexivity.
Defined.

Lemma robots_respected_witness :
  let self := World.guarded_crawler in
  let st := World.run World.guarded_site 6 self in
  (∀ u, u ∈ pipeline_urls (events st) ∨ u ∈ refetched (events st) →
        _can_fetch self u = Py.Ok true)
  ∧ (∀ u, u ∈ visited_urls st → _can_fetch self u = Py.Ok false →
          (u, "Blocked by robots.txt") ∈ failed_urls st).
Proof.
  apply (@robots_respected World.guarded_site World.guarded_crawler).
  apply run_reachable.
Defined.

Lemma pages_crawled_counts_returns_witness :
  let st := World.run World.guarded_site 6 World.guarded_crawler in
  pages_crawled st = Z.of_nat (returned (events st))
  ∧ length (refetched (events st)) ≤ returned (events st).
Proof.
  apply (@pages_crawled_counts_returns World.guarded_site World.guarded_crawler).
  apply run_reachable.
Defined.

Lemma crawl_markdown_is_page_sections_witness :
  let st := World.run World.guarded_site 6 World.guarded_crawler in
  all_markdown st = @sections World.guarded_site (events st).
Proof.
  apply (@crawl_markdown_is_page_sections World.guarded_site World.guarded_crawler).
  apply run_reachable.
Defined.

Lemma crawl_stays_in_scope_witness :
  let self := World.guarded_crawler in
  let u := "https://example.com/about/" in
  u = start_url self
  ∨ (∃ href parent,
       @_normalize_url World.guarded_site self href parent = Py.Ok (Some u))
    ∧ ∃ p, @Url.urlparse World.guarded_site u = Py.Ok p
           ∧ accepted self p ∧ clean_url p = u.
Proof.
  apply (@crawl_stays_in_scope World.guarded_site World.guarded_crawler
           (World.run World.guarded_site 6 World.guarded_crawler)).
  - vm_compute. discriminate.
  - apply run_reachable.
  - apply list_elem_of_In. vm_compute. tauto.
Defined.

Lemma page_kept_though_links_failed_witness :
  let self := World.broken_crawler in
  let url := "https://example.com/" in
  let st := @crawl_start World.broken_site self in
  ∃ st',
    @loop_body World.broken_site self url st = Py.Ok st'
    ∧ all_markdown st'
      = all_markdown st
        +:+ @section_of World.broken_site url
              (default "" (fst (@parse_url_to_markdown World.broken_site url None)))
    ∧ pages_crawled st' = 1%Z
    ∧ queue st' = queue st
    ∧ (url, "Invalid IPv6 URL") ∈ failed_urls st'.
Proof.
  apply (@page_kept_though_links_failed World.broken_site World.broken_crawler
           "https://example.com/" (@crawl_start World.broken_site World.broken_crawler)
           (fst (@parse_url_to_markdown World.broken_site "https://example.com/" None))
           (default "" (fst (@parse_url_to_markdown World.broken_site
                               "https://example.com/" None)))
           (Url.Parts "https" "example.com" "/" "" "" "")).
  - apply not_elem_of_empty.
  - vm_compute. reflexivity.
  - vm_compute. reflexivity.
  - apply not_elem_of_empty.
  - vm_compute. reflexivity.
  - vm_compute. reflexivity.
  - vm_compute. reflexivity.
Defined.

Lemma unfetchable_page_recorded_witness :
  let self := World.dead_crawler in
  let url := "https://example.com/" in
  let st := @crawl_start World.dead_site self in
  ∃ st',
    @loop_body World.dead_site self url st = Py.Ok st'
    ∧ failed_urls st'
      = Py.dict_set url
          ("Failed to process URL: Failed to fetch URL " +:+ url +:+ ": "
           +:+ "404 Client Error: Not Found for url: https://example.com/")
          (failed_urls st)
    ∧ pages_crawled st' = pages_crawled st
    ∧ all_markdown st' = all_markdown st
    ∧ llms_md st' = llms_md st
    ∧ queue st' = queue st
    ∧ visited_urls st' = {[ url ]} ∪ visited_urls st.
Proof.
  apply (@unfetchable_page_recorded World.dead_site World.dead_crawler
           "https://example.com/" (@crawl_start World.dead_site World.dead_crawler)).
  - apply not_elem_of_empty.
  - vm_compute. reflexivity.
  - vm_compute. reflexivity.
  - vm_compute. reflexivity.
Defined.

Lemma negative_delay_fails_pages_witness :
  let self := with_delay World.guarded_crawler (-1 # 2) in
  let st := World.run World.guarded_site 6 self in
  sleeps (events st) = 0
  ∧ ∀ page, page ∈ appended (events st) →
            (fst page, "sleep length must be non-negative") ∈ failed_urls st.
Proof.
  apply (@negative_delay_fails_pages World.guarded_site
           (with_delay World.guarded_crawler (-1 # 2))).
  - vm_compute. reflexivity.
  - apply run_reachable.
Defined.

Lemma empty_budget_crawls_nothing_witness :
  let self := World.crawler_for World.dead_site "https://example.com/" false 0 in
  @crawl_loop World.dead_site 5 self (@crawl_start World.dead_site self)
  = Some (Py.Ok (@crawl_start World.dead_site self))
  ∧ @crawl World.dead_site 5 self
    = Some (Py.Ok (summary (@crawl_start World.dead_site self),
                   Some (@file_header World.dead_site self
                         +:+ summary (@crawl_start World.dead_site self))))
  ∧ (∀ st, @reachable World.dead_site self st
           → st = @crawl_start World.dead_site self).
Proof.
  apply (@empty_budget_crawls_nothing World.dead_site
           (World.crawler_for World.dead_site "https://example.com/" false 0) 5).
  vm_compute. discriminate.
Defined.


Lemma appended_pages_distinct_witness :
  let st := World.run World.guarded_site 6 World.guarded_crawler in
  NoDup (map (fun page => @md5_hexdigest World.guarded_site (snd page))
           (appended (events st)))
  ∧ ∀ page, page ∈ appended (events st) →
            @md5_hexdigest World.guarded_site (snd page) ∈ content_hashes st.
Proof.
  apply (@appended_pages_distinct World.guarded_site World.guarded_crawler).
  apply run_reachable.
Defined.

(** The second way at work.  In the world [escaped_site] the first page
    links to a host written with an escaped bracket, which is in scope when
    subdomains are allowed; the robots parser cannot parse the URL with the
    escape undone, and [crawl] raises after one page. *)
Lemma crawl_raises_on_robots_error :
  let self := World.escaped_crawler in
  let st := World.run World.escaped_site 1 self in
  queue st = ["https://%5Bexample.com/x/"]
  ∧ pages_crawled st = 1%Z
  ∧ _can_fetch self "https://%5Bexample.com/x/" = Py.Raise "Invalid IPv6 URL"
  ∧ @step World.escaped_site self st = Some (Py.Raise "Invalid IPv6 URL")
  ∧ @crawl World.escaped_site 5 self = Some (Py.Raise "Invalid IPv6 URL").
Proof. vm_compute. repeat split. Qed.
